(** * DerivaLogic: a shallow embedding of the script/event client and of the
      design notes of the Ox analytics engine.

    The development follows the layout of the repository:
    - [Backend]: the hosted relational store the hooks talk to (tables
      [scripts] and [events], PostgREST-style filtered requests);
    - [ScriptMutations], [DraftDeletion]: hooks/useScriptMutations.tsx and
      hooks/useDraftDeletion.tsx;
    - [EventsQuery], [EventMutations], [EventsHandlers]: the event hooks;
    - [Auth]: pages/Auth.tsx (password policy);
    - [EventsHeader]: the in-place script-name editor;
    - [MarketData]: the spot-rate client;
    - [Fuzzy]: the functional-if of the smoothing notes. *)

From Stdlib Require Import Reals Lra.
From Stdlib Require Import ZArith NArith String Ascii List DecimalString QArith.
From stdpp Require Import base tactics option list sorting strings numbers.

(** ** Results of asynchronous functions: a value, or a thrown error *)

Inductive Result (A : Type) : Type :=
| Ok (a : A)
| Throw (message : string).
Arguments Ok {A} a.
Arguments Throw {A} message.

(** JavaScript truthiness of a string: only the empty string is falsy. *)
Definition truthy (s : string) : bool := negb (String.eqb s "").

(** The signed-in user, as [useAuth] returns it. *)
Record User := { user_uid : string }.

(** [interface Script]: only the fields the embedded hooks read. *)
Module Script.
Record t := {
  id : string;
  name : string;
  referenceDate : Z;
  status : option string
}.
End Script.

(** [interface Event]. *)
Module Event.
Record t := {
  id : string;
  eventDate : Z;
  script : string;
  name : option string;
  description : option string
}.
End Event.

(** [user?.id] and [script?.id]: a null object and an empty id are both
    falsy, so a null object is given the empty id. *)
Definition user_id_of (user : option User) : string :=
  match user with Some u => user_uid u | None => "" end.

Definition script_id_of (script : option Script.t) : string :=
  match script with Some s => Script.id s | None => "" end.

(** ** The backend: two tables and the requests the hooks issue *)

(** The store is a hosted service the client reaches through its REST
    interface.  It is modelled by what that interface does with the requests
    the hooks send: a table is a list of rows, chained [eq] filters select
    the rows that pass all of them, a delete removes the selected rows, an
    update assigns the keys of its body on the selected rows, and an ordered
    select returns the selected rows sorted on the column.  A request may
    also be refused (network, authorisation or server failure); it then
    changes nothing and its response carries the error. *)

Module Backend.

(** Rows of the [scripts] table.  Timestamps are milliseconds since the
    epoch; [toISOString] and the column's timestamp type carry the same
    instant. *)
Record ScriptRow := {
  script_id : string;
  script_name : string;
  reference_date : Z;
  script_status : string;
  script_user_id : string;
  created_at : Z
}.

(** Rows of the [events] table; [name] and [description] are nullable. *)
Record EventRow := {
  event_id : string;
  event_script_id : string;
  event_user_id : string;
  event_name : option string;
  event_description : option string;
  event_date : Z;
  script_content : string
}.

Record DB := {
  scripts : list ScriptRow;
  events : list EventRow
}.

(** [.eq(column, value)] on each table, for the columns the hooks filter. *)
Inductive ScriptFilter :=
| ScriptIdEq (v : string)
| ScriptUserIdEq (v : string)
| ScriptStatusEq (v : string).

Inductive EventFilter :=
| EventIdEq (v : string)
| EventScriptIdEq (v : string)
| EventUserIdEq (v : string).

Definition script_eq (r : ScriptRow) (f : ScriptFilter) : bool :=
  match f with
  | ScriptIdEq v => String.eqb (script_id r) v
  | ScriptUserIdEq v => String.eqb (script_user_id r) v
  | ScriptStatusEq v => String.eqb (script_status r) v
  end.

Definition event_eq (r : EventRow) (f : EventFilter) : bool :=
  match f with
  | EventIdEq v => String.eqb (event_id r) v
  | EventScriptIdEq v => String.eqb (event_script_id r) v
  | EventUserIdEq v => String.eqb (event_user_id r) v
  end.

(** A row is selected when it passes every chained filter. *)
Definition script_matches (fs : list ScriptFilter) (r : ScriptRow) : bool :=
  forallb (script_eq r) fs.

Definition event_matches (fs : list EventFilter) (r : EventRow) : bool :=
  forallb (event_eq r) fs.

(** The body of a PATCH on [scripts]: the hooks only ever send both keys. *)
Record ScriptPatch := {
  patch_name : string;
  patch_status : string
}.

Definition patch_script (p : ScriptPatch) (r : ScriptRow) : ScriptRow :=
  {| script_id := script_id r;
     script_name := patch_name p;
     reference_date := reference_date r;
     script_status := patch_status p;
     script_user_id := script_user_id r;
     created_at := created_at r |}.

(** The body of a POST on [scripts]; [id] and [created_at] are column
    defaults filled in by the server. *)
Record ScriptInsert := {
  ins_name : string;
  ins_reference_date : Z;
  ins_status : string;
  ins_user_id : string
}.

(** The body of a PATCH on [events] after JSON serialisation: one
    assignment per key that survived. *)
Inductive EventAssign :=
| SetName (v : string)
| SetDescription (v : string)
| SetEventDate (v : Z)
| SetScriptContent (v : string).

Definition assign_event (r : EventRow) (a : EventAssign) : EventRow :=
  match a with
  | SetName v =>
      {| event_id := event_id r; event_script_id := event_script_id r;
         event_user_id := event_user_id r; event_name := Some v;
         event_description := event_description r;
         event_date := event_date r; script_content := script_content r |}
  | SetDescription v =>
      {| event_id := event_id r; event_script_id := event_script_id r;
         event_user_id := event_user_id r; event_name := event_name r;
         event_description := Some v;
         event_date := event_date r; script_content := script_content r |}
  | SetEventDate v =>
      {| event_id := event_id r; event_script_id := event_script_id r;
         event_user_id := event_user_id r; event_name := event_name r;
         event_description := event_description r;
         event_date := v; script_content := script_content r |}
  | SetScriptContent v =>
      {| event_id := event_id r; event_script_id := event_script_id r;
         event_user_id := event_user_id r; event_name := event_name r;
         event_description := event_description r;
         event_date := event_date r; script_content := v |}
  end.

Definition patch_event (body : list EventAssign) (r : EventRow) : EventRow :=
  fold_left assign_event body r.

(** Everything the client can ask of the backend. *)
Inductive Request :=
| InsertScript (body : ScriptInsert)
| UpdateScripts (body : ScriptPatch) (fs : list ScriptFilter)
| DeleteScripts (fs : list ScriptFilter)
| UpdateEvents (body : list EventAssign) (fs : list EventFilter)
| DeleteEvents (fs : list EventFilter)
| SelectEvents (fs : list EventFilter).

(** The server: its tables, the requests it has received (oldest first),
    the requests it refuses with an error, and the defaults it gives to
    inserted rows (the n-th generated uuid, the clock). *)
Record Server := {
  db : DB;
  log : list Request;
  refuses : Request -> option string;
  uuid_gen : nat -> string;
  uuid_count : nat;
  server_clock : Z
}.

Definition with_db (d : DB) (sv : Server) : Server :=
  {| db := d; log := log sv; refuses := refuses sv;
     uuid_gen := uuid_gen sv; uuid_count := uuid_count sv;
     server_clock := server_clock sv |}.

Definition with_uuid_drawn (sv : Server) : Server :=
  {| db := db sv; log := log sv; refuses := refuses sv;
     uuid_gen := uuid_gen sv; uuid_count := S (uuid_count sv);
     server_clock := server_clock sv |}.

Definition received (req : Request) (sv : Server) : Server :=
  {| db := db sv; log := log sv ++ [req]; refuses := refuses sv;
     uuid_gen := uuid_gen sv; uuid_count := uuid_count sv;
     server_clock := server_clock sv |}.

(** What [await supabase.from(...)...] resolves to: it never throws. *)
Record Response (A : Type) := {
  data : option A;
  error : option string
}.
Arguments data {A} _.
Arguments error {A} _.

Definition answered {A} (a : A) : Response A := {| data := Some a; error := None |}.
Definition refused {A} (e : string) : Response A := {| data := None; error := Some e |}.

(** Client-side computations: they read and change the server, and
    either return or throw. *)
Definition Client (A : Type) : Type := Server -> Result A * Server.

Definition ret {A} (a : A) : Client A := fun sv => (Ok a, sv).
Definition throw {A} (e : string) : Client A := fun sv => (Throw e, sv).
Definition bind {A B} (c : Client A) (k : A -> Client B) : Client B :=
  fun sv =>
    match c sv with
    | (Ok a, sv') => k a sv'
    | (Throw e, sv') => (Throw e, sv')
    end.

(** One round trip: the request is logged; a refused request changes
    nothing; otherwise [serve] computes the answer and the new tables. *)
Definition round_trip {A} (req : Request) (serve : Server -> Response A * Server)
  : Client (Response A) :=
  fun sv =>
    match refuses sv req with
    | Some e => (Ok (refused e), received req sv)
    | None => let '(resp, sv') := serve (received req sv) in (Ok resp, sv')
    end.

(** [from('scripts').insert(body).select().single()]: the new row gets the
    server's defaults; a duplicate primary key is a unique violation. *)
Definition insert_script_single (body : ScriptInsert) : Client (Response ScriptRow) :=
  round_trip (InsertScript body) (fun sv =>
    let row := {| script_id := uuid_gen sv (uuid_count sv);
                  script_name := ins_name body;
                  reference_date := ins_reference_date body;
                  script_status := ins_status body;
                  script_user_id := ins_user_id body;
                  created_at := server_clock sv |} in
    if existsb (fun r => String.eqb (script_id r) (script_id row)) (scripts (db sv))
    then (refused "23505", with_uuid_drawn sv)
    else (answered row,
          with_db {| scripts := scripts (db sv) ++ [row];
                     events := events (db sv) |} (with_uuid_drawn sv))).

(** [from('scripts').update(body).eq(..)...select().single()]: [single]
    demands exactly one affected row, otherwise the statement is rolled
    back and an error is answered. *)
Definition update_scripts_single (body : ScriptPatch) (fs : list ScriptFilter)
  : Client (Response ScriptRow) :=
  round_trip (UpdateScripts body fs) (fun sv =>
    match filter (fun r => script_matches fs r) (scripts (db sv)) with
    | [r] =>
        (answered (patch_script body r),
         with_db {| scripts := (fun r => if script_matches fs r
                                         then patch_script body r else r)
                               <$> scripts (db sv);
                    events := events (db sv) |} sv)
    | _ => (refused "PGRST116", sv)
    end).

(** [from('scripts').delete().eq(..)...]: every selected row goes; zero
    selected rows is not an error. *)
Definition delete_scripts (fs : list ScriptFilter) : Client (Response unit) :=
  round_trip (DeleteScripts fs) (fun sv =>
    (answered tt,
     with_db {| scripts := filter (fun r => ¬ script_matches fs r) (scripts (db sv));
                events := events (db sv) |} sv)).

Definition delete_events (fs : list EventFilter) : Client (Response unit) :=
  round_trip (DeleteEvents fs) (fun sv =>
    (answered tt,
     with_db {| scripts := scripts (db sv);
                events := filter (fun r => ¬ event_matches fs r) (events (db sv)) |} sv)).

(** [from('events').update(body).eq(..)...]: the keys present in the body
    are assigned on every selected row. *)
Definition update_events (body : list EventAssign) (fs : list EventFilter)
  : Client (Response unit) :=
  round_trip (UpdateEvents body fs) (fun sv =>
    (answered tt,
     with_db {| scripts := scripts (db sv);
                events := (fun r => if event_matches fs r
                                    then patch_event body r else r)
                          <$> events (db sv) |} sv)).

(** [from('events').select('*').eq(..)...order('event_date',
    { ascending: true })]. *)
Definition date_le (x y : EventRow) : Prop := (event_date x <= event_date y)%Z.

#[global] Instance date_le_dec (x y : EventRow) : Decision (date_le x y).
Proof. unfold date_le. apply _. Defined.

Definition select_events_by_date (fs : list EventFilter)
  : Client (Response (list EventRow)) :=
  round_trip (SelectEvents fs) (fun sv =>
    (answered (merge_sort date_le
                 (filter (fun r => event_matches fs r) (events (db sv)))), sv)).

End Backend.

Notation "'await' x <- c ;; k" := (Backend.bind c (fun x => k))
  (at level 10, x name, c at level 99, k at level 200).

(** ** hooks/useScriptMutations.tsx *)

Module ScriptMutations.
Import Backend.

Record SaveVars := { scriptName : string; transactionDetails : string }.
Record SaveResult := { saved_scriptName : string; saved_scriptId : string }.

Section useScriptMutations.
Variable script : option Script.t.
Variable user : option User.

Definition saveScriptMutation (v : SaveVars) : Client SaveResult :=
  if negb (truthy (user_id_of user)) || negb (truthy (script_id_of script))
  then throw "User not authenticated or script not found"
  else
    await resp <- update_scripts_single
                    {| patch_name := scriptName v; patch_status := "SAVED" |}
                    [ScriptIdEq (script_id_of script);
                     ScriptUserIdEq (user_id_of user)] ;;
    match error resp, data resp with
    | Some e, _ => throw e
    | None, Some row =>
        ret {| saved_scriptName := script_name row;
               saved_scriptId := script_id row |}
    | None, None => throw "TypeError"
    end.

(** [now] is what [new Date()] reads on the client. *)
Definition createScriptMutation (now : Z) : Client ScriptRow :=
  if negb (truthy (user_id_of user))
  then throw "User not authenticated"
  else
    await resp <- insert_script_single
                    {| ins_name := "New Script*";
                       ins_reference_date := now;
                       ins_status := "DRAFT";
                       ins_user_id := user_id_of user |} ;;
    match error resp, data resp with
    | Some e, _ => throw e
    | None, Some row => ret row
    | None, None => throw "TypeError"
    end.

Definition deleteDraftScriptMutation (scriptId : string) : Client unit :=
  if negb (truthy (user_id_of user))
  then throw "User not authenticated"
  else
    (* First delete all events associated with the script *)
    await r1 <- delete_events
                  [EventScriptIdEq scriptId; EventUserIdEq (user_id_of user)] ;;
    match error r1 with
    | Some eventsError => throw eventsError
    | None =>
        (* Then delete the script, only if it is still a draft *)
        await r2 <- delete_scripts
                      [ScriptIdEq scriptId; ScriptUserIdEq (user_id_of user);
                       ScriptStatusEq "DRAFT"] ;;
        match error r2 with
        | Some scriptError => throw scriptError
        | None => ret tt
        end
    end.
End useScriptMutations.
End ScriptMutations.

(** ** hooks/useDraftDeletion.tsx *)

Module DraftDeletion.
Import Backend.

Section useDraftDeletion.
Variable user : option User.

Definition deleteDraftMutation (scriptId : string) : Client unit :=
  if negb (truthy (user_id_of user))
  then throw "User not authenticated"
  else
    await r1 <- delete_events
                  [EventScriptIdEq scriptId; EventUserIdEq (user_id_of user)] ;;
    match error r1 with
    | Some eventsError => throw eventsError
    | None =>
        await r2 <- delete_scripts
                      [ScriptIdEq scriptId; ScriptUserIdEq (user_id_of user);
                       ScriptStatusEq "DRAFT"] ;;
        match error r2 with
        | Some scriptError => throw scriptError
        | None => ret tt
        end
    end.
End useDraftDeletion.
End DraftDeletion.

(** ** The events query hook *)

Module EventsQuery.
Import Backend.

Definition to_event (event : EventRow) : Event.t :=
  {| Event.id := event_id event;
     Event.eventDate := event_date event;
     Event.script := script_content event;
     Event.name := event_name event;
     Event.description := event_description event |}.

Section useEventsQuery.
Variable script : option Script.t.
Variable user : option User.

Definition queryFn : Client (list Event.t) :=
  if negb (truthy (script_id_of script)) || negb (truthy (user_id_of user))
  then ret []
  else
    await resp <- select_events_by_date
                    [EventScriptIdEq (script_id_of script);
                     EventUserIdEq (user_id_of user)] ;;
    match error resp, data resp with
    | Some e, _ => throw e
    | None, Some rows => ret (to_event <$> rows)
    | None, None => throw "TypeError"
    end.

Definition enabled : bool :=
  truthy (script_id_of script) && truthy (user_id_of user).
End useEventsQuery.
End EventsQuery.

(** ** The event mutations hook (update path) *)

Module EventMutations.
Import Backend.

(** [Partial<Event>]: every key may be absent. *)
Record PartialEvent := {
  id : option string;
  eventDate : option Z;
  script : option string;
  name : option string;
  description : option string
}.

Record UpdateVars := { eventId : string; updates : PartialEvent }.

(** The object literal handed to [update]: each property is what the
    corresponding key of [updates] held, possibly [undefined]. *)
Record UpdateBody := {
  body_name : option string;
  body_description : option string;
  body_event_date : option Z;
  body_script_content : option string
}.

(** Serialisation of the request body: a property whose value is
    [undefined] is left out, the others keep their order. *)
Definition JSON_stringify (o : UpdateBody) : list EventAssign :=
  omap (fun kv => kv)
    [SetName <$> body_name o;
     SetDescription <$> body_description o;
     SetEventDate <$> body_event_date o;
     SetScriptContent <$> body_script_content o].

Section useEventMutations.
Variable user : option User.

Definition updateEventMutation (v : UpdateVars) : Client unit :=
  if negb (truthy (user_id_of user))
  then throw "User not authenticated"
  else
    await resp <- update_events
                    (JSON_stringify
                       {| body_name := name (updates v);
                          body_description := description (updates v);
                          body_event_date := eventDate (updates v);
                          body_script_content := script (updates v) |})
                    [EventIdEq (eventId v); EventUserIdEq (user_id_of user)] ;;
    match error resp with
    | Some e => throw e
    | None => ret tt
    end.

(** [mutation.mutate(v)]: runs the mutation function; a thrown error is
    handed to [onError] and goes no further. *)
Definition mutate (v : UpdateVars) (sv : Server) : Server :=
  snd (updateEventMutation v sv).
End useEventMutations.
End EventMutations.

(** ** The events handlers hook (update handlers) *)

Module EventsHandlers.
Import EventMutations.

Section useEventsHandlers.
Variable isModifyMode : bool.

(** Each handler either returns without doing anything ([None]) or calls
    [updateEventMutation.mutate] once with the variables shown. *)
Definition handleScriptChange (eventId value : string) : option UpdateVars :=
  if negb isModifyMode then None
  else Some {| eventId := eventId;
               updates := {| id := None; eventDate := None; script := Some value;
                             name := None; description := None |} |}.

Definition handleDateChange (eventId : string) (value : option Z) : option UpdateVars :=
  if negb isModifyMode then None
  else match value with
       | None => None
       | Some d =>
           Some {| eventId := eventId;
                   updates := {| id := None; eventDate := Some d; script := None;
                                 name := None; description := None |} |}
       end.

Definition handleNameChange (eventId name : string) : option UpdateVars :=
  if negb isModifyMode then None
  else Some {| eventId := eventId;
               updates := {| id := None; eventDate := None; script := None;
                             name := Some name; description := None |} |}.

Definition handleDescriptionChange (eventId description : string) : option UpdateVars :=
  if negb isModifyMode then None
  else Some {| eventId := eventId;
               updates := {| id := None; eventDate := None; script := None;
                             name := None; description := Some description |} |}.
End useEventsHandlers.

(** What a handler's outcome does to the server. *)
Definition dispatch (user : option User) (call : option UpdateVars)
  (sv : Backend.Server) : Backend.Server :=
  match call with
  | Some v => mutate user v sv
  | None => sv
  end.
End EventsHandlers.

(** ** JavaScript strings *)

Module JS.

(** A string value is a sequence of 16-bit code units; [length], [slice]
    and regular expressions without the [u] flag all work on code units. *)
Abbreviation code_unit := N (only parsing).
Abbreviation jsstring := (list N) (only parsing).

(** An ASCII literal as a string value. *)
Definition lit (s : string) : jsstring := N_of_ascii <$> list_ascii_of_string s.

(** [s.slice(0, n)] for a non-negative integer [n]. *)
Definition slice0 (n : nat) (s : jsstring) : jsstring := take n s.

(** [String(n)] for a non-negative integer. *)
Definition Number_toString (n : N) : string := NilZero.string_of_uint (N.to_uint n).

(** Character classes, and [/[class]/.test(s)]. *)
Definition in_range (lo hi : N) (c : code_unit) : bool := (lo <=? c)%N && (c <=? hi)%N.

Definition test (class : code_unit -> bool) (s : jsstring) : bool := existsb class s.

End JS.

(** ** pages/Auth.tsx: the sign-up password policy *)

Module Auth.
Import JS.

(** [A-Z], [a-z] and [\d]. *)
Definition upper : code_unit -> bool := in_range 65 90.
Definition lower : code_unit -> bool := in_range 97 122.
Definition digit : code_unit -> bool := in_range 48 57.

(** The members of the special-character class, in the order the source
    lists them; 34 is the quotation mark. *)
Definition special_characters : jsstring :=
  lit "!@#$%^&*(),.?" ++ [34%N] ++ lit ":{}|<>".

Definition special (c : code_unit) : bool :=
  existsb (N.eqb c) special_characters.

(** Returns the verdict together with the message given to
    [setPasswordError]. *)
Definition validatePassword (password : jsstring) : bool * string :=
  let minLength := 8 in
  let hasUpperCase := test upper password in
  let hasLowerCase := test lower password in
  let hasNumbers := test digit password in
  let hasSpecialChar := test special password in
  if length password <? minLength
  then (false, "Password must be at least 8 characters long")
  else if negb hasUpperCase
  then (false, "Password must contain at least one uppercase letter")
  else if negb hasLowerCase
  then (false, "Password must contain at least one lowercase letter")
  else if negb hasNumbers
  then (false, "Password must contain at least one number")
  else if negb hasSpecialChar
  then (false, "Password must contain at least one special character")
  else (true, "").

End Auth.

(** ** The events header: the in-place script-name editor *)

Module EventsHeader.
Import JS.

(** The props the name editor and its counter read. *)
Record Props := {
  currentScriptName : jsstring;
  isModifyMode : bool;
  has_onScriptNameChange : bool
}.

Record State := {
  scriptName : jsstring;
  isEditingName : bool
}.

Definition initial (p : Props) : State :=
  {| scriptName := currentScriptName p; isEditingName := false |}.

(** The new component state, and the arguments [onScriptNameChange] was
    called with. *)
Definition handleScriptNameChange (p : Props) (value : jsstring) (st : State)
  : State * list jsstring :=
  (* Limit to 60 characters *)
  let limitedValue := slice0 60 value in
  ({| scriptName := limitedValue; isEditingName := isEditingName st |},
   if has_onScriptNameChange p then [limitedValue] else []).

(** The element under the title: its class and its text, when rendered. *)
Record Counter := {
  className : string;
  text : string
}.

Definition counter (p : Props) (st : State) : option Counter :=
  if (60 <=? length (scriptName st)) && isModifyMode p
  then Some {| className := "text-xs text-red-500 font-medium";
               text := Number_toString (N.of_nat (length (scriptName st)))
                       +:+ "/60 characters" |}
  else None.

End EventsHeader.

(** ** The market-data client *)

Module MarketData.
Import JS.

(** Parsed JSON; the keys of an object are distinct. *)
#[warnings="-register-all"]
Inductive json :=
| JNull
| JBool (b : bool)
| JNumber (q : Q)
| JString (s : string)
| JArray (items : list json)
| JObject (fields : list (string * json)).

(** A JavaScript value here is parsed JSON or [undefined] ([None]). *)
Definition property (key : string) (fields : list (string * json)) : option json :=
  snd <$> find (fun kv => String.eqb (fst kv) key) fields.

(** [v?.[0]] *)
Definition optional_first (v : option json) : option json :=
  match v with
  | None | Some JNull => None
  | Some (JArray items) => head items
  | Some (JObject fields) => property "0" fields
  | Some (JString (String c _)) => Some (JString (String c EmptyString))
  | Some _ => None
  end.

(** [v?.rate] *)
Definition optional_rate (v : option json) : option json :=
  match v with
  | Some (JObject fields) => property "rate" fields
  | _ => None
  end.

(** [v ?? d] *)
Definition nullish (v : option json) (d : json) : json :=
  match v with
  | None | Some JNull => d
  | Some x => x
  end.

Record HttpResponse := {
  status : N;
  json_body : Result json
}.

Definition ok (resp : HttpResponse) : bool :=
  (200 <=? status resp)%N && (status resp <=? 299)%N.

Section client.
(** [fetch(url, { headers })]: a response, or a rejection. *)
Variable fetch : string -> list (string * string) -> Result HttpResponse.

Definition fetchSpotRate (baseUrl apiKey symbol date : string) : Result json :=
  let url := baseUrl +:+ "/rest/v1/spot_rates?symbol=eq." +:+ symbol
             +:+ "&date=eq." +:+ date +:+ "&select=rate" in
  match fetch url [("apikey", apiKey); ("Authorization", "Bearer " +:+ apiKey)] with
  | Throw e => Throw e
  | Ok resp =>
      if negb (ok resp)
      then Throw ("failed to fetch spot rate: " +:+ Number_toString (status resp))
      else
        match json_body resp with
        | Throw e => Throw e
        | Ok data => Ok (nullish (optional_rate (optional_first (Some data))) (JNumber 0))
        end
  end.
End client.

End MarketData.

(** ** The smoothing notes: the functional-if and the fuzzy combinators *)

Module Fuzzy.
Local Open Scope R_scope.

(** fIf(x,a,b,eps) = b + (a-b)/eps * max(0, min(eps, x + eps/2)) *)
Definition fIf (x a b eps : R) : R :=
  b + (a - b) / eps * Rmax 0 (Rmin eps (x + eps / 2)).

Definition dt_and (dtA dtB : R) : R := dtA * dtB.
Definition dt_or (dtA dtB : R) : R := dtA + dtB - dtA * dtB.
Definition dt_not (dtA : R) : R := 1 - dtA.

End Fuzzy.

(** ** Sample data used to exercise the definitions *)

Module Fixtures.
Import Backend.

(** A server that answers every request. *)
Definition quiet : Request -> option string := fun _ => None.

Definition server (d : DB) : Server :=
  {| db := d; log := []; refuses := quiet;
     uuid_gen := fun n => "uuid-" +:+ JS.Number_toString (N.of_nat n);
     uuid_count := 0; server_clock := 0 |}.

Definition alice : option User := Some {| user_uid := "alice" |}.

Definition saved_script : ScriptRow :=
  {| script_id := "s1"; script_name := "Q3 Swap"; reference_date := 0;
     script_status := "SAVED"; script_user_id := "alice"; created_at := 0 |}.

Definition draft_script : ScriptRow :=
  {| script_id := "s2"; script_name := "New Script*"; reference_date := 0;
     script_status := "DRAFT"; script_user_id := "alice"; created_at := 1 |}.

Definition event_on (eid sid : string) (date : Z) : EventRow :=
  {| event_id := eid; event_script_id := sid; event_user_id := "alice";
     event_name := Some "Event"; event_description := Some "";
     event_date := date; script_content := "x = 1;" |}.

(** The instant [new Date(y, m, d)] written as a calendar day denotes at
    midnight UTC, in milliseconds since the epoch (proleptic Gregorian
    calendar; [m] counts from 1). *)
Definition utc_midnight (y m d : Z) : Z :=
  let y' := if (m <=? 2)%Z then (y - 1)%Z else y in
  let era := (y' / 400)%Z in
  let yoe := (y' - era * 400)%Z in
  let doy := ((153 * (if (2 <? m)%Z then m - 3 else m + 9) + 2) / 5 + d - 1)%Z in
  let doe := (yoe * 365 + yoe / 4 - yoe / 100 + doy)%Z in
  ((era * 146097 + doe - 719468) * 86400000)%Z.

(** Three events of script s1, stored in the order March, January,
    February. *)
Definition march : EventRow := event_on "e1" "s1" (utc_midnight 2025 3 1).
Definition january : EventRow := event_on "e2" "s1" (utc_midnight 2025 1 1).
Definition february : EventRow := event_on "e3" "s1" (utc_midnight 2025 2 1).

Definition dated_db : DB :=
  {| scripts := [saved_script]; events := [march; january; february] |}.

Definition saved_script_open : option Script.t :=
  Some {| Script.id := "s1"; Script.name := "Q3 Swap";
          Script.referenceDate := 0; Script.status := Some "SAVED" |}.

(** A [fetch] that resolves to the given response whatever is asked. *)
Definition responding (resp : MarketData.HttpResponse)
  : string -> list (string * string) -> Result MarketData.HttpResponse :=
  fun _ _ => Ok resp.

Definition sample_db : DB :=
  {| scripts := [saved_script; draft_script];
     events := [event_on "e1" "s1" 5; event_on "e2" "s2" 6; event_on "e3" "s1" 7] |}.

End Fixtures.

(** ** The event mutations hook (delete path) and the add/delete handlers *)

Module EventRemoval.
Import Backend.

Section useEventMutations.
Variable user : option User.

Definition deleteEventMutation (eventId : string) : Client unit :=
  if negb (truthy (user_id_of user))
  then throw "User not authenticated"
  else
    await resp <- delete_events
                    [EventIdEq eventId; EventUserIdEq (user_id_of user)] ;;
    match error resp with
    | Some e => throw e
    | None => ret tt
    end.
End useEventMutations.

(** [Omit<Event, 'id'>], as [handleAddEvent] builds it. *)
Record NewEvent := {
  eventDate : Z;
  script : string;
  name : option string;
  description : option string
}.

Section useEventsHandlers.
Variable isModifyMode : bool.

(** [now] is what [new Date()] reads; the result is the argument of
    [createEventMutation.mutate], when it is called. *)
Definition handleAddEvent (now : Z) : option NewEvent :=
  if negb isModifyMode then None
  else Some {| eventDate := now; script := ""; name := Some "Event";
               description := Some "" |}.

(** The argument of [deleteEventMutation.mutate], when it is called. *)
Definition handleDeleteEvent (eventId : string) : option string :=
  if negb isModifyMode then None else Some eventId.
End useEventsHandlers.

(** [mutate]: a thrown error goes to [onError] and no further. *)
Definition dispatch_delete (user : option User) (call : option string)
  (sv : Server) : Server :=
  match call with
  | Some eventId => snd (deleteEventMutation user eventId sv)
  | None => sv
  end.

End EventRemoval.

(** ** pages/ScriptSettings.tsx: permanent deletion *)

Module ScriptSettings.
Import Backend.

Section ScriptSettings.
Variable script : option Script.t.
Variable user : option User.

Definition deleteScriptMutation : Client unit :=
  if negb (truthy (user_id_of user)) || negb (truthy (script_id_of script))
  then throw "User not authenticated or script not found"
  else
    (* First delete all events associated with the script *)
    await r1 <- delete_events
                  [EventScriptIdEq (script_id_of script);
                   EventUserIdEq (user_id_of user)] ;;
    match error r1 with
    | Some eventsError => throw eventsError
    | None =>
        (* Then delete the script *)
        await r2 <- delete_scripts
                      [ScriptIdEq (script_id_of script);
                       ScriptUserIdEq (user_id_of user)] ;;
        match error r2 with
        | Some scriptError => throw scriptError
        | None => ret tt
        end
    end.
End ScriptSettings.
End ScriptSettings.

(** ** The save handlers of the events handlers hook *)

Module SaveHandlers.
Import ScriptMutations.

(** [a || b] on strings that may be undefined: the first truthy one. *)
Definition or_else (a : option string) (b : string) : string :=
  match a with
  | Some s => if truthy s then s else b
  | None => b
  end.

Section useEventsHandlers.
Variable script : option Script.t.

(** The argument of [saveScriptMutation.mutate]. *)
Definition handleSave (currentScriptName : option string) : SaveVars :=
  let nameToSave :=
    or_else currentScriptName (or_else (Script.name <$> script) "Untitled") in
  {| scriptName := nameToSave; transactionDetails := "" |}.

Definition handleSaveScript (scriptName transactionDetails : string) : SaveVars :=
  {| scriptName := scriptName; transactionDetails := transactionDetails |}.
End useEventsHandlers.

End SaveHandlers.

(** ** The events state hook *)

Module EventsState.

(** The hook's state cells and its ref; [Nav] is the type of the deferred
    navigation callbacks. *)
Record State (Nav : Type) := {
  hasUnsavedChanges : bool;
  isSaveModalOpen : bool;
  showUnsavedChangesModal : bool;
  pendingNavigation : option Nav;
  isModifyMode : bool;
  showSavedMessage : bool;
  currentScriptName : string;
  lastScriptIdRef : option string
}.
Arguments hasUnsavedChanges {Nav} _.
Arguments isSaveModalOpen {Nav} _.
Arguments showUnsavedChangesModal {Nav} _.
Arguments pendingNavigation {Nav} _.
Arguments isModifyMode {Nav} _.
Arguments showSavedMessage {Nav} _.
Arguments currentScriptName {Nav} _.
Arguments lastScriptIdRef {Nav} _.

Section useEventsState.
Context {Nav : Type}.

(** [script?.status === 'DRAFT'] *)
Definition is_draft (script : option Script.t) : bool :=
  match script with
  | Some s => match Script.status s with
              | Some st => String.eqb st "DRAFT"
              | None => false
              end
  | None => false
  end.

(** The values given to [useState] and [useRef] on the first render. *)
Definition initial (script : option Script.t) : State Nav :=
  {| hasUnsavedChanges := false;
     isSaveModalOpen := false;
     showUnsavedChangesModal := false;
     pendingNavigation := None;
     isModifyMode := false;
     showSavedMessage := false;
     currentScriptName :=
       match script with
       | Some s => if truthy (Script.name s) then Script.name s else "Untitled"
       | None => "Untitled"
       end;
     lastScriptIdRef := None |}.

(** The effect that runs when the script's id, name or status changes. *)
Definition on_script_change (script : option Script.t) (st : State Nav) : State Nav :=
  match script with
  | Some s =>
      if decide (Some (Script.id s) = lastScriptIdRef st) then st
      else
        {| hasUnsavedChanges := is_draft script;
           isSaveModalOpen := isSaveModalOpen st;
           showUnsavedChangesModal := showUnsavedChangesModal st;
           pendingNavigation := pendingNavigation st;
           isModifyMode := is_draft script;
           showSavedMessage := false;
           currentScriptName := Script.name s;
           lastScriptIdRef := Some (Script.id s) |}
  | None => st
  end.

(** The first render followed by its effect. *)
Definition mount (script : option Script.t) : State Nav :=
  on_script_change script (initial script).

(** Whether the [beforeunload] listener asks for confirmation. *)
Definition handleBeforeUnload (script : option Script.t) (st : State Nav) : bool :=
  hasUnsavedChanges st || (is_draft script && isModifyMode st).

Definition markUnsavedChanges (st : State Nav) : State Nav :=
  {| hasUnsavedChanges := true;
     isSaveModalOpen := isSaveModalOpen st;
     showUnsavedChangesModal := showUnsavedChangesModal st;
     pendingNavigation := pendingNavigation st;
     isModifyMode := isModifyMode st;
     showSavedMessage := showSavedMessage st;
     currentScriptName := currentScriptName st;
     lastScriptIdRef := lastScriptIdRef st |}.

Definition markSaved (scriptName : string) (st : State Nav) : State Nav :=
  {| hasUnsavedChanges := false;
     isSaveModalOpen := isSaveModalOpen st;
     showUnsavedChangesModal := showUnsavedChangesModal st;
     pendingNavigation := pendingNavigation st;
     isModifyMode := false;
     showSavedMessage := true;
     currentScriptName := scriptName;
     lastScriptIdRef := lastScriptIdRef st |}.

(** [setShowSavedMessage]; [markSaved] schedules it with [false] 3 seconds
    later. *)
Definition setShowSavedMessage (show : bool) (st : State Nav) : State Nav :=
  {| hasUnsavedChanges := hasUnsavedChanges st;
     isSaveModalOpen := isSaveModalOpen st;
     showUnsavedChangesModal := showUnsavedChangesModal st;
     pendingNavigation := pendingNavigation st;
     isModifyMode := isModifyMode st;
     showSavedMessage := show;
     currentScriptName := currentScriptName st;
     lastScriptIdRef := lastScriptIdRef st |}.

Definition enterModifyMode (st : State Nav) : State Nav :=
  {| hasUnsavedChanges := hasUnsavedChanges st;
     isSaveModalOpen := isSaveModalOpen st;
     showUnsavedChangesModal := showUnsavedChangesModal st;
     pendingNavigation := pendingNavigation st;
     isModifyMode := true;
     showSavedMessage := false;
     currentScriptName := currentScriptName st;
     lastScriptIdRef := lastScriptIdRef st |}.

Definition isDraftWithChanges (script : option Script.t) (st : State Nav) : bool :=
  is_draft script && (hasUnsavedChanges st || isModifyMode st).

Definition updateCurrentScriptName (script : option Script.t) (name : string)
  (st : State Nav) : State Nav :=
  {| hasUnsavedChanges := if negb (is_draft script) then true else hasUnsavedChanges st;
     isSaveModalOpen := isSaveModalOpen st;
     showUnsavedChangesModal := showUnsavedChangesModal st;
     pendingNavigation := pendingNavigation st;
     isModifyMode := isModifyMode st;
     showSavedMessage := showSavedMessage st;
     currentScriptName := name;
     lastScriptIdRef := lastScriptIdRef st |}.

Definition setIsSaveModalOpen (open : bool) (st : State Nav) : State Nav :=
  {| hasUnsavedChanges := hasUnsavedChanges st;
     isSaveModalOpen := open;
     showUnsavedChangesModal := showUnsavedChangesModal st;
     pendingNavigation := pendingNavigation st;
     isModifyMode := isModifyMode st;
     showSavedMessage := showSavedMessage st;
     currentScriptName := currentScriptName st;
     lastScriptIdRef := lastScriptIdRef st |}.

Definition setShowUnsavedChangesModal (show : bool) (st : State Nav) : State Nav :=
  {| hasUnsavedChanges := hasUnsavedChanges st;
     isSaveModalOpen := isSaveModalOpen st;
     showUnsavedChangesModal := show;
     pendingNavigation := pendingNavigation st;
     isModifyMode := isModifyMode st;
     showSavedMessage := showSavedMessage st;
     currentScriptName := currentScriptName st;
     lastScriptIdRef := lastScriptIdRef st |}.

Definition setPendingNavigation (nav : option Nav) (st : State Nav) : State Nav :=
  {| hasUnsavedChanges := hasUnsavedChanges st;
     isSaveModalOpen := isSaveModalOpen st;
     showUnsavedChangesModal := showUnsavedChangesModal st;
     pendingNavigation := nav;
     isModifyMode := isModifyMode st;
     showSavedMessage := showSavedMessage st;
     currentScriptName := currentScriptName st;
     lastScriptIdRef := lastScriptIdRef st |}.

(** What the page and its children can do to the state while one script
    stays open and is not saved: the setters and markers the hook returns,
    except [markSaved]. *)
Inductive Edit :=
| MarkUnsavedChanges
| EnterModifyMode
| UpdateCurrentScriptName (name : string)
| SetShowSavedMessage (show : bool)
| SetIsSaveModalOpen (open : bool)
| SetShowUnsavedChangesModal (show : bool)
| SetPendingNavigation (nav : option Nav)
| ScriptEffect.

Definition apply_edit (script : option Script.t) (e : Edit) (st : State Nav) : State Nav :=
  match e with
  | MarkUnsavedChanges => markUnsavedChanges st
  | EnterModifyMode => enterModifyMode st
  | UpdateCurrentScriptName name => updateCurrentScriptName script name st
  | SetShowSavedMessage show => setShowSavedMessage show st
  | SetIsSaveModalOpen open => setIsSaveModalOpen open st
  | SetShowUnsavedChangesModal show => setShowUnsavedChangesModal show st
  | SetPendingNavigation nav => setPendingNavigation nav st
  | ScriptEffect => on_script_change script st
  end.

Definition apply_edits (script : option Script.t) (es : list Edit) (st : State Nav)
  : State Nav :=
  fold_left (fun s e => apply_edit script e s) es st.

End useEventsState.
End EventsState.

(** ** The navigation guard of the events page *)

Module EventsNavigation.
Import EventsState.

Section useEventsNavigation.
Context {Nav : Type}.
Variable script : option Script.t.

(** [script?.status === 'SAVED'] *)
Definition is_saved : bool :=
  match script with
  | Some s => match Script.status s with
              | Some st => String.eqb st "SAVED"
              | None => false
              end
  | None => false
  end.

(** Each function returns the new state and the callbacks it ran, in
    order. *)
Definition checkUnsavedChanges (callback : Nav) (st : State Nav)
  : State Nav * list Nav :=
  (* Only show modal for saved scripts with unsaved changes, not drafts *)
  if hasUnsavedChanges st && is_saved
  then (setShowUnsavedChangesModal true (setPendingNavigation (Some callback) st), [])
  else (st, [callback]).

(** The two buttons of the dialog, as the events page wires them. *)
Definition handleConfirmUnsavedChanges (st : State Nav) : State Nav * list Nav :=
  let st1 := setShowUnsavedChangesModal false st in
  match pendingNavigation st with
  | Some nav => (setPendingNavigation None st1, [nav])
  | None => (st1, [])
  end.

Definition handleCancelUnsavedChanges (st : State Nav) : State Nav * list Nav :=
  (setPendingNavigation None (setShowUnsavedChangesModal false st), []).
End useEventsNavigation.

End EventsNavigation.

(** ** The draft deletion hook: the dialog around the mutation *)

Module DraftDeletionDialog.
Import Backend.

Record State := {
  showUnsavedChangesModal : bool;
  scriptToDelete : option Script.t
}.

Definition initial : State :=
  {| showUnsavedChangesModal := false; scriptToDelete := None |}.

Section useDraftDeletion.
Variable currentScript : option Script.t.

(** [a?.id === b?.id]: two absent scripts compare equal. *)
Definition same_id (a b : option Script.t) : bool :=
  match a, b with
  | Some x, Some y => String.eqb (Script.id x) (Script.id y)
  | None, None => true
  | _, _ => false
  end.

(** Each handler returns the new state and the id it handed to
    [deleteDraftMutation.mutate], if it called it. *)
Definition handleDeleteDraft (script : Script.t) (hasUnsavedChanges : bool) (st : State)
  : State * option string :=
  let st1 := {| showUnsavedChangesModal := showUnsavedChangesModal st;
                scriptToDelete := Some script |} in
  if hasUnsavedChanges && same_id (Some script) currentScript
  then ({| showUnsavedChangesModal := true; scriptToDelete := Some script |}, None)
  else (st1, Some (Script.id script)).

Definition confirmDeleteWithUnsavedChanges (st : State) : State * option string :=
  ({| showUnsavedChangesModal := false; scriptToDelete := scriptToDelete st |},
   Script.id <$> scriptToDelete st).

Definition cancelDeleteWithUnsavedChanges (st : State) : State * option string :=
  ({| showUnsavedChangesModal := false; scriptToDelete := None |}, None).

(** [onSuccess]: the new state, and whether it navigated to the landing
    page. *)
Definition onSuccess (st : State) : State * bool :=
  ({| showUnsavedChangesModal := showUnsavedChangesModal st; scriptToDelete := None |},
   same_id (scriptToDelete st) currentScript).

Definition onError (st : State) : State * bool :=
  ({| showUnsavedChangesModal := showUnsavedChangesModal st; scriptToDelete := None |},
   false).

(** The layout's delete button for a draft row. *)
Definition handleDeleteDraftScript (hasUnsavedChanges : bool) (script : Script.t)
  (st : State) : State * option string :=
  handleDeleteDraft script
    (hasUnsavedChanges && same_id (Some script) currentScript) st.

Variable user : option User.

(** A call of [mutate] that settles: the mutation function runs against
    the server, then [onSuccess] or [onError] runs.  Returns the state, the
    server, and whether the page went to the landing page. *)
Definition settle (call : option string) (st : State) (sv : Server)
  : State * Server * bool :=
  match call with
  | None => (st, sv, false)
  | Some scriptId =>
      match DraftDeletion.deleteDraftMutation user scriptId sv with
      | (Ok _, sv') => (fst (onSuccess st), sv', snd (onSuccess st))
      | (Throw _, sv') => (fst (onError st), sv', false)
      end
  end.
End useDraftDeletion.

End DraftDeletionDialog.

(** ** The market-data client: curves *)

Module MarketCurve.
Import JS MarketData.

Section client.
Variable fetch : string -> list (string * string) -> Result HttpResponse.

Definition fetchCurve (baseUrl apiKey name : string) : Result json :=
  let url := baseUrl +:+ "/rest/v1/curves?name=eq." +:+ name in
  match fetch url [("apikey", apiKey); ("Authorization", "Bearer " +:+ apiKey)] with
  | Throw e => Throw e
  | Ok resp =>
      if negb (ok resp)
      then Throw ("failed to fetch curve: " +:+ Number_toString (status resp))
      else json_body resp
  end.
End client.

End MarketCurve.

(** ** More of JavaScript strings: white space and substrings *)

Module JSText.
Import JS.

(** The code units [trim] strips: the language's white space (tab, vertical
    tab, form feed, the space separators, the byte order mark) and its line
    terminators. *)
Definition is_white_space (c : code_unit) : bool :=
  existsb (N.eqb c)
    [9; 10; 11; 12; 13; 32; 160; 5760; 8232; 8233; 8239; 8287; 12288; 65279]%N
  || in_range 8192 8202 c.

Fixpoint trimStart (s : jsstring) : jsstring :=
  match s with
  | c :: rest => if is_white_space c then trimStart rest else s
  | [] => []
  end.

Definition trimEnd (s : jsstring) : jsstring := reverse (trimStart (reverse s)).

Definition trim (s : jsstring) : jsstring := trimEnd (trimStart s).

(** [s.endsWith(c)] for a one-character [c], and [s.slice(0, -1)]. *)
Definition endsWith (c : code_unit) (s : jsstring) : bool :=
  match head (reverse s) with
  | Some d => N.eqb d c
  | None => false
  end.

Definition slice_but_last (s : jsstring) : jsstring := take (length s - 1) s.

(** A string of white space only: one that [trim] empties. *)
Definition blank (s : jsstring) : Prop :=
  Forall (fun c => is_white_space c = true) s.

(** [s.includes(sub)] on text. *)
Fixpoint includes (s sub : string) : bool :=
  String.prefix sub s
  || match s with
     | String _ rest => includes rest sub
     | EmptyString => false
     end.

End JSText.

(** ** components/ScriptSaveModal.tsx *)

Module ScriptSaveModal.
Import JS JSText.

Record State := {
  scriptName : jsstring;
  counterpartyInfo : jsstring;
  alert : option string
}.

Definition initial : State :=
  {| scriptName := []; counterpartyInfo := []; alert := None |}.

(** The effect that runs when the modal opens or [initialName] changes. *)
Definition on_open (open : bool) (initialName : jsstring) (st : State) : State :=
  if open
  then
    (* Only remove the '*' if it exists, otherwise keep the original name *)
    let cleanName := if endsWith 42 initialName
                     then slice_but_last initialName else initialName in
    {| scriptName := cleanName; counterpartyInfo := counterpartyInfo st;
       alert := alert st |}
  else st.

(** The new state, the arguments [onSave] was called with if it was, and
    whether [onClose] was called. *)
Definition handleSave (st : State) : State * option (jsstring * jsstring) * bool :=
  if decide (trim (scriptName st) = [])
  then ({| scriptName := scriptName st; counterpartyInfo := counterpartyInfo st;
           alert := Some "Script name is required." |}, None, false)
  else ({| scriptName := scriptName st; counterpartyInfo := counterpartyInfo st;
           alert := None |},
        Some (trim (scriptName st), trim (counterpartyInfo st)), true).

End ScriptSaveModal.

(** ** pages/Auth.tsx: the form around the password policy *)

Module AuthForm.
Import JS JSText.

Record State := {
  isLogin : bool;
  email : jsstring;
  password : jsstring;
  fullName : jsstring;
  loading : bool;
  error : string;
  passwordError : string
}.

Definition set_passwordError (msg : string) (st : State) : State :=
  {| isLogin := isLogin st; email := email st; password := password st;
     fullName := fullName st; loading := loading st; error := error st;
     passwordError := msg |}.

Definition set_error_loading (msg : string) (busy : bool) (st : State) : State :=
  {| isLogin := isLogin st; email := email st; password := password st;
     fullName := fullName st; loading := busy; error := msg;
     passwordError := passwordError st |}.

Definition handlePasswordChange (newPassword : jsstring) (st : State) : State :=
  let st1 := {| isLogin := isLogin st; email := email st; password := newPassword;
                fullName := fullName st; loading := loading st; error := error st;
                passwordError := passwordError st |} in
  if negb (isLogin st) && negb (bool_decide (newPassword = []))
  then set_passwordError (snd (Auth.validatePassword newPassword)) st1
  else set_passwordError "" st1.

(** The two calls the form makes on the auth service, and what comes
    back: an error with or without a message, or the user and session
    fields of the data. *)
Inductive AuthRequest :=
| SignInWithPassword (email password : jsstring)
| SignUp (email password full_name : jsstring).

Inductive AuthResponse :=
| AuthError (message : option string)
| AuthData (user session : bool).

(** The message the [catch] block shows for an error. *)
Definition auth_error_message (message : option string) : string :=
  match message with
  | Some m =>
      if truthy m then
        if includes m "Invalid login credentials"
        then "Invalid email or password. Please check your credentials and try again."
        else if includes m "User already registered"
        then "An account with this email already exists. Please try logging in instead."
        else if includes m "Email not confirmed"
        then "Please check your email and click the verification link before logging in."
        else m
      else "An error occurred during authentication"
  | None => "An error occurred during authentication"
  end.

(** What a submission did besides changing the state. *)
Record Effects := {
  requests : list AuthRequest;
  toasts : list string;
  navigated : bool
}.

Definition nothing_sent : Effects :=
  {| requests := []; toasts := []; navigated := false |}.

Section handleAuth.
Variable auth : AuthRequest -> AuthResponse.

Definition handleAuth (st : State) : State * Effects :=
  (* Validate inputs *)
  if bool_decide (email st = []) || bool_decide (password st = [])
  then (set_error_loading "Please fill in all required fields" false st, nothing_sent)
  else if negb (isLogin st) && bool_decide (trim (fullName st) = [])
  then (set_error_loading "Please enter your full name" false st, nothing_sent)
  else if negb (isLogin st) && negb (fst (Auth.validatePassword (password st)))
  then (set_error_loading "" false
          (set_passwordError (snd (Auth.validatePassword (password st))) st),
        nothing_sent)
  else
    let st1 := if isLogin st then st
               else set_passwordError (snd (Auth.validatePassword (password st))) st in
    if isLogin st then
      let req := SignInWithPassword (trim (email st)) (password st) in
      match auth req with
      | AuthError message =>
          (set_error_loading (auth_error_message message) false st1,
           {| requests := [req]; toasts := []; navigated := false |})
      | AuthData _ _ =>
          (set_error_loading "" false st1,
           {| requests := [req]; toasts := ["Successfully logged in!"];
              navigated := true |})
      end
    else
      let req := SignUp (trim (email st)) (password st) (trim (fullName st)) in
      match auth req with
      | AuthError message =>
          (set_error_loading (auth_error_message message) false st1,
           {| requests := [req]; toasts := []; navigated := false |})
      | AuthData user session =>
          if user && negb session
          then (set_error_loading
                  "Please check your email and click the verification link to complete your registration."
                  false st1,
                {| requests := [req]; toasts := ["Account created successfully!"];
                   navigated := false |})
          else if session
          then (set_error_loading "" false st1,
                {| requests := [req];
                   toasts := ["Account created and logged in successfully!"];
                   navigated := true |})
          else (set_error_loading "" false st1,
                {| requests := [req]; toasts := []; navigated := false |})
      end.
End handleAuth.

End AuthForm.

(** ** The smoothing notes: truth degrees and fuzzed variables *)

Module FuzzyEvaluator.
Local Open Scope R_scope.

(** dt(expr > 0) = fIf(expr, 1, 0, eps) *)
Definition dt (expr eps : R) : R := Fuzzy.fIf expr 1 0 eps.

(** v = dt * v_ifTrue + (1-dt) * v_ifFalse *)
Definition fuzzed (dt v_ifTrue v_ifFalse : R) : R :=
  dt * v_ifTrue + (1 - dt) * v_ifFalse.

End FuzzyEvaluator.

(** ** The new-script dialog *)

Module NewScriptModal.
Import JS JSText.

Record State := {
  scriptName : jsstring;
  alert : option string
}.

Definition initial : State :=
  {| scriptName := lit "Untitled Script"; alert := None |}.

(** The new state, the argument [onAddScript] was called with if it was,
    and whether [onClose] was called. *)
Definition handleAddScript (existingScriptNames : list jsstring) (st : State)
  : State * option jsstring * bool :=
  if decide (trim (scriptName st) = [])
  then ({| scriptName := scriptName st;
           alert := Some "Script name is required." |}, None, false)
  else if bool_decide (trim (scriptName st) ∈ existingScriptNames)
  then ({| scriptName := scriptName st;
           alert := Some "Script name must be unique." |}, None, false)
  else ({| scriptName := lit "Untitled Script"; alert := None |},
        Some (trim (scriptName st)), true).

End NewScriptModal.

(** ** pages/Auth.tsx: signing in with Google *)

Module GoogleAuth.
Import JSText.

Record State := {
  googleLoading : bool;
  error : string
}.

(** What [signInWithOAuth] resolves to, or the error it throws: an error
    with or without a message, or data. *)
Inductive OAuthResponse :=
| OAuthError (message : option string)
| OAuthData.

(** The new state, and the exception that escapes the handler if one
    does: reading [includes] off a missing message throws inside the
    [catch] block, before the state is set. *)
Definition handleGoogleAuth (response : OAuthResponse) (st : State)
  : State * option string :=
  let st1 := {| googleLoading := true; error := "" |} in
  match response with
  | OAuthData => (st1, None)
  | OAuthError None => (st1, Some "TypeError")
  | OAuthError (Some m) =>
      let errorMessage :=
        if includes m "popup"
        then "Google login popup was blocked. Please allow popups and try again."
        else if truthy m then m
        else "An error occurred during Google authentication" in
      ({| googleLoading := false; error := errorMessage |}, None)
  end.

End GoogleAuth.

(** * Properties *)

(** ** Requests and filters *)

Section list_facts.
Context {A : Type}.

(** Two predicates that agree on the members of a list select the same
    sublist. *)
Lemma filter_agree (P Q : A -> Prop) `{!∀ x, Decision (P x)} `{!∀ x, Decision (Q x)}
  (l : list A) :
  (∀ x, x ∈ l → (P x ↔ Q x)) → filter P l = filter Q l.
Proof.
  induction l as [|x l IH]; intros HPQ; [reflexivity|].
  rewrite !filter_cons.
  rewrite IH by (intros y Hy; apply HPQ; right; exact Hy).
  destruct (decide (P x)) as [Hp|Hp], (decide (Q x)) as [Hq|Hq];
    try reflexivity; exfalso.
  - apply Hq, (HPQ x); [left | exact Hp].
  - apply Hp, (HPQ x); [left | exact Hq].
Qed.

(** Selecting after a map is mapping after selecting on the images. *)
Lemma filter_fmap_comm (f : A -> A) (P : A -> Prop) `{!∀ x, Decision (P x)}
  (l : list A) :
  filter P (f <$> l) = f <$> filter (fun x => P (f x)) l.
Proof.
  induction l as [|x l IH]; [reflexivity|].
  rewrite fmap_cons, !filter_cons, IH.
  destruct (decide (P (f x))); reflexivity.
Qed.

End list_facts.

Section backend_facts.
Import Backend.

Lemma truthy_nonempty (s : string) : truthy s = true ↔ s ≠ "".
Proof.
  unfold truthy. rewrite negb_true_iff.
  destruct (String.eqb_spec s ""); split; intros; congruence.
Qed.

Lemma round_trip_served {A} (req : Request) (serve : Server -> Response A * Server)
  (sv : Server) :
  refuses sv req = None →
  round_trip req serve sv = (Ok (fst (serve (received req sv))), snd (serve (received req sv))).
Proof.
  intros Hq. unfold round_trip. rewrite Hq.
  destruct (serve (received req sv)); reflexivity.
Qed.

Lemma round_trip_refused {A} (req : Request) (serve : Server -> Response A * Server)
  (sv : Server) (e : string) :
  refuses sv req = Some e →
  round_trip req serve sv = (Ok (refused e), received req sv).
Proof. intros Hq. unfold round_trip. rewrite Hq. reflexivity. Qed.

Lemma events_of_script_selected (sid uid : string) (e : EventRow) :
  event_matches [EventScriptIdEq sid; EventUserIdEq uid] e
  ↔ event_script_id e = sid ∧ event_user_id e = uid.
Proof.
  unfold event_matches; simpl.
  rewrite andb_true_r, andb_True, !Is_true_true, !String.eqb_eq. reflexivity.
Qed.

Lemma event_of_user_selected (eid uid : string) (e : EventRow) :
  event_matches [EventIdEq eid; EventUserIdEq uid] e
  ↔ event_id e = eid ∧ event_user_id e = uid.
Proof.
  unfold event_matches; simpl.
  rewrite andb_true_r, andb_True, !Is_true_true, !String.eqb_eq. reflexivity.
Qed.

Lemma script_of_user_selected (sid uid : string) (r : ScriptRow) :
  script_matches [ScriptIdEq sid; ScriptUserIdEq uid] r
  ↔ script_id r = sid ∧ script_user_id r = uid.
Proof.
  unfold script_matches; simpl.
  rewrite andb_true_r, andb_True, !Is_true_true, !String.eqb_eq. reflexivity.
Qed.

Lemma draft_of_user_selected (sid uid : string) (r : ScriptRow) :
  script_matches [ScriptIdEq sid; ScriptUserIdEq uid; ScriptStatusEq "DRAFT"] r
  ↔ script_id r = sid ∧ script_user_id r = uid ∧ script_status r = "DRAFT".
Proof.
  unfold script_matches; simpl.
  rewrite andb_true_r, !andb_True, !Is_true_true, !String.eqb_eq. reflexivity.
Qed.

End backend_facts.

(** ** Draft deletion *)

Section draft_deletion.
Import Backend ScriptMutations.

Variable user : option User.
Variable scriptId : string.
Variable sv : Server.

Let uid := user_id_of user.
Let events_request := DeleteEvents [EventScriptIdEq scriptId; EventUserIdEq uid].
Let script_request :=
  DeleteScripts [ScriptIdEq scriptId; ScriptUserIdEq uid; ScriptStatusEq "DRAFT"].

(** The two hooks carry the same mutation function. *)
Lemma deleteDraftMutation_same :
  DraftDeletion.deleteDraftMutation user scriptId sv
  = deleteDraftScriptMutation user scriptId sv.
Proof. reflexivity. Qed.

(** What a run does when the user is signed in and both requests are
    answered: both deletes are sent, in this order, and the call returns. *)
Lemma deleteDraft_served :
  truthy uid = true →
  refuses sv events_request = None →
  refuses sv script_request = None →
  fst (deleteDraftScriptMutation user scriptId sv) = Ok tt
  ∧ log (snd (deleteDraftScriptMutation user scriptId sv))
    = log sv ++ [events_request; script_request]
  ∧ events (db (snd (deleteDraftScriptMutation user scriptId sv)))
    = filter (fun e => ¬ (event_script_id e = scriptId ∧ event_user_id e = uid))
        (events (db sv))
  ∧ scripts (db (snd (deleteDraftScriptMutation user scriptId sv)))
    = filter (fun r => ¬ (script_id r = scriptId ∧ script_user_id r = uid
                          ∧ script_status r = "DRAFT"))
        (scripts (db sv)).
Proof.
  intros Hu He Hs.
  unfold deleteDraftScriptMutation. fold uid. rewrite Hu. simpl.
  unfold bind, delete_events. fold events_request.
  rewrite (round_trip_served _ _ _ He). simpl.
  unfold bind, delete_scripts. fold script_request.
  rewrite round_trip_served by exact Hs. simpl.
  repeat split.
  - rewrite <- app_assoc. reflexivity.
  - apply list_filter_iff. intros e.
    apply not_iff_compat, (events_of_script_selected scriptId uid e).
  - apply list_filter_iff. intros r.
    apply not_iff_compat, (draft_of_user_selected scriptId uid r).
Qed.

End draft_deletion.

Section draft_deletion_cases.
Import Backend ScriptMutations.

(** On a draft owned by the caller, whose events share its owner, the
    script row and every event row referencing it are removed, and nothing
    else. *)
Lemma deleteDraft_on_draft (user : option User) (scriptId : string) (sv : Server) :
  truthy (user_id_of user) = true →
  (∀ req, refuses sv req = None) →
  (∀ r, r ∈ scripts (db sv) → script_id r = scriptId →
        script_user_id r = user_id_of user ∧ script_status r = "DRAFT") →
  (∀ e, e ∈ events (db sv) → event_script_id e = scriptId →
        event_user_id e = user_id_of user) →
  fst (deleteDraftScriptMutation user scriptId sv) = Ok tt
  ∧ scripts (db (snd (deleteDraftScriptMutation user scriptId sv)))
    = filter (fun r => script_id r ≠ scriptId) (scripts (db sv))
  ∧ events (db (snd (deleteDraftScriptMutation user scriptId sv)))
    = filter (fun e => event_script_id e ≠ scriptId) (events (db sv)).
Proof.
  intros Hu Hq Hrow Hev.
  destruct (deleteDraft_served user scriptId sv Hu (Hq _) (Hq _))
    as (Hok & _ & Hevents & Hscripts).
  split; [exact Hok|]. rewrite Hscripts, Hevents. split.
  - apply filter_agree. intros r Hr. split.
    + intros Hn Hid. apply Hn. destruct (Hrow r Hr Hid). auto.
    + intros Hn (Hid & _). auto.
  - apply filter_agree. intros e He. split.
    + intros Hn Hid. apply Hn. split; [exact Hid | exact (Hev e He Hid)].
    + intros Hn (Hid & _). auto.
Qed.

(** On a script that is not a draft the script row stays, yet each of its
    events owned by the caller is gone. *)
Lemma deleteDraft_on_saved (user : option User) (scriptId : string) (sv : Server)
  (row : ScriptRow) (e : EventRow) :
  truthy (user_id_of user) = true →
  (∀ req, refuses sv req = None) →
  row ∈ scripts (db sv) → script_status row = "SAVED" →
  e ∈ events (db sv) →
  event_script_id e = scriptId → event_user_id e = user_id_of user →
  fst (deleteDraftScriptMutation user scriptId sv) = Ok tt
  ∧ row ∈ scripts (db (snd (deleteDraftScriptMutation user scriptId sv)))
  ∧ e ∉ events (db (snd (deleteDraftScriptMutation user scriptId sv))).
Proof.
  intros Hu Hq Hrow Hst He Hsid Huid.
  destruct (deleteDraft_served user scriptId sv Hu (Hq _) (Hq _))
    as (Hok & _ & Hevents & Hscripts).
  split; [exact Hok|]. rewrite Hscripts, Hevents, !list_elem_of_filter. split.
  - split; [|exact Hrow]. intros (_ & _ & Hd). rewrite Hst in Hd. discriminate.
  - intros (Hn & _). apply Hn. auto.
Qed.

End draft_deletion_cases.

(** C1 (the stored script has status SAVED): run on the sample tables, draft
    deletion of the saved script s1 returns normally, keeps both script rows,
    and removes the two event rows of s1; only the event of s2 is left.  The
    rows removed are therefore not zero. *)
Theorem deleteDraft_on_saved_script_removes_its_events :
  let sv := Fixtures.server Fixtures.sample_db in
  let out := DraftDeletion.deleteDraftMutation Fixtures.alice "s1" sv in
  Backend.script_status Fixtures.saved_script = "SAVED"
  ∧ fst out = Ok tt
  ∧ Backend.scripts (Backend.db (snd out)) = Backend.scripts (Backend.db sv)
  ∧ Backend.events (Backend.db sv)
    = [Fixtures.event_on "e1" "s1" 5; Fixtures.event_on "e2" "s2" 6;
       Fixtures.event_on "e3" "s1" 7]
  ∧ Backend.events (Backend.db (snd out)) = [Fixtures.event_on "e2" "s2" 6]
  ∧ ScriptMutations.deleteDraftScriptMutation Fixtures.alice "s1" sv = out.
Proof. vm_compute. repeat split. Qed.

(** C2: whatever the status of the script, when the caller is signed in and
    the backend answers, draft deletion first sends the delete of all events
    with the script's id and the caller's user id, then the delete of the
    script guarded by status DRAFT, and returns normally; afterwards no event
    of the script owned by the caller is left, and every script row whose
    status is SAVED is still in place. *)
Theorem deleteDraft_cascade_is_not_guarded
  (user : option User) (scriptId : string) (sv : Backend.Server) :
  let uid := user_id_of user in
  let events_request :=
    Backend.DeleteEvents [Backend.EventScriptIdEq scriptId; Backend.EventUserIdEq uid] in
  let script_request :=
    Backend.DeleteScripts [Backend.ScriptIdEq scriptId; Backend.ScriptUserIdEq uid;
                           Backend.ScriptStatusEq "DRAFT"] in
  let out := ScriptMutations.deleteDraftScriptMutation user scriptId sv in
  truthy uid = true →
  Backend.refuses sv events_request = None →
  Backend.refuses sv script_request = None →
  fst out = Ok tt
  ∧ Backend.log (snd out) = Backend.log sv ++ [events_request; script_request]
  ∧ Backend.events (Backend.db (snd out))
    = filter (fun e => ¬ (Backend.event_script_id e = scriptId
                          ∧ Backend.event_user_id e = uid))
        (Backend.events (Backend.db sv))
  ∧ (∀ e, e ∈ Backend.events (Backend.db (snd out)) →
          ¬ (Backend.event_script_id e = scriptId ∧ Backend.event_user_id e = uid))
  ∧ (∀ row, row ∈ Backend.scripts (Backend.db sv) →
            Backend.script_status row = "SAVED" →
            row ∈ Backend.scripts (Backend.db (snd out)))
  ∧ DraftDeletion.deleteDraftMutation user scriptId sv = out.
Proof.
  intros uid events_request script_request out Hu He Hs.
  destruct (deleteDraft_served user scriptId sv Hu He Hs)
    as (Hok & Hlog & Hevents & Hscripts).
  fold out in Hok, Hlog, Hevents, Hscripts.
  split; [exact Hok|]. split; [exact Hlog|]. split; [exact Hevents|].
  split; [|split; [|reflexivity]].
  - intros e. rewrite Hevents, list_elem_of_filter. tauto.
  - intros row Hrow Hst. rewrite Hscripts, list_elem_of_filter.
    split; [|exact Hrow]. intros (_ & _ & Hd). rewrite Hst in Hd. discriminate.
Qed.

Lemma deleteDraft_cascade_is_not_guarded_witness :
  let sv := Fixtures.server Fixtures.sample_db in
  let out := ScriptMutations.deleteDraftScriptMutation Fixtures.alice "s1" sv in
  fst out = Ok tt
  ∧ Fixtures.saved_script ∈ Backend.scripts (Backend.db (snd out))
  ∧ ∀ e, e ∈ Backend.events (Backend.db (snd out)) →
         ¬ (Backend.event_script_id e = "s1" ∧ Backend.event_user_id e = "alice").
Proof.
  intros sv out.
  destruct (deleteDraft_cascade_is_not_guarded Fixtures.alice "s1" sv
              eq_refl eq_refl eq_refl) as (Hok & _ & _ & Hev & Hrow & _).
  split; [exact Hok|]. split; [|exact Hev].
  apply Hrow; [|reflexivity]. apply list_elem_of_here.
Defined.

(** ** The draft lifecycle: create, save, save again *)

Section lifecycle.
Import Backend ScriptMutations.

(** An insert that is answered, with a generated id no row carries yet,
    appends the row built from the body and the server's defaults. *)
Lemma insert_script_single_fresh (body : ScriptInsert) (sv : Server) :
  refuses sv (InsertScript body) = None →
  (∀ r, r ∈ scripts (db sv) → script_id r ≠ uuid_gen sv (uuid_count sv)) →
  ∃ sv',
    insert_script_single body sv
    = (Ok (answered {| script_id := uuid_gen sv (uuid_count sv);
                       script_name := ins_name body;
                       reference_date := ins_reference_date body;
                       script_status := ins_status body;
                       script_user_id := ins_user_id body;
                       created_at := server_clock sv |}), sv')
    ∧ scripts (db sv')
      = scripts (db sv) ++ [{| script_id := uuid_gen sv (uuid_count sv);
                               script_name := ins_name body;
                               reference_date := ins_reference_date body;
                               script_status := ins_status body;
                               script_user_id := ins_user_id body;
                               created_at := server_clock sv |}]
    ∧ events (db sv') = events (db sv)
    ∧ refuses sv' = refuses sv.
Proof.
  intros Hq Hfresh. unfold insert_script_single.
  rewrite round_trip_served by exact Hq. cbn.
  destruct (existsb _ (scripts (db sv))) eqn:Hex.
  - exfalso. apply existsb_exists in Hex as (r & Hin & Heq).
    apply String.eqb_eq in Heq. apply (Hfresh r); [|exact Heq].
    apply list_elem_of_In. exact Hin.
  - eexists. split; [reflexivity|]. cbn. repeat split.
Qed.

(** An update that is answered and selects exactly one row rewrites that
    row; the same filters select the rewritten row afterwards, provided the
    patch does not touch the filtered columns. *)
Lemma update_scripts_single_one (body : ScriptPatch) (fs : list ScriptFilter)
  (sv : Server) (row : ScriptRow) :
  refuses sv (UpdateScripts body fs) = None →
  (∀ r, script_matches fs (patch_script body r) = script_matches fs r) →
  filter (fun r => script_matches fs r) (scripts (db sv)) = [row] →
  ∃ sv',
    update_scripts_single body fs sv = (Ok (answered (patch_script body row)), sv')
    ∧ scripts (db sv')
      = (fun r => if script_matches fs r then patch_script body r else r)
        <$> scripts (db sv)
    ∧ filter (fun r => script_matches fs r) (scripts (db sv')) = [patch_script body row]
    ∧ events (db sv') = events (db sv)
    ∧ refuses sv' = refuses sv.
Proof.
  intros Hq Hkeep Hone. unfold update_scripts_single.
  rewrite round_trip_served by exact Hq. cbn. rewrite Hone. cbn.
  eexists. split; [reflexivity|]. cbn.
  split; [reflexivity|]. split; [|split; reflexivity].
  rewrite filter_fmap_comm.
  rewrite (filter_agree _ (fun r => script_matches fs r)).
  - rewrite Hone. cbn.
    assert (Hsel : Is_true (script_matches fs row)).
    { apply (list_elem_of_filter (fun r => Is_true (script_matches fs r))
               (scripts (db sv)) row).
      rewrite Hone. left. }
    apply Is_true_true in Hsel. rewrite Hsel. reflexivity.
  - intros r _. cbn.
    destruct (script_matches fs r) eqn:Hm.
    + rewrite Hkeep, Hm. reflexivity.
    + rewrite Hm. reflexivity.
Qed.

(** One save of a stored script, selected by its id and its owner. *)
Lemma saveScript_served (script : option Script.t) (user : option User)
  (v : SaveVars) (sv : Server) (row : ScriptRow) :
  truthy (user_id_of user) = true →
  truthy (script_id_of script) = true →
  (∀ req, refuses sv req = None) →
  filter (fun r => script_matches [ScriptIdEq (script_id_of script);
                                   ScriptUserIdEq (user_id_of user)] r)
    (scripts (db sv)) = [row] →
  ∃ sv',
    saveScriptMutation script user v sv
    = (Ok {| saved_scriptName := scriptName v; saved_scriptId := script_id row |}, sv')
    ∧ scripts (db sv')
      = (fun r => if script_matches [ScriptIdEq (script_id_of script);
                                     ScriptUserIdEq (user_id_of user)] r
                  then patch_script {| patch_name := scriptName v;
                                       patch_status := "SAVED" |} r
                  else r) <$> scripts (db sv)
    ∧ filter (fun r => script_matches [ScriptIdEq (script_id_of script);
                                       ScriptUserIdEq (user_id_of user)] r)
        (scripts (db sv'))
      = [patch_script {| patch_name := scriptName v; patch_status := "SAVED" |} row]
    ∧ events (db sv') = events (db sv)
    ∧ (∀ req, refuses sv' req = None).
Proof.
  intros Hu Hs Hq Hone.
  unfold saveScriptMutation. rewrite Hu, Hs. cbn [negb orb]. unfold bind.
  destruct (update_scripts_single_one
              {| patch_name := scriptName v; patch_status := "SAVED" |}
              [ScriptIdEq (script_id_of script); ScriptUserIdEq (user_id_of user)]
              sv row (Hq _) (fun r => eq_refl) Hone)
    as (sv' & -> & Hmap & Hone' & Hev & Hq').
  cbn. exists sv'. split; [reflexivity|]. split; [exact Hmap|].
  split; [exact Hone'|]. split; [exact Hev|].
  intros req. rewrite Hq'. apply Hq.
Qed.

End lifecycle.

(** C3: for a signed-in user and a backend that answers, (1) creating a
    script inserts a row named New Script* with status DRAFT, the current
    time as reference date and the user as owner; (2) saving a stored script
    under a name sets its name to that name and its status to SAVED, leaving
    its other columns alone; (3) saving again, now on a SAVED row, succeeds
    and leaves the status SAVED. *)
Theorem draft_lifecycle (user : option User) :
  truthy (user_id_of user) = true →
  (∀ (now : Z) (sv : Backend.Server),
      (∀ req, Backend.refuses sv req = None) →
      (∀ r, r ∈ Backend.scripts (Backend.db sv) →
            Backend.script_id r ≠ Backend.uuid_gen sv (Backend.uuid_count sv)) →
      ∃ row sv',
        ScriptMutations.createScriptMutation user now sv = (Ok row, sv')
        ∧ Backend.script_name row = "New Script*"
        ∧ Backend.script_status row = "DRAFT"
        ∧ Backend.reference_date row = now
        ∧ Backend.script_user_id row = user_id_of user
        ∧ Backend.scripts (Backend.db sv') = Backend.scripts (Backend.db sv) ++ [row]
        ∧ Backend.events (Backend.db sv') = Backend.events (Backend.db sv))
  ∧ (∀ (script : option Script.t) (v1 v2 : ScriptMutations.SaveVars)
       (sv : Backend.Server) (row : Backend.ScriptRow),
      let selected := fun r =>
        Is_true (Backend.script_matches
                   [Backend.ScriptIdEq (script_id_of script);
                    Backend.ScriptUserIdEq (user_id_of user)] r) in
      let saved_as := fun name =>
        {| Backend.script_id := Backend.script_id row;
           Backend.script_name := name;
           Backend.reference_date := Backend.reference_date row;
           Backend.script_status := "SAVED";
           Backend.script_user_id := Backend.script_user_id row;
           Backend.created_at := Backend.created_at row |} in
      truthy (script_id_of script) = true →
      (∀ req, Backend.refuses sv req = None) →
      filter selected (Backend.scripts (Backend.db sv)) = [row] →
      ∃ sv1 sv2,
        ScriptMutations.saveScriptMutation script user v1 sv
        = (Ok {| ScriptMutations.saved_scriptName := ScriptMutations.scriptName v1;
                 ScriptMutations.saved_scriptId := Backend.script_id row |}, sv1)
        ∧ filter selected (Backend.scripts (Backend.db sv1))
          = [saved_as (ScriptMutations.scriptName v1)]
        ∧ Backend.scripts (Backend.db sv1)
          = (fun r => if decide (selected r)
                      then saved_as (ScriptMutations.scriptName v1) else r)
            <$> Backend.scripts (Backend.db sv)
        ∧ ScriptMutations.saveScriptMutation script user v2 sv1
          = (Ok {| ScriptMutations.saved_scriptName := ScriptMutations.scriptName v2;
                   ScriptMutations.saved_scriptId := Backend.script_id row |}, sv2)
        ∧ filter selected (Backend.scripts (Backend.db sv2))
          = [saved_as (ScriptMutations.scriptName v2)]).
Proof.
  intros Hu. split.
  - intros now sv Hq Hfresh.
    unfold ScriptMutations.createScriptMutation. rewrite Hu. cbn [negb].
    unfold Backend.bind.
    destruct (insert_script_single_fresh
                {| Backend.ins_name := "New Script*";
                   Backend.ins_reference_date := now;
                   Backend.ins_status := "DRAFT";
                   Backend.ins_user_id := user_id_of user |} sv (Hq _) Hfresh)
      as (sv' & -> & Hs & He & _).
    cbn in Hs. cbn. eexists _, sv'. split; [reflexivity|]. cbn. repeat split; assumption.
  - intros script v1 v2 sv row selected saved_as Hs Hq Hone.
    destruct (saveScript_served script user v1 sv row Hu Hs Hq Hone)
      as (sv1 & Hsave1 & Hmap1 & Hone1 & _ & Hq1).
    destruct (saveScript_served script user v2 sv1 _ Hu Hs Hq1 Hone1)
      as (sv2 & Hsave2 & _ & Hone2 & _ & _).
    exists sv1, sv2.
    split; [exact Hsave1|]. split; [exact Hone1|].
    split; [|split; [exact Hsave2|exact Hone2]].
    rewrite Hmap1. apply list_fmap_ext. intros i r Hr.
    assert (Hrow : selected r → r = row).
    { intros Hsel. apply list_elem_of_lookup_2 in Hr.
      assert (Hin : r ∈ filter selected (Backend.scripts (Backend.db sv)))
        by (apply list_elem_of_filter; auto).
      rewrite Hone in Hin. apply list_elem_of_singleton in Hin. exact Hin. }
    destruct (decide (selected r)) as [Hsel|Hsel].
    + apply Is_true_true in Hsel as Hb. rewrite Hb, (Hrow Hsel). reflexivity.
    + apply Is_true_false in Hsel. rewrite Hsel. reflexivity.
Qed.

Lemma draft_lifecycle_witness :
  let sv := Fixtures.server Fixtures.sample_db in
  let script := Some {| Script.id := "s2"; Script.name := "New Script*";
                        Script.referenceDate := 0; Script.status := Some "DRAFT" |} in
  let q3 := {| ScriptMutations.scriptName := "Q3 Swap";
               ScriptMutations.transactionDetails := "" |} in
  (∃ row sv',
      ScriptMutations.createScriptMutation Fixtures.alice 42 sv = (Ok row, sv')
      ∧ Backend.script_name row = "New Script*"
      ∧ Backend.script_status row = "DRAFT"
      ∧ Backend.reference_date row = 42%Z)
  ∧ (∃ sv1 sv2,
      ScriptMutations.saveScriptMutation script Fixtures.alice q3 sv
      = (Ok {| ScriptMutations.saved_scriptName := "Q3 Swap";
               ScriptMutations.saved_scriptId := "s2" |}, sv1)
      ∧ ScriptMutations.saveScriptMutation script Fixtures.alice q3 sv1
        = (Ok {| ScriptMutations.saved_scriptName := "Q3 Swap";
                 ScriptMutations.saved_scriptId := "s2" |}, sv2)
      ∧ Backend.script_status <$> Backend.scripts (Backend.db sv2) = ["SAVED"; "SAVED"]).
Proof.
  intros sv script q3.
  destruct (draft_lifecycle Fixtures.alice eq_refl) as [Hcreate Hsave]. split.
  - destruct (Hcreate 42%Z sv (fun req => eq_refl)) as (row & sv' & Hrun & Hn & Hs & Hd & _).
    + intros r Hr. apply list_elem_of_In in Hr. cbn in Hr.
      destruct Hr as [<-|[<-|[]]]; discriminate.
    + exists row, sv'. auto.
  - destruct (Hsave script q3 q3 sv Fixtures.draft_script eq_refl (fun req => eq_refl) eq_refl)
      as (sv1 & sv2 & Hrun1 & _ & _ & Hrun2 & _).
    exists sv1, sv2. split; [exact Hrun1|]. split; [exact Hrun2|].
    cbn in Hrun1. injection Hrun1 as <-.
    cbn in Hrun2. injection Hrun2 as <-. reflexivity.
Defined.

(** ** Listing the events of a script *)

Section events_query.
Import Backend.

#[local] Instance date_le_total : Total date_le.
Proof. intros x y. unfold date_le. lia. Qed.

#[local] Instance date_le_trans : Transitive date_le.
Proof. intros x y z. unfold date_le. lia. Qed.

(** The answer to an ordered select: sorted by date, and a rearrangement of
    the selected rows. *)
Lemma select_events_by_date_served (fs : list EventFilter) (sv : Server) :
  refuses sv (SelectEvents fs) = None →
  ∃ rows sv',
    select_events_by_date fs sv = (Ok (answered rows), sv')
    ∧ db sv' = db sv
    ∧ StronglySorted date_le rows
    ∧ rows ≡ₚ filter (fun r => event_matches fs r) (events (db sv)).
Proof.
  intros Hq. unfold select_events_by_date.
  rewrite round_trip_served by exact Hq. cbn.
  eexists _, _. split; [reflexivity|]. split; [reflexivity|]. split.
  - apply StronglySorted_merge_sort; apply _.
  - apply merge_sort_Permutation.
Qed.

End events_query.

Example utc_midnight_2025 :
  Fixtures.utc_midnight 2025 1 1 = 1735689600000%Z
  ∧ Fixtures.utc_midnight 2025 2 1 = 1738368000000%Z
  ∧ Fixtures.utc_midnight 2025 3 1 = 1740787200000%Z.
Proof. repeat split. Qed.

(** C4: for a script and a signed-in user, when the backend answers,
    [listEvents] returns the events of the script owned by the user, each
    exactly once, in ascending order of event date: the rows answered are a
    rearrangement of the rows of the events table with that script id and
    that owner, sorted by date, and the list returned has one event per row,
    in the same order, carrying the id, date, script text, name and
    description of its row.  When these are three events dated 2025-03-01,
    2025-01-01 and 2025-02-01, the list returned is the one of 2025-01-01,
    then the one of 2025-02-01, then the one of 2025-03-01. *)
Theorem listEvents_ascending_by_date
  (script : option Script.t) (user : option User) (sv : Backend.Server) :
  let selected := fun e =>
    Backend.event_script_id e = script_id_of script
    ∧ Backend.event_user_id e = user_id_of user in
  let carries := fun (row : Backend.EventRow) (event : Event.t) =>
    Event.id event = Backend.event_id row
    ∧ Event.eventDate event = Backend.event_date row
    ∧ Event.script event = Backend.script_content row
    ∧ Event.name event = Backend.event_name row
    ∧ Event.description event = Backend.event_description row in
  truthy (script_id_of script) = true →
  truthy (user_id_of user) = true →
  Backend.refuses sv
    (Backend.SelectEvents [Backend.EventScriptIdEq (script_id_of script);
                           Backend.EventUserIdEq (user_id_of user)]) = None →
  ∃ rows events,
    fst (EventsQuery.queryFn script user sv) = Ok events
    ∧ Backend.db (snd (EventsQuery.queryFn script user sv)) = Backend.db sv
    ∧ rows ≡ₚ filter selected (Backend.events (Backend.db sv))
    ∧ StronglySorted Z.le (Backend.event_date <$> rows)
    ∧ Forall2 carries rows events
    ∧ StronglySorted Z.le (Event.eventDate <$> events)
    ∧ events ≡ₚ EventsQuery.to_event
                 <$> filter selected (Backend.events (Backend.db sv))
    ∧ (∀ e1 e2 e3,
          filter selected (Backend.events (Backend.db sv)) ≡ₚ [e1; e2; e3] →
          Backend.event_date e1 = Fixtures.utc_midnight 2025 3 1 →
          Backend.event_date e2 = Fixtures.utc_midnight 2025 1 1 →
          Backend.event_date e3 = Fixtures.utc_midnight 2025 2 1 →
          events = EventsQuery.to_event <$> [e2; e3; e1]
          ∧ Event.eventDate <$> events
            = [Fixtures.utc_midnight 2025 1 1; Fixtures.utc_midnight 2025 2 1;
               Fixtures.utc_midnight 2025 3 1]
          ∧ Event.id <$> events
            = [Backend.event_id e2; Backend.event_id e3; Backend.event_id e1]).
Proof.
  intros selected carries Hs Hu Hq.
  unfold EventsQuery.queryFn. rewrite Hs, Hu. cbn [negb orb]. unfold Backend.bind.
  destruct (select_events_by_date_served _ sv Hq) as (rows & sv' & -> & Hdb & Hsorted & Hperm).
  cbn. exists rows, (EventsQuery.to_event <$> rows).
  assert (Hperm' : rows ≡ₚ filter selected (Backend.events (Backend.db sv))).
  { rewrite Hperm. erewrite list_filter_iff; [reflexivity|].
    intros e. apply events_of_script_selected. }
  assert (Hdates : StronglySorted Z.le (Backend.event_date <$> rows)).
  { apply (StronglySorted_fmap _ Backend.date_le); [|exact Hsorted].
    intros x y Hxy. exact Hxy. }
  split; [reflexivity|]. split; [exact Hdb|]. split; [exact Hperm'|].
  split; [exact Hdates|]. split; [|split; [|split]].
  - apply Forall2_fmap_r, Forall_Forall2_diag, Forall_forall.
    intros row _. subst carries. cbn. repeat split.
  - rewrite <- list_fmap_compose. exact Hdates.
  - rewrite Hperm'. reflexivity.
  - intros e1 e2 e3 Hthree H1 H2 H3.
    cut ([e2; e3; e1] = rows).
    { intros <-. cbn. rewrite H1, H2, H3. repeat split. }
    apply (StronglySorted_unique_strong Backend.date_le).
    + intros x1 x2 Hx1 Hx2 Hle Hge. unfold Backend.date_le in Hle, Hge.
      assert (Hd : Backend.event_date x1 = Backend.event_date x2) by lia.
      rewrite Hperm', Hthree in Hx2.
      destruct utc_midnight_2025 as (Hjan & Hfeb & Hmar).
      rewrite Hmar in H1. rewrite Hjan in H2. rewrite Hfeb in H3.
      revert Hd. apply list_elem_of_In in Hx1, Hx2. cbn in Hx1, Hx2.
      destruct Hx1 as [<-|[<-|[<-|[]]]], Hx2 as [<-|[<-|[<-|[]]]];
        rewrite ?H1, ?H2, ?H3; intros Hd; try reflexivity; exfalso; lia.
    + destruct utc_midnight_2025 as (Hjan & Hfeb & Hmar).
      rewrite Hmar in H1. rewrite Hjan in H2. rewrite Hfeb in H3.
      repeat constructor; unfold Backend.date_le; rewrite ?H1, ?H2, ?H3; lia.
    + exact Hsorted.
    + rewrite Hperm', Hthree.
      symmetry. apply (Permutation_cons_append [e2; e3] e1).
Qed.

Lemma listEvents_ascending_by_date_witness :
  fst (EventsQuery.queryFn Fixtures.saved_script_open Fixtures.alice
         (Fixtures.server Fixtures.dated_db))
  = Ok (EventsQuery.to_event
          <$> [Fixtures.january; Fixtures.february; Fixtures.march])
  ∧ match fst (EventsQuery.queryFn Fixtures.saved_script_open Fixtures.alice
                 (Fixtures.server Fixtures.dated_db)) with
    | Ok events =>
        Event.eventDate <$> events
        = [1735689600000; 1738368000000; 1740787200000]%Z
        ∧ Event.id <$> events = ["e2"; "e3"; "e1"]
    | Throw _ => False
    end.
Proof.
  destruct (listEvents_ascending_by_date Fixtures.saved_script_open Fixtures.alice
              (Fixtures.server Fixtures.dated_db) eq_refl eq_refl eq_refl)
    as (rows & events & Hrun & _ & _ & _ & _ & _ & _ & Hthree).
  destruct (Hthree Fixtures.march Fixtures.january Fixtures.february)
    as (Hlist & Hdates & Hids); try reflexivity.
  rewrite Hrun. split; [f_equal; exact Hlist|].
  split; [exact Hdates | exact Hids].
Defined.

(** ** Updating an event *)

Section event_update.
Import Backend EventMutations.

(** What the serialised body does to a row, column by column: a supplied
    key overwrites its column, an absent key leaves it. *)
Lemma patch_event_columns (o : UpdateBody) (r : EventRow) :
  patch_event (JSON_stringify o) r
  = {| event_id := event_id r;
       event_script_id := event_script_id r;
       event_user_id := event_user_id r;
       event_name := match body_name o with Some x => Some x | None => event_name r end;
       event_description :=
         match body_description o with Some x => Some x | None => event_description r end;
       event_date := default (event_date r) (body_event_date o);
       script_content := default (script_content r) (body_script_content o) |}.
Proof.
  destruct o as [[n|] [d|] [t|] [c|]], r; reflexivity.
Qed.

Lemma update_events_served (body : list EventAssign) (fs : list EventFilter) (sv : Server) :
  refuses sv (UpdateEvents body fs) = None →
  ∃ sv',
    update_events body fs sv = (Ok (answered tt), sv')
    ∧ scripts (db sv') = scripts (db sv)
    ∧ events (db sv')
      = (fun r => if event_matches fs r then patch_event body r else r)
        <$> events (db sv).
Proof.
  intros Hq. unfold update_events.
  rewrite round_trip_served by exact Hq. cbn.
  eexists. split; [reflexivity|]. split; reflexivity.
Qed.

End event_update.

(** C10: (1) for a signed-in user and a backend that answers, an event
    update returns normally, touches no script row, and maps the events table
    row by row: a row with another id or another owner is left as it is; on
    the row with the given id each of name, description, event date and script
    text takes the supplied value when the update carries that key and keeps
    its stored value otherwise, and the ids and owner never change.  (2) With
    edit mode off, each of the four update handlers returns without calling
    the mutation, so the server is left as it was; with edit mode on, the
    script-text handler supplies the script text only. *)
Theorem updateEvent_changes_only_supplied_fields
  (user : option User) (v : EventMutations.UpdateVars) (sv : Backend.Server) :
  let selected := fun e =>
    Backend.event_id e = EventMutations.eventId v
    ∧ Backend.event_user_id e = user_id_of user in
  let u := EventMutations.updates v in
  truthy (user_id_of user) = true →
  (∀ req, Backend.refuses sv req = None) →
  (fst (EventMutations.updateEventMutation user v sv) = Ok tt
   ∧ Backend.scripts (Backend.db (EventMutations.mutate user v sv))
     = Backend.scripts (Backend.db sv)
   ∧ Forall2
       (fun old new =>
          Backend.event_id new = Backend.event_id old
          ∧ Backend.event_script_id new = Backend.event_script_id old
          ∧ Backend.event_user_id new = Backend.event_user_id old
          ∧ (¬ selected old → new = old)
          ∧ Backend.event_name new
            = match EventMutations.name u with
              | Some x => if decide (selected old) then Some x else Backend.event_name old
              | None => Backend.event_name old
              end
          ∧ Backend.event_description new
            = match EventMutations.description u with
              | Some x => if decide (selected old) then Some x
                          else Backend.event_description old
              | None => Backend.event_description old
              end
          ∧ Backend.event_date new
            = match EventMutations.eventDate u with
              | Some x => if decide (selected old) then x else Backend.event_date old
              | None => Backend.event_date old
              end
          ∧ Backend.script_content new
            = match EventMutations.script u with
              | Some x => if decide (selected old) then x else Backend.script_content old
              | None => Backend.script_content old
              end)
       (Backend.events (Backend.db sv))
       (Backend.events (Backend.db (EventMutations.mutate user v sv))))
  ∧ (∀ eventId text date,
        EventsHandlers.handleScriptChange false eventId text = None
        ∧ EventsHandlers.handleDateChange false eventId date = None
        ∧ EventsHandlers.handleNameChange false eventId text = None
        ∧ EventsHandlers.handleDescriptionChange false eventId text = None
        ∧ EventsHandlers.dispatch user
            (EventsHandlers.handleScriptChange false eventId text) sv = sv
        ∧ EventsHandlers.dispatch user
            (EventsHandlers.handleDateChange false eventId date) sv = sv
        ∧ EventsHandlers.dispatch user
            (EventsHandlers.handleNameChange false eventId text) sv = sv
        ∧ EventsHandlers.dispatch user
            (EventsHandlers.handleDescriptionChange false eventId text) sv = sv
        ∧ EventsHandlers.handleScriptChange true eventId text
          = Some {| EventMutations.eventId := eventId;
                    EventMutations.updates :=
                      {| EventMutations.id := None;
                         EventMutations.eventDate := None;
                         EventMutations.script := Some text;
                         EventMutations.name := None;
                         EventMutations.description := None |} |}).
Proof.
  intros selected u Hu Hq. split; [|intros; repeat split].
  unfold EventMutations.mutate, EventMutations.updateEventMutation.
  rewrite Hu. cbn [negb]. unfold Backend.bind. fold u.
  destruct (update_events_served
              (EventMutations.JSON_stringify
                 {| EventMutations.body_name := EventMutations.name u;
                    EventMutations.body_description := EventMutations.description u;
                    EventMutations.body_event_date := EventMutations.eventDate u;
                    EventMutations.body_script_content := EventMutations.script u |})
              [Backend.EventIdEq (EventMutations.eventId v);
               Backend.EventUserIdEq (user_id_of user)] sv (Hq _))
    as (sv' & -> & Hscripts & Hevents).
  cbn. split; [reflexivity|]. split; [exact Hscripts|].
  rewrite Hevents. apply Forall2_fmap_r, Forall_Forall2_diag, Forall_forall.
  intros old _. unfold compose.
  pose proof (event_of_user_selected (EventMutations.eventId v) (user_id_of user) old)
    as Hsel.
  destruct (Backend.event_matches _ old) eqn:Hm.
  - assert (Hs : selected old) by (apply Hsel; exact I).
    rewrite patch_event_columns. cbn.
    destruct (decide (selected old)) as [_|Hn]; [|contradiction].
    repeat split. intros Hn. contradiction.
  - assert (Hs : ¬ selected old) by (intros Hs; apply Hsel in Hs; exact Hs).
    destruct (decide (selected old)) as [Hy|_]; [contradiction|].
    repeat split; repeat case_match; reflexivity.
Qed.

Lemma updateEvent_changes_only_supplied_fields_witness :
  let v := {| EventMutations.eventId := "e1";
              EventMutations.updates :=
                {| EventMutations.id := None;
                   EventMutations.eventDate := None;
                   EventMutations.script := Some "y = 2;";
                   EventMutations.name := None;
                   EventMutations.description := None |} |} in
  let sv := Fixtures.server Fixtures.sample_db in
  fst (EventMutations.updateEventMutation Fixtures.alice v sv) = Ok tt
  ∧ Backend.events (Backend.db (EventMutations.mutate Fixtures.alice v sv))
    = [ {| Backend.event_id := "e1"; Backend.event_script_id := "s1";
           Backend.event_user_id := "alice"; Backend.event_name := Some "Event";
           Backend.event_description := Some ""; Backend.event_date := 5;
           Backend.script_content := "y = 2;" |};
        Fixtures.event_on "e2" "s2" 6; Fixtures.event_on "e3" "s1" 7 ].
Proof.
  intros v sv.
  destruct (updateEvent_changes_only_supplied_fields Fixtures.alice v sv
              eq_refl (fun req => eq_refl)) as [(Hok & _ & _) _].
  split; [exact Hok | reflexivity].
Defined.

(** ** The password policy *)

Section password_policy.
Import JS Auth.

Lemma test_exists (class : N -> bool) (s : list N) :
  test class s = true ↔ ∃ c, c ∈ s ∧ class c = true.
Proof.
  unfold test. rewrite existsb_exists. split.
  - intros (c & Hin & Hc). exists c. split; [apply list_elem_of_In; exact Hin | exact Hc].
  - intros (c & Hin & Hc). exists c. split; [apply list_elem_of_In; exact Hin | exact Hc].
Qed.

Lemma in_range_bounds (lo hi c : N) :
  in_range lo hi c = true ↔ (lo <= c <= hi)%N.
Proof. unfold in_range. rewrite andb_true_iff, !N.leb_le. reflexivity. Qed.

Lemma special_member (c : N) : special c = true ↔ c ∈ special_characters.
Proof.
  unfold special. rewrite existsb_exists. split.
  - intros (x & Hin & Hx). apply N.eqb_eq in Hx. subst x.
    apply list_elem_of_In. exact Hin.
  - intros Hin. exists c. split; [apply list_elem_of_In; exact Hin | apply N.eqb_refl].
Qed.

End password_policy.

(** C8: the sign-up validation accepts a password exactly when it has at
    least 8 code units and contains a code unit in A-Z, one in a-z, one in
    0-9 and one of the listed special characters; abc is rejected and
    Abcdefg1! is accepted. *)
Theorem validatePassword_accepts_iff (password : list N) :
  (fst (Auth.validatePassword password) = true
   ↔ 8 ≤ length password
     ∧ (∃ c, c ∈ password ∧ (65 <= c <= 90)%N)
     ∧ (∃ c, c ∈ password ∧ (97 <= c <= 122)%N)
     ∧ (∃ c, c ∈ password ∧ (48 <= c <= 57)%N)
     ∧ (∃ c, c ∈ password ∧ c ∈ Auth.special_characters))
  ∧ Auth.special_characters
    = [33; 64; 35; 36; 37; 94; 38; 42; 40; 41; 44; 46; 63; 34;
       58; 123; 125; 124; 60; 62]%N
  ∧ fst (Auth.validatePassword (JS.lit "abc")) = false
  ∧ fst (Auth.validatePassword (JS.lit "Abcdefg1!")) = true.
Proof.
  split; [|repeat split].
  assert (Hup : JS.test Auth.upper password = true
                ↔ ∃ c, c ∈ password ∧ (65 <= c <= 90)%N).
  { rewrite test_exists. apply exist_proper. intros c.
    unfold Auth.upper. rewrite in_range_bounds. reflexivity. }
  assert (Hlo : JS.test Auth.lower password = true
                ↔ ∃ c, c ∈ password ∧ (97 <= c <= 122)%N).
  { rewrite test_exists. apply exist_proper. intros c.
    unfold Auth.lower. rewrite in_range_bounds. reflexivity. }
  assert (Hdi : JS.test Auth.digit password = true
                ↔ ∃ c, c ∈ password ∧ (48 <= c <= 57)%N).
  { rewrite test_exists. apply exist_proper. intros c.
    unfold Auth.digit. rewrite in_range_bounds. reflexivity. }
  assert (Hsp : JS.test Auth.special password = true
                ↔ ∃ c, c ∈ password ∧ c ∈ Auth.special_characters).
  { rewrite test_exists. apply exist_proper. intros c.
    rewrite special_member. reflexivity. }
  rewrite <- Hup, <- Hlo, <- Hdi, <- Hsp.
  unfold Auth.validatePassword.
  destruct (Nat.ltb_spec (length password) 8) as [Hlen|Hlen]; cbn [fst].
  - split; [discriminate | lia].
  - destruct (JS.test Auth.upper password); cbn [negb fst];
      [|split; [discriminate | intros (_ & H & _); discriminate H]].
    destruct (JS.test Auth.lower password); cbn [negb fst];
      [|split; [discriminate | intros (_ & _ & H & _); discriminate H]].
    destruct (JS.test Auth.digit password); cbn [negb fst];
      [|split; [discriminate | intros (_ & _ & _ & H & _); discriminate H]].
    destruct (JS.test Auth.special password); cbn [negb fst];
      [|split; [discriminate | intros (_ & _ & _ & _ & H); discriminate H]].
    split; [intros _; repeat split; exact Hlen | reflexivity].
Qed.

(** ** The script-name editor *)

(** C9: whatever is typed into the name editor, the name the header then
    tracks, and hands to its callback, is the first 60 code units of the
    input, so it never exceeds 60; a 65-unit input is cut to exactly its
    first 60 units, the last 5 being dropped; and in modify mode a tracked
    name of length 60 is rendered with the red counter reading
    60/60 characters. *)
Theorem script_name_capped_at_60
  (p : EventsHeader.Props) (value : list N) (st : EventsHeader.State) :
  let st' := fst (EventsHeader.handleScriptNameChange p value st) in
  EventsHeader.scriptName st' = take 60 value
  ∧ length (EventsHeader.scriptName st') = min 60 (length value)
  ∧ (EventsHeader.has_onScriptNameChange p = true →
     snd (EventsHeader.handleScriptNameChange p value st) = [take 60 value])
  ∧ (length value = 65 →
     length (EventsHeader.scriptName st') = 60
     ∧ ∃ dropped, length dropped = 5
                  ∧ value = EventsHeader.scriptName st' ++ dropped)
  ∧ (EventsHeader.isModifyMode p = true →
     length (EventsHeader.scriptName st') = 60 →
     EventsHeader.counter p st'
     = Some {| EventsHeader.className := "text-xs text-red-500 font-medium";
               EventsHeader.text := "60/60 characters" |}).
Proof.
  intros st'. subst st'. cbn [fst snd EventsHeader.handleScriptNameChange
                               EventsHeader.scriptName].
  unfold JS.slice0.
  split; [reflexivity|]. split; [apply length_take|].
  split; [intros ->; reflexivity|]. split.
  - intros Hlen. split; [rewrite length_take; lia|].
    exists (drop 60 value). split.
    + rewrite length_drop. lia.
    + symmetry. apply take_drop.
  - intros Hmode Hlen. unfold EventsHeader.counter.
    cbn [EventsHeader.scriptName]. rewrite Hmode, Hlen. reflexivity.
Qed.

Lemma script_name_capped_at_60_witness :
  let p := {| EventsHeader.currentScriptName := JS.lit "New Script*";
              EventsHeader.isModifyMode := true;
              EventsHeader.has_onScriptNameChange := true |} in
  let value := replicate 65 120%N in
  let st' := fst (EventsHeader.handleScriptNameChange p value (EventsHeader.initial p)) in
  EventsHeader.scriptName st' = replicate 60 120%N
  ∧ EventsHeader.counter p st'
    = Some {| EventsHeader.className := "text-xs text-red-500 font-medium";
              EventsHeader.text := "60/60 characters" |}.
Proof.
  intros p value st'.
  destruct (script_name_capped_at_60 p value (EventsHeader.initial p))
    as (Hname & _ & _ & Hcut & Hcounter).
  split; [exact Hname|].
  apply Hcounter; [reflexivity|]. apply Hcut. reflexivity.
Defined.

(** ** The spot-rate client *)

Section spot_rate.
Import JS MarketData.

Lemma ok_iff_2xx (resp : HttpResponse) :
  ok resp = true ↔ (200 <= status resp <= 299)%N.
Proof. unfold ok. rewrite andb_true_iff, !N.leb_le. reflexivity. Qed.

End spot_rate.

(** C7, as amended: given the response [fetch] resolves to, (1) if its
    status is not in 200..299 the call throws, and the message thrown is the
    text failed to fetch spot rate: followed by the decimal status code;
    (2) if the status is in 200..299 and the body is an array whose first
    row carries a rate that is not null, the call returns that rate; (3) if
    the first row has no rate, or a null one, the call returns 0; (4) if the
    status is in 200..299 and the body is the empty array, the call returns
    0. *)
Theorem fetchSpotRate_outcomes
  (fetch : string -> list (string * string) -> Result MarketData.HttpResponse)
  (baseUrl apiKey symbol date : string) (resp : MarketData.HttpResponse) :
  fetch (baseUrl +:+ "/rest/v1/spot_rates?symbol=eq." +:+ symbol
         +:+ "&date=eq." +:+ date +:+ "&select=rate")
        [("apikey", apiKey); ("Authorization", "Bearer " +:+ apiKey)] = Ok resp →
  (¬ (200 <= MarketData.status resp <= 299)%N →
     MarketData.fetchSpotRate fetch baseUrl apiKey symbol date
     = Throw ("failed to fetch spot rate: "
              +:+ JS.Number_toString (MarketData.status resp)))
  ∧ ((200 <= MarketData.status resp <= 299)%N →
     ∀ fields rest rate,
       MarketData.json_body resp
       = Ok (MarketData.JArray (MarketData.JObject fields :: rest)) →
       MarketData.property "rate" fields = Some rate →
       rate ≠ MarketData.JNull →
       MarketData.fetchSpotRate fetch baseUrl apiKey symbol date = Ok rate)
  ∧ ((200 <= MarketData.status resp <= 299)%N →
     ∀ fields rest,
       MarketData.json_body resp
       = Ok (MarketData.JArray (MarketData.JObject fields :: rest)) →
       (MarketData.property "rate" fields = None
        ∨ MarketData.property "rate" fields = Some MarketData.JNull) →
       MarketData.fetchSpotRate fetch baseUrl apiKey symbol date
       = Ok (MarketData.JNumber 0))
  ∧ ((200 <= MarketData.status resp <= 299)%N →
     MarketData.json_body resp = Ok (MarketData.JArray []) →
     MarketData.fetchSpotRate fetch baseUrl apiKey symbol date
     = Ok (MarketData.JNumber 0)).
Proof.
  intros Hfetch. unfold MarketData.fetchSpotRate. rewrite Hfetch.
  pose proof (ok_iff_2xx resp) as Hok.
  destruct (MarketData.ok resp); cbn [negb].
  - split; [intros Hn; exfalso; apply Hn, Hok; reflexivity|]. split; [|split].
    + intros _ fields rest rate -> Hrate Hnn. cbn. rewrite Hrate. cbn.
      destruct rate; try reflexivity. contradiction.
    + intros _ fields rest -> [Hrate|Hrate]; cbn; rewrite Hrate; reflexivity.
    + intros _ ->. reflexivity.
  - split; [reflexivity|].
    split; [|split]; intros H2xx; apply Hok in H2xx; discriminate H2xx.
Qed.

Lemma fetchSpotRate_outcomes_witness :
  let rate := MarketData.JNumber (5 # 4) in
  let rows := MarketData.JArray [MarketData.JObject [("rate", rate)]] in
  let call := fun resp =>
    MarketData.fetchSpotRate (Fixtures.responding resp)
      "https://data.example" "key" "EURUSD" "2025-01-01" in
  call {| MarketData.status := 404; MarketData.json_body := Throw "not json" |}
  = Throw "failed to fetch spot rate: 404"
  ∧ call {| MarketData.status := 200; MarketData.json_body := Ok rows |} = Ok rate
  ∧ call {| MarketData.status := 200;
            MarketData.json_body := Ok (MarketData.JArray []) |}
    = Ok (MarketData.JNumber 0).
Proof.
  intros rate rows call.
  assert (Hall : ∀ resp,
    (¬ (200 <= MarketData.status resp <= 299)%N →
       call resp = Throw ("failed to fetch spot rate: "
                          +:+ JS.Number_toString (MarketData.status resp)))
    ∧ ((200 <= MarketData.status resp <= 299)%N →
       ∀ fields rest r,
         MarketData.json_body resp
         = Ok (MarketData.JArray (MarketData.JObject fields :: rest)) →
         MarketData.property "rate" fields = Some r →
         r ≠ MarketData.JNull → call resp = Ok r)
    ∧ ((200 <= MarketData.status resp <= 299)%N →
       MarketData.json_body resp = Ok (MarketData.JArray []) →
       call resp = Ok (MarketData.JNumber 0))).
  { intros resp.
    destruct (fetchSpotRate_outcomes (Fixtures.responding resp)
                "https://data.example" "key" "EURUSD" "2025-01-01" resp eq_refl)
      as (H1 & H2 & _ & H4).
    split; [exact H1|]. split; [exact H2 | exact H4]. }
  split; [|split].
  - refine (proj1 (Hall {| MarketData.status := 404;
                            MarketData.json_body := Throw "not json" |}) _).
    cbn. lia.
  - refine (proj1 (proj2 (Hall {| MarketData.status := 200;
                                   MarketData.json_body := Ok rows |}))
              _ [("rate", rate)] [] rate eq_refl eq_refl _).
    + cbn. lia.
    + discriminate.
  - refine (proj2 (proj2 (Hall {| MarketData.status := 200;
                                   MarketData.json_body := Ok (MarketData.JArray []) |}))
              _ eq_refl).
    cbn. lia.
Defined.

(** C7, as stated, fails on a first row whose rate is null: the claim has
    the call return the rate field of the first row, and on the body
    [[{"rate": null}]] with status 200 the call returns 0 instead. *)
Lemma fetchSpotRate_null_rate_counterexample :
  ¬ (∀ (fetch : string -> list (string * string) -> Result MarketData.HttpResponse)
       (baseUrl apiKey symbol date : string) (resp : MarketData.HttpResponse)
       (fields : list (string * MarketData.json)) (rest : list MarketData.json)
       (rate : MarketData.json),
       fetch (baseUrl +:+ "/rest/v1/spot_rates?symbol=eq." +:+ symbol
              +:+ "&date=eq." +:+ date +:+ "&select=rate")
             [("apikey", apiKey); ("Authorization", "Bearer " +:+ apiKey)] = Ok resp →
       (200 <= MarketData.status resp <= 299)%N →
       MarketData.json_body resp
       = Ok (MarketData.JArray (MarketData.JObject fields :: rest)) →
       MarketData.property "rate" fields = Some rate →
       MarketData.fetchSpotRate fetch baseUrl apiKey symbol date = Ok rate).
Proof.
  intros Hclaim.
  pose (resp := {| MarketData.status := 200;
                   MarketData.json_body :=
                     Ok (MarketData.JArray
                           [MarketData.JObject [("rate", MarketData.JNull)]]) |}).
  assert (H2xx : (200 <= MarketData.status resp <= 299)%N) by (cbn; lia).
  specialize (Hclaim (Fixtures.responding resp)
                "https://data.example" "key" "EURUSD" "2025-01-01" resp
                [("rate", MarketData.JNull)] [] MarketData.JNull
                eq_refl H2xx eq_refl eq_refl).
  discriminate Hclaim.
Qed.

(** ** The functional-if *)

Section smoothing.
Import Fuzzy.
Local Open Scope R_scope.

Lemma ramp_below (eps y : R) : 0 < eps → y <= 0 → Rmax 0 (Rmin eps y) = 0.
Proof.
  intros He Hy. rewrite Rmin_right by lra. apply Rmax_left. exact Hy.
Qed.

Lemma ramp_above (eps y : R) : 0 < eps → eps <= y → Rmax 0 (Rmin eps y) = eps.
Proof.
  intros He Hy. rewrite Rmin_left by lra. apply Rmax_right. lra.
Qed.

Lemma ramp_inside (eps y : R) : 0 <= y <= eps → Rmax 0 (Rmin eps y) = y.
Proof.
  intros [H0 H1]. rewrite Rmin_right by lra. apply Rmax_right. exact H0.
Qed.

(** C5: for all reals a, b, x and every eps > 0, fIf(x, a, b, eps) is b for
    x <= -eps/2, is a for x >= eps/2, and on the interval between is the
    affine function b + (a - b)/eps * (x + eps/2) of x; for eps = 1,
    fIf(x, 1, 0, 1) = x + 0.5 on -0.5 < x < 0.5 and fIf(0, 1, 0, 1) = 0.5. *)
Theorem fIf_is_a_ramp (x a b eps : R) :
  0 < eps →
  fIf x a b eps = b + (a - b) / eps * Rmax 0 (Rmin eps (x + eps / 2))
  ∧ (x <= - eps / 2 → fIf x a b eps = b)
  ∧ (eps / 2 <= x → fIf x a b eps = a)
  ∧ (- eps / 2 <= x <= eps / 2 →
     fIf x a b eps = (a + b) / 2 + (a - b) / eps * x)
  ∧ (-0.5 < x < 0.5 → fIf x 1 0 1 = x + 0.5)
  ∧ fIf 0 1 0 1 = 0.5.
Proof.
  intros He. split; [reflexivity|]. unfold fIf. split; [|split; [|split; [|split]]].
  - intros Hx. rewrite ramp_below by lra. lra.
  - intros Hx. rewrite ramp_above by lra. field. lra.
  - intros Hx. rewrite ramp_inside by lra. field. lra.
  - intros Hx. rewrite ramp_inside by lra. lra.
  - rewrite ramp_inside by lra. lra.
Qed.

Lemma fIf_is_a_ramp_witness :
  fIf (-3) 7 2 4 = 2 ∧ fIf 5 7 2 4 = 7 ∧ fIf 1 7 2 4 = (7 + 2) / 2 + (7 - 2) / 4 * 1.
Proof.
  assert (He : 0 < 4) by lra.
  destruct (fIf_is_a_ramp (-3) 7 2 4 He) as (_ & Hlow & _).
  destruct (fIf_is_a_ramp 5 7 2 4 He) as (_ & _ & Hhigh & _).
  destruct (fIf_is_a_ramp 1 7 2 4 He) as (_ & _ & _ & Hmid & _).
  split; [apply Hlow; lra|]. split; [apply Hhigh; lra | apply Hmid; lra].
Defined.

End smoothing.

(** * Further properties of the code around the hooks *)

(** ** What each request does to the tables *)

Section request_effects.
Import Backend.

Lemma delete_events_run (fs : list EventFilter) (sv : Server) :
  delete_events fs sv
  = match refuses sv (DeleteEvents fs) with
    | Some e => (Ok (refused e), received (DeleteEvents fs) sv)
    | None =>
        (Ok (answered tt),
         with_db {| scripts := scripts (db sv);
                    events := filter (fun r => ¬ event_matches fs r) (events (db sv)) |}
           (received (DeleteEvents fs) sv))
    end.
Proof. unfold delete_events, round_trip. destruct (refuses sv _); reflexivity. Qed.

Lemma delete_scripts_run (fs : list ScriptFilter) (sv : Server) :
  delete_scripts fs sv
  = match refuses sv (DeleteScripts fs) with
    | Some e => (Ok (refused e), received (DeleteScripts fs) sv)
    | None =>
        (Ok (answered tt),
         with_db {| scripts := filter (fun r => ¬ script_matches fs r) (scripts (db sv));
                    events := events (db sv) |}
           (received (DeleteScripts fs) sv))
    end.
Proof. unfold delete_scripts, round_trip. destruct (refuses sv _); reflexivity. Qed.

Lemma update_events_run (body : list EventAssign) (fs : list EventFilter) (sv : Server) :
  update_events body fs sv
  = match refuses sv (UpdateEvents body fs) with
    | Some e => (Ok (refused e), received (UpdateEvents body fs) sv)
    | None =>
        (Ok (answered tt),
         with_db {| scripts := scripts (db sv);
                    events := (fun r => if event_matches fs r
                                        then patch_event body r else r)
                              <$> events (db sv) |}
           (received (UpdateEvents body fs) sv))
    end.
Proof. unfold update_events, round_trip. destruct (refuses sv _); reflexivity. Qed.

End request_effects.

(** X1: draft deletion under failure.  Without a signed-in user it throws
    and sends nothing.  If the events delete is refused it throws that
    error, leaves both tables as they were and never sends the script
    delete.  If the events delete is answered and the script delete is
    refused it throws that error with the scripts table intact, but the
    events of the script are already gone. *)
Theorem deleteDraft_failure_modes
  (user : option User) (scriptId : string) (sv : Backend.Server) :
  let uid := user_id_of user in
  let events_request :=
    Backend.DeleteEvents [Backend.EventScriptIdEq scriptId; Backend.EventUserIdEq uid] in
  let script_request :=
    Backend.DeleteScripts [Backend.ScriptIdEq scriptId; Backend.ScriptUserIdEq uid;
                           Backend.ScriptStatusEq "DRAFT"] in
  let out := DraftDeletion.deleteDraftMutation user scriptId sv in
  (truthy uid = false → out = (Throw "User not authenticated", sv))
  ∧ (truthy uid = true →
     ∀ e, Backend.refuses sv events_request = Some e →
          fst out = Throw e
          ∧ Backend.db (snd out) = Backend.db sv
          ∧ Backend.log (snd out) = Backend.log sv ++ [events_request])
  ∧ (truthy uid = true →
     Backend.refuses sv events_request = None →
     ∀ e, Backend.refuses sv script_request = Some e →
          fst out = Throw e
          ∧ Backend.scripts (Backend.db (snd out)) = Backend.scripts (Backend.db sv)
          ∧ Backend.events (Backend.db (snd out))
            = filter (fun ev => ¬ (Backend.event_script_id ev = scriptId
                                   ∧ Backend.event_user_id ev = uid))
                (Backend.events (Backend.db sv))
          ∧ Backend.log (snd out) = Backend.log sv ++ [events_request; script_request]).
Proof.
  intros uid events_request script_request out. subst out.
  unfold DraftDeletion.deleteDraftMutation. fold uid.
  split; [|split].
  - intros ->. reflexivity.
  - intros -> e He. cbn [negb]. unfold Backend.bind.
    rewrite delete_events_run. fold events_request. rewrite He. cbn.
    repeat split.
  - intros -> He e Hs. cbn [negb]. unfold Backend.bind.
    rewrite delete_events_run. fold events_request. rewrite He. cbn.
    rewrite delete_scripts_run. fold script_request. cbn.
    rewrite Hs. cbn. split; [reflexivity|]. split; [reflexivity|]. split.
    + apply list_filter_iff. intros ev.
      apply not_iff_compat, (events_of_script_selected scriptId uid ev).
    + rewrite <- app_assoc. reflexivity.
Qed.

Lemma deleteDraft_failure_modes_witness :
  let down := fun req =>
    match req with
    | Backend.DeleteScripts _ => Some "503"
    | _ => None
    end in
  let sv := {| Backend.db := Fixtures.sample_db; Backend.log := [];
               Backend.refuses := down;
               Backend.uuid_gen := fun _ => "uuid"; Backend.uuid_count := 0;
               Backend.server_clock := 0 |} in
  let out := DraftDeletion.deleteDraftMutation Fixtures.alice "s2" sv in
  fst out = Throw "503"
  ∧ Backend.scripts (Backend.db (snd out)) = [Fixtures.saved_script; Fixtures.draft_script]
  ∧ Backend.events (Backend.db (snd out))
    = [Fixtures.event_on "e1" "s1" 5; Fixtures.event_on "e3" "s1" 7].
Proof.
  intros down sv out.
  destruct (deleteDraft_failure_modes Fixtures.alice "s2" sv) as (_ & _ & Hlate).
  destruct (Hlate eq_refl eq_refl "503" eq_refl) as (Hthrow & Hscripts & Hevents & _).
  split; [exact Hthrow|]. split; [exact Hscripts|].
  etrans; [exact Hevents | reflexivity].
Defined.

(** ** Rows of other owners *)

Section other_owners.
Import Backend.

Variable uid : string.

Lemma event_owner_selected (fs : list EventFilter) (r : EventRow) :
  EventUserIdEq uid ∈ fs → event_matches fs r = true → event_user_id r = uid.
Proof.
  intros Hin Hm. unfold event_matches in Hm. rewrite forallb_forall in Hm.
  apply list_elem_of_In in Hin. apply Hm in Hin. cbn in Hin.
  apply String.eqb_eq. exact Hin.
Qed.

Lemma script_owner_selected (fs : list ScriptFilter) (r : ScriptRow) :
  ScriptUserIdEq uid ∈ fs → script_matches fs r = true → script_user_id r = uid.
Proof.
  intros Hin Hm. unfold script_matches in Hm. rewrite forallb_forall in Hm.
  apply list_elem_of_In in Hin. apply Hm in Hin. cbn in Hin.
  apply String.eqb_eq. exact Hin.
Qed.

Lemma patch_event_keeps_keys (body : list EventAssign) (r : EventRow) :
  event_id (patch_event body r) = event_id r
  ∧ event_script_id (patch_event body r) = event_script_id r
  ∧ event_user_id (patch_event body r) = event_user_id r.
Proof.
  unfold patch_event. revert r. induction body as [|a body IH]; intros r; [auto|].
  cbn [fold_left]. destruct (IH (assign_event r a)) as (H1 & H2 & H3).
  rewrite H1, H2, H3. destruct a; auto.
Qed.

(** Deleting the rows selected by filters that name the owner keeps the
    rows of everyone else. *)
Lemma others_events_after_delete (fs : list EventFilter) (l : list EventRow) :
  EventUserIdEq uid ∈ fs →
  filter (fun r => event_user_id r ≠ uid) (filter (fun r => ¬ event_matches fs r) l)
  = filter (fun r => event_user_id r ≠ uid) l.
Proof.
  intros Hin. rewrite list_filter_filter. apply list_filter_iff. intros r.
  split; [tauto|]. intros Ho. split; [exact Ho|].
  intros Hm. apply Ho, (event_owner_selected fs r Hin). apply Is_true_true. exact Hm.
Qed.

Lemma others_scripts_after_delete (fs : list ScriptFilter) (l : list ScriptRow) :
  ScriptUserIdEq uid ∈ fs →
  filter (fun r => script_user_id r ≠ uid) (filter (fun r => ¬ script_matches fs r) l)
  = filter (fun r => script_user_id r ≠ uid) l.
Proof.
  intros Hin. rewrite list_filter_filter. apply list_filter_iff. intros r.
  split; [tauto|]. intros Ho. split; [exact Ho|].
  intros Hm. apply Ho, (script_owner_selected fs r Hin). apply Is_true_true. exact Hm.
Qed.

Lemma others_events_after_update (body : list EventAssign) (fs : list EventFilter)
  (l : list EventRow) :
  EventUserIdEq uid ∈ fs →
  filter (fun r => event_user_id r ≠ uid)
    ((fun r => if event_matches fs r then patch_event body r else r) <$> l)
  = filter (fun r => event_user_id r ≠ uid) l.
Proof.
  intros Hin. induction l as [|r l IH]; [reflexivity|].
  rewrite fmap_cons, !filter_cons, IH.
  destruct (event_matches fs r) eqn:Hm; [|reflexivity].
  pose proof (event_owner_selected fs r Hin Hm) as Ho.
  destruct (patch_event_keeps_keys body r) as (_ & _ & Hk).
  destruct (decide (event_user_id (patch_event body r) ≠ uid)) as [Hn|_];
    [rewrite Hk in Hn; contradiction|].
  destruct (decide (event_user_id r ≠ uid)) as [Hn|_]; [contradiction|reflexivity].
Qed.

Lemma others_scripts_after_update (body : ScriptPatch) (fs : list ScriptFilter)
  (l : list ScriptRow) :
  ScriptUserIdEq uid ∈ fs →
  filter (fun r => script_user_id r ≠ uid)
    ((fun r => if script_matches fs r then patch_script body r else r) <$> l)
  = filter (fun r => script_user_id r ≠ uid) l.
Proof.
  intros Hin. induction l as [|r l IH]; [reflexivity|].
  rewrite fmap_cons, !filter_cons, IH.
  destruct (script_matches fs r) eqn:Hm; [|reflexivity].
  pose proof (script_owner_selected fs r Hin Hm) as Ho.
  change (script_user_id (patch_script body r)) with (script_user_id r).
  destruct (decide (script_user_id r ≠ uid)) as [Hn|_]; [contradiction|reflexivity].
Qed.

End other_owners.

Section isolation.
Import Backend.

Variable user : option User.

(** The rows of the two tables that belong to somebody else. *)
Let others (sv : Server) : list ScriptRow * list EventRow :=
  (filter (fun r => script_user_id r ≠ user_id_of user) (scripts (db sv)),
   filter (fun r => event_user_id r ≠ user_id_of user) (events (db sv))).

Lemma deleteDraft_keeps_others (scriptId : string) (sv : Server) :
  others (snd (DraftDeletion.deleteDraftMutation user scriptId sv)) = others sv.
Proof.
  unfold DraftDeletion.deleteDraftMutation.
  destruct (truthy (user_id_of user)); [|reflexivity]. cbn [negb].
  unfold bind. rewrite delete_events_run.
  destruct (refuses sv _); [reflexivity|]. cbn -[event_matches script_matches patch_event].
  rewrite delete_scripts_run. cbn -[event_matches script_matches patch_event].
  destruct (refuses sv _); cbn -[event_matches script_matches patch_event]; unfold others; cbn -[event_matches script_matches patch_event].
  - rewrite others_events_after_delete; [reflexivity|]. right; left.
  - rewrite others_events_after_delete, others_scripts_after_delete;
      [reflexivity| |]; right; left.
Qed.

Lemma deleteScript_keeps_others (script : option Script.t) (sv : Server) :
  others (snd (ScriptSettings.deleteScriptMutation script user sv)) = others sv.
Proof.
  unfold ScriptSettings.deleteScriptMutation.
  destruct (negb (truthy (user_id_of user)) || negb (truthy (script_id_of script)));
    [reflexivity|].
  unfold bind. rewrite delete_events_run.
  destruct (refuses sv _); [reflexivity|]. cbn -[event_matches script_matches patch_event].
  rewrite delete_scripts_run. cbn -[event_matches script_matches patch_event].
  destruct (refuses sv _); cbn -[event_matches script_matches patch_event]; unfold others; cbn -[event_matches script_matches patch_event].
  - rewrite others_events_after_delete; [reflexivity|]. right; left.
  - rewrite others_events_after_delete, others_scripts_after_delete;
      [reflexivity| |]; right; left.
Qed.

Lemma deleteEvent_keeps_others (eventId : string) (sv : Server) :
  others (snd (EventRemoval.deleteEventMutation user eventId sv)) = others sv.
Proof.
  unfold EventRemoval.deleteEventMutation.
  destruct (truthy (user_id_of user)); [|reflexivity]. cbn [negb].
  unfold bind. rewrite delete_events_run.
  destruct (refuses sv _); [reflexivity|]. cbn -[event_matches script_matches patch_event]. unfold others; cbn -[event_matches script_matches patch_event].
  rewrite others_events_after_delete; [reflexivity|]. right; left.
Qed.

Lemma updateEvent_keeps_others (v : EventMutations.UpdateVars) (sv : Server) :
  others (snd (EventMutations.updateEventMutation user v sv)) = others sv.
Proof.
  unfold EventMutations.updateEventMutation.
  destruct (truthy (user_id_of user)); [|reflexivity]. cbn [negb].
  unfold bind. rewrite update_events_run.
  destruct (refuses sv _); [reflexivity|]. cbn -[event_matches script_matches patch_event]. unfold others; cbn -[event_matches script_matches patch_event].
  rewrite others_events_after_update; [reflexivity|]. right; left.
Qed.

Lemma saveScript_keeps_others (script : option Script.t)
  (v : ScriptMutations.SaveVars) (sv : Server) :
  others (snd (ScriptMutations.saveScriptMutation script user v sv)) = others sv.
Proof.
  unfold ScriptMutations.saveScriptMutation.
  destruct (negb (truthy (user_id_of user)) || negb (truthy (script_id_of script)));
    [reflexivity|].
  unfold bind, update_scripts_single, round_trip.
  destruct (refuses sv _); [reflexivity|].
  destruct (filter _ (scripts (db (received _ sv)))) as [|r [|r' rest]];
    try reflexivity.
  cbn -[event_matches script_matches patch_event]. unfold others; cbn -[event_matches script_matches patch_event].
  rewrite others_scripts_after_update; [reflexivity|]. right; left.
Qed.

Lemma createScript_keeps_others (now : Z) (sv : Server) :
  others (snd (ScriptMutations.createScriptMutation user now sv)) = others sv.
Proof.
  unfold ScriptMutations.createScriptMutation.
  destruct (truthy (user_id_of user)); [|reflexivity]. cbn [negb].
  unfold bind, insert_script_single, round_trip.
  destruct (refuses sv _); [reflexivity|].
  cbn -[event_matches script_matches patch_event]. destruct (existsb _ _); [reflexivity|]. cbn -[event_matches script_matches patch_event]. unfold others; cbn -[event_matches script_matches patch_event].
  rewrite list.filter_app, filter_cons_False, filter_nil, app_nil_r; [reflexivity|].
  cbn -[event_matches script_matches patch_event]. intros Hn. apply Hn. reflexivity.
Qed.

End isolation.

(** X2: whoever calls them, whatever the server holds and whether or not
    it answers, none of the mutations of the hooks changes a row of another
    owner: the script rows and the event rows whose user id differs from the
    caller's are the same after the call as before it, in the same order. *)
Theorem mutations_keep_rows_of_other_owners
  (user : option User) (sv : Backend.Server) :
  let others := fun sv' : Backend.Server =>
    (filter (fun r => Backend.script_user_id r ≠ user_id_of user)
       (Backend.scripts (Backend.db sv')),
     filter (fun r => Backend.event_user_id r ≠ user_id_of user)
       (Backend.events (Backend.db sv'))) in
  (∀ script v,
      others (snd (ScriptMutations.saveScriptMutation script user v sv)) = others sv)
  ∧ (∀ now,
      others (snd (ScriptMutations.createScriptMutation user now sv)) = others sv)
  ∧ (∀ scriptId,
      others (snd (ScriptMutations.deleteDraftScriptMutation user scriptId sv)) = others sv
      ∧ others (snd (DraftDeletion.deleteDraftMutation user scriptId sv)) = others sv)
  ∧ (∀ script,
      others (snd (ScriptSettings.deleteScriptMutation script user sv)) = others sv)
  ∧ (∀ v,
      others (snd (EventMutations.updateEventMutation user v sv)) = others sv)
  ∧ (∀ eventId,
      others (snd (EventRemoval.deleteEventMutation user eventId sv)) = others sv).
Proof.
  intros others. repeat split; intros.
  - apply saveScript_keeps_others.
  - apply createScript_keeps_others.
  - apply (deleteDraft_keeps_others user scriptId sv).
  - apply deleteDraft_keeps_others.
  - apply deleteScript_keeps_others.
  - apply updateEvent_keeps_others.
  - apply deleteEvent_keeps_others.
Qed.

(** ** Deleting and updating events *)

Section event_rows.
Import Backend.

Lemma event_matches_after_patch (fs : list EventFilter) (body : list EventAssign)
  (r : EventRow) :
  event_matches fs (patch_event body r) = event_matches fs r.
Proof.
  destruct (patch_event_keeps_keys body r) as (H1 & H2 & H3).
  unfold event_matches. induction fs as [|f fs IH]; [reflexivity|].
  cbn [forallb]. rewrite IH. f_equal.
  destruct f; cbn; rewrite ?H1, ?H2, ?H3; reflexivity.
Qed.

Lemma patch_event_twice (o : EventMutations.UpdateBody) (r : EventRow) :
  patch_event (EventMutations.JSON_stringify o)
    (patch_event (EventMutations.JSON_stringify o) r)
  = patch_event (EventMutations.JSON_stringify o) r.
Proof.
  rewrite !patch_event_columns. cbn.
  destruct o as [[n|] [d|] [t|] [c|]]; reflexivity.
Qed.

Lemma patch_event_nothing (r : EventRow) :
  patch_event
    (EventMutations.JSON_stringify
       {| EventMutations.body_name := None;
          EventMutations.body_description := None;
          EventMutations.body_event_date := None;
          EventMutations.body_script_content := None |}) r = r.
Proof. reflexivity. Qed.

End event_rows.

(** X4: deleting an event, for a signed-in user and an answering backend,
    returns normally, leaves the scripts table alone and removes from the
    events table exactly the rows with that id owned by the caller; an id
    that matches nothing is not an error, so deleting the same event again
    returns normally and changes nothing.  With edit mode off the add and
    delete handlers call no mutation. *)
Theorem deleteEvent_removes_that_event_only
  (user : option User) (eventId : string) (sv : Backend.Server) :
  let sv1 := snd (EventRemoval.deleteEventMutation user eventId sv) in
  truthy (user_id_of user) = true →
  (∀ req, Backend.refuses sv req = None) →
  fst (EventRemoval.deleteEventMutation user eventId sv) = Ok tt
  ∧ Backend.scripts (Backend.db sv1) = Backend.scripts (Backend.db sv)
  ∧ Backend.events (Backend.db sv1)
    = filter (fun e => ¬ (Backend.event_id e = eventId
                          ∧ Backend.event_user_id e = user_id_of user))
        (Backend.events (Backend.db sv))
  ∧ fst (EventRemoval.deleteEventMutation user eventId sv1) = Ok tt
  ∧ Backend.db (snd (EventRemoval.deleteEventMutation user eventId sv1)) = Backend.db sv1
  ∧ (∀ now, EventRemoval.handleAddEvent false now = None)
  ∧ EventRemoval.dispatch_delete user (EventRemoval.handleDeleteEvent false eventId) sv
    = sv.
Proof.
  intros sv1 Hu Hq. subst sv1.
  unfold EventRemoval.deleteEventMutation. rewrite Hu. cbn [negb].
  unfold Backend.bind. rewrite !delete_events_run, Hq.
  cbn -[Backend.event_matches]. rewrite Hq. cbn -[Backend.event_matches].
  split; [reflexivity|]. split; [reflexivity|]. split; [|split; [reflexivity|split]].
  - apply list_filter_iff. intros e.
    apply not_iff_compat, (event_of_user_selected eventId (user_id_of user) e).
  - f_equal. apply list_filter_filter_l. tauto.
  - split; reflexivity.
Qed.

Lemma deleteEvent_removes_that_event_only_witness :
  let sv1 := snd (EventRemoval.deleteEventMutation Fixtures.alice "e2"
                    (Fixtures.server Fixtures.sample_db)) in
  Backend.events (Backend.db sv1)
  = [Fixtures.event_on "e1" "s1" 5; Fixtures.event_on "e3" "s1" 7]
  ∧ Backend.db (snd (EventRemoval.deleteEventMutation Fixtures.alice "e2" sv1))
    = Backend.db sv1.
Proof.
  intros sv1.
  destruct (deleteEvent_removes_that_event_only Fixtures.alice "e2"
              (Fixtures.server Fixtures.sample_db) eq_refl (fun req => eq_refl))
    as (_ & _ & Hev & _ & Hagain & _).
  split; [etrans; [exact Hev | reflexivity] | exact Hagain].
Defined.

(** X5: an event update, for a signed-in user and an answering backend, is
    idempotent: sending the same update a second time leaves both tables as
    the first call left them.  An update that supplies no field at all
    leaves both tables as they were. *)
Theorem updateEvent_is_idempotent
  (user : option User) (v : EventMutations.UpdateVars) (sv : Backend.Server) :
  truthy (user_id_of user) = true →
  (∀ req, Backend.refuses sv req = None) →
  Backend.db (EventMutations.mutate user v (EventMutations.mutate user v sv))
  = Backend.db (EventMutations.mutate user v sv)
  ∧ (EventMutations.name (EventMutations.updates v) = None →
     EventMutations.description (EventMutations.updates v) = None →
     EventMutations.eventDate (EventMutations.updates v) = None →
     EventMutations.script (EventMutations.updates v) = None →
     Backend.db (EventMutations.mutate user v sv) = Backend.db sv).
Proof.
  intros Hu Hq.
  unfold EventMutations.mutate, EventMutations.updateEventMutation.
  rewrite Hu. cbn [negb]. unfold Backend.bind.
  rewrite !update_events_run, Hq.
  cbn -[Backend.event_matches Backend.patch_event EventMutations.JSON_stringify].
  rewrite Hq.
  cbn -[Backend.event_matches Backend.patch_event EventMutations.JSON_stringify].
  split.
  - f_equal. rewrite <- list_fmap_compose. apply list_fmap_ext. intros i r _.
    unfold compose.
    destruct (Backend.event_matches _ r) eqn:Hm.
    + rewrite event_matches_after_patch, Hm. apply patch_event_twice.
    + rewrite Hm. reflexivity.
  - intros -> -> -> ->. destruct (Backend.db sv) as [ss es].
    cbn -[Backend.event_matches Backend.patch_event EventMutations.JSON_stringify].
    f_equal.
    rewrite <- (list_fmap_id es) at 2. apply list_fmap_ext. intros i r _.
    rewrite patch_event_nothing. destruct (Backend.event_matches _ r); reflexivity.
Qed.

Lemma updateEvent_is_idempotent_witness :
  let v := {| EventMutations.eventId := "e3";
              EventMutations.updates :=
                {| EventMutations.id := None;
                   EventMutations.eventDate := Some 9%Z;
                   EventMutations.script := None;
                   EventMutations.name := Some "Fixing";
                   EventMutations.description := None |} |} in
  let sv := Fixtures.server Fixtures.sample_db in
  Backend.db (EventMutations.mutate Fixtures.alice v
                (EventMutations.mutate Fixtures.alice v sv))
  = Backend.db (EventMutations.mutate Fixtures.alice v sv).
Proof.
  intros v sv.
  exact (proj1 (updateEvent_is_idempotent Fixtures.alice v sv
                  eq_refl (fun req => eq_refl))).
Defined.

(** ** Deleting scripts: repetition, the settings page, round trips *)

(** X6: a draft deletion that matches nothing is not reported: for a
    signed-in user and an answering backend, running the draft deletion a
    second time on the same id returns normally and leaves both tables as
    the first run left them. *)
Theorem deleteDraft_again_is_a_silent_no_op
  (user : option User) (scriptId : string) (sv : Backend.Server) :
  let sv1 := snd (DraftDeletion.deleteDraftMutation user scriptId sv) in
  truthy (user_id_of user) = true →
  (∀ req, Backend.refuses sv req = None) →
  fst (DraftDeletion.deleteDraftMutation user scriptId sv) = Ok tt
  ∧ fst (DraftDeletion.deleteDraftMutation user scriptId sv1) = Ok tt
  ∧ Backend.db (snd (DraftDeletion.deleteDraftMutation user scriptId sv1))
    = Backend.db sv1.
Proof.
  intros sv1 Hu Hq. subst sv1.
  unfold DraftDeletion.deleteDraftMutation. rewrite Hu. cbn [negb].
  unfold Backend.bind.
  rewrite (delete_events_run _ sv), Hq.
  cbn -[Backend.event_matches Backend.script_matches].
  rewrite delete_scripts_run.
  cbn -[Backend.event_matches Backend.script_matches]. rewrite Hq.
  cbn -[Backend.event_matches Backend.script_matches].
  rewrite delete_events_run.
  cbn -[Backend.event_matches Backend.script_matches]. rewrite Hq.
  cbn -[Backend.event_matches Backend.script_matches].
  rewrite delete_scripts_run.
  cbn -[Backend.event_matches Backend.script_matches]. rewrite Hq.
  cbn -[Backend.event_matches Backend.script_matches].
  split; [reflexivity|]. split; [reflexivity|]. f_equal.
  - apply list_filter_filter_l. tauto.
  - apply list_filter_filter_l. tauto.
Qed.

Lemma deleteDraft_again_is_a_silent_no_op_witness :
  let sv1 := snd (DraftDeletion.deleteDraftMutation Fixtures.alice "s2"
                    (Fixtures.server Fixtures.sample_db)) in
  fst (DraftDeletion.deleteDraftMutation Fixtures.alice "s2" sv1) = Ok tt
  ∧ Backend.db (snd (DraftDeletion.deleteDraftMutation Fixtures.alice "s2" sv1))
    = Backend.db sv1.
Proof.
  intros sv1.
  exact (proj2 (deleteDraft_again_is_a_silent_no_op Fixtures.alice "s2"
                  (Fixtures.server Fixtures.sample_db) eq_refl (fun req => eq_refl))).
Defined.

(** X7: the deletion of the settings page, for a signed-in user, a script
    with an id and an answering backend, returns normally and removes the
    rows of that id owned by the caller from the scripts table, whatever
    their status, and the caller's events of that script from the events
    table.  Where all those script rows are drafts, draft deletion leaves
    the same two tables. *)
Theorem deleteScript_ignores_status
  (script : option Script.t) (user : option User) (sv : Backend.Server) :
  let sid := script_id_of script in
  let uid := user_id_of user in
  let out := ScriptSettings.deleteScriptMutation script user sv in
  truthy uid = true →
  truthy sid = true →
  (∀ req, Backend.refuses sv req = None) →
  fst out = Ok tt
  ∧ Backend.scripts (Backend.db (snd out))
    = filter (fun r => ¬ (Backend.script_id r = sid ∧ Backend.script_user_id r = uid))
        (Backend.scripts (Backend.db sv))
  ∧ Backend.events (Backend.db (snd out))
    = filter (fun e => ¬ (Backend.event_script_id e = sid
                          ∧ Backend.event_user_id e = uid))
        (Backend.events (Backend.db sv))
  ∧ ((∀ r, r ∈ Backend.scripts (Backend.db sv) →
           Backend.script_id r = sid → Backend.script_user_id r = uid →
           Backend.script_status r = "DRAFT") →
     Backend.db (snd (DraftDeletion.deleteDraftMutation user sid sv))
     = Backend.db (snd out)).
Proof.
  intros sid uid out Hu Hs Hq. subst out.
  unfold ScriptSettings.deleteScriptMutation, DraftDeletion.deleteDraftMutation.
  fold sid uid. rewrite Hu, Hs. cbn [negb orb].
  unfold Backend.bind. rewrite !delete_events_run, Hq.
  cbn -[Backend.event_matches Backend.script_matches].
  rewrite !delete_scripts_run.
  cbn -[Backend.event_matches Backend.script_matches]. rewrite !Hq.
  cbn -[Backend.event_matches Backend.script_matches].
  split; [reflexivity|]. split; [|split].
  - apply list_filter_iff. intros r.
    apply not_iff_compat, (script_of_user_selected sid uid r).
  - apply list_filter_iff. intros e.
    apply not_iff_compat, (events_of_script_selected sid uid e).
  - intros Hdrafts. f_equal. apply filter_agree. intros r Hr.
    apply not_iff_compat.
    rewrite (draft_of_user_selected sid uid r), (script_of_user_selected sid uid r).
    split; [tauto|]. intros [Hi Ho]. auto.
Qed.

Lemma deleteScript_ignores_status_witness :
  let out := ScriptSettings.deleteScriptMutation Fixtures.saved_script_open
               Fixtures.alice (Fixtures.server Fixtures.sample_db) in
  fst out = Ok tt
  ∧ Backend.scripts (Backend.db (snd out)) = [Fixtures.draft_script]
  ∧ Backend.events (Backend.db (snd out)) = [Fixtures.event_on "e2" "s2" 6].
Proof.
  intros out.
  destruct (deleteScript_ignores_status Fixtures.saved_script_open Fixtures.alice
              (Fixtures.server Fixtures.sample_db) eq_refl eq_refl (fun req => eq_refl))
    as (Hok & Hscripts & Hevents & _).
  split; [exact Hok|].
  split; [etrans; [exact Hscripts | reflexivity] | etrans; [exact Hevents | reflexivity]].
Defined.

(** X8: listing events never writes: whatever the script, the user and the
    server's answer, both tables are the same after the query as before.
    Without a script id or without a user id the query returns the empty
    list and sends nothing; when the select is refused the query throws
    that error instead of returning a list. *)
Theorem listEvents_reads_only
  (script : option Script.t) (user : option User) (sv : Backend.Server) :
  let request :=
    Backend.SelectEvents [Backend.EventScriptIdEq (script_id_of script);
                          Backend.EventUserIdEq (user_id_of user)] in
  Backend.db (snd (EventsQuery.queryFn script user sv)) = Backend.db sv
  ∧ (EventsQuery.enabled script user = false →
     EventsQuery.queryFn script user sv = (Ok [], sv))
  ∧ (EventsQuery.enabled script user = true →
     ∀ e, Backend.refuses sv request = Some e →
          fst (EventsQuery.queryFn script user sv) = Throw e
          ∧ Backend.log (snd (EventsQuery.queryFn script user sv))
            = Backend.log sv ++ [request]).
Proof.
  intros request. unfold EventsQuery.queryFn, EventsQuery.enabled.
  destruct (truthy (script_id_of script)), (truthy (user_id_of user));
    cbn [negb orb andb].
  2-4: (split; [reflexivity|]; split; [reflexivity|]; discriminate).
  unfold Backend.bind, Backend.select_events_by_date, Backend.round_trip.
  fold request. split; [|split].
  - destruct (Backend.refuses sv request); reflexivity.
  - discriminate.
  - intros _ e ->. split; reflexivity.
Qed.

Lemma listEvents_reads_only_witness :
  EventsQuery.queryFn None Fixtures.alice (Fixtures.server Fixtures.sample_db)
  = (Ok [], Fixtures.server Fixtures.sample_db).
Proof.
  exact (proj1 (proj2 (listEvents_reads_only None Fixtures.alice
                         (Fixtures.server Fixtures.sample_db))) eq_refl).
Defined.

Lemma filter_all {A} (P : A -> Prop) `{!∀ x, Decision (P x)} (l : list A) :
  (∀ x, x ∈ l → P x) → filter P l = l.
Proof.
  induction l as [|x l IH]; intros Hall; [reflexivity|].
  rewrite filter_cons_True by (apply Hall; left).
  rewrite IH; [reflexivity|]. intros y Hy. apply Hall. right. exact Hy.
Qed.

(** X9: creating a script and then deleting it as a draft is a round trip:
    for a signed-in user and an answering backend, when the generated id is
    new and no event of the caller refers to it, deleting the row just
    created returns normally and both tables are again what they were before
    the creation. *)
Theorem create_then_deleteDraft_restores_the_tables
  (user : option User) (now : Z) (sv : Backend.Server) :
  let new_id := Backend.uuid_gen sv (Backend.uuid_count sv) in
  truthy (user_id_of user) = true →
  (∀ req, Backend.refuses sv req = None) →
  (∀ r, r ∈ Backend.scripts (Backend.db sv) → Backend.script_id r ≠ new_id) →
  (∀ e, e ∈ Backend.events (Backend.db sv) →
        Backend.event_user_id e = user_id_of user →
        Backend.event_script_id e ≠ new_id) →
  ∃ row sv1,
    ScriptMutations.createScriptMutation user now sv = (Ok row, sv1)
    ∧ Backend.script_id row = new_id
    ∧ fst (DraftDeletion.deleteDraftMutation user (Backend.script_id row) sv1) = Ok tt
    ∧ Backend.db (snd (DraftDeletion.deleteDraftMutation user
                         (Backend.script_id row) sv1))
      = Backend.db sv.
Proof.
  intros new_id Hu Hq Hfresh Horphan.
  unfold ScriptMutations.createScriptMutation. rewrite Hu. cbn [negb].
  unfold Backend.bind.
  destruct (insert_script_single_fresh
              {| Backend.ins_name := "New Script*";
                 Backend.ins_reference_date := now;
                 Backend.ins_status := "DRAFT";
                 Backend.ins_user_id := user_id_of user |} sv (Hq _) Hfresh)
    as (sv1 & -> & Hs & He & Hq1).
  cbn in Hs. cbn. eexists _, sv1. split; [reflexivity|]. cbn [Backend.script_id].
  split; [reflexivity|]. fold new_id.
  assert (Hq1' : ∀ req, Backend.refuses sv1 req = None)
    by (intros req; rewrite Hq1; apply Hq).
  destruct (deleteDraft_served user new_id sv1 Hu (Hq1' _) (Hq1' _))
    as (Hok & _ & Hevents & Hscripts).
  split; [exact Hok|].
  change (DraftDeletion.deleteDraftMutation user new_id sv1)
    with (ScriptMutations.deleteDraftScriptMutation user new_id sv1).
  destruct (Backend.db (snd (ScriptMutations.deleteDraftScriptMutation user new_id sv1)))
    as [ss es] eqn:Hdb.
  cbn in Hevents, Hscripts. subst ss es.
  destruct (Backend.db sv) as [ss0 es0] eqn:Hdb0. cbn in *. f_equal.
  - rewrite Hs, list.filter_app, filter_cons_False, filter_nil, app_nil_r.
    + apply filter_all. intros r Hr (Hid & _).
      apply (Hfresh r Hr). exact Hid.
    + cbn. intros Hn. apply Hn. auto.
  - rewrite He. apply filter_all. intros e Hin (Hid & Ho).
    apply (Horphan e Hin Ho). exact Hid.
Qed.

Lemma create_then_deleteDraft_restores_the_tables_witness :
  ∃ row sv1,
    ScriptMutations.createScriptMutation Fixtures.alice 42
      (Fixtures.server Fixtures.sample_db) = (Ok row, sv1)
    ∧ Backend.db (snd (DraftDeletion.deleteDraftMutation Fixtures.alice
                         (Backend.script_id row) sv1))
      = Fixtures.sample_db.
Proof.
  destruct (create_then_deleteDraft_restores_the_tables Fixtures.alice 42
              (Fixtures.server Fixtures.sample_db) eq_refl (fun req => eq_refl))
    as (row & sv1 & Hrun & _ & _ & Hdb).
  - intros r Hr. apply list_elem_of_In in Hr. cbn in Hr.
    destruct Hr as [<-|[<-|[]]]; discriminate.
  - intros e He _. apply list_elem_of_In in He. cbn in He.
    destruct He as [<-|[<-|[<-|[]]]]; discriminate.
  - exists row, sv1. split; [exact Hrun | exact Hdb].
Defined.



(** ** The edit state of the events page *)

Section events_state.
Import EventsState.
Context {Nav : Type}.

Lemma same_id_effect_is_idle (s : Script.t) (st : State Nav) :
  lastScriptIdRef st = Some (Script.id s) → on_script_change (Some s) st = st.
Proof.
  intros Hid. unfold on_script_change.
  destruct (decide (Some (Script.id s) = lastScriptIdRef st)) as [_|Hn];
    [reflexivity | congruence].
Qed.

(** Any edit keeps the id the state was opened for, never leaves edit mode
    and never clears the unsaved flag. *)
Lemma edit_keeps_flags (s : Script.t) (e : Edit) (st : State Nav) :
  lastScriptIdRef st = Some (Script.id s) →
  lastScriptIdRef (apply_edit (Some s) e st) = Some (Script.id s)
  ∧ (isModifyMode st = true → isModifyMode (apply_edit (Some s) e st) = true)
  ∧ (hasUnsavedChanges st = true → hasUnsavedChanges (apply_edit (Some s) e st) = true).
Proof.
  intros Hid. destruct e; cbn [apply_edit];
    try (rewrite same_id_effect_is_idle by exact Hid); cbn; auto.
  split; [exact Hid|]. split; [auto|]. intros ->. destruct (negb _); reflexivity.
Qed.

Lemma edits_keep_flags (s : Script.t) (es : list Edit) (st : State Nav) :
  lastScriptIdRef st = Some (Script.id s) →
  lastScriptIdRef (apply_edits (Some s) es st) = Some (Script.id s)
  ∧ (isModifyMode st = true → isModifyMode (apply_edits (Some s) es st) = true)
  ∧ (hasUnsavedChanges st = true →
     hasUnsavedChanges (apply_edits (Some s) es st) = true).
Proof.
  unfold apply_edits. revert st. induction es as [|e es IH]; intros st Hid; [auto|].
  cbn [fold_left].
  destruct (edit_keeps_flags s e st Hid) as (Hid1 & Hm1 & Hu1).
  destruct (IH _ Hid1) as (Hid2 & Hm2 & Hu2). auto.
Qed.

End events_state.

(** X11: the effect that follows the script prop acts on a change of id
    only.  While the id it last saw stays the same it leaves the state
    untouched, even if the script's name or status changed (as after a
    save); without a script it does nothing; for a new id it puts the page
    in edit mode with the unsaved flag set exactly when the script is a
    draft, hides the saved banner and takes the script's name, dropping
    whatever the flags were. *)
Theorem script_effect_acts_on_a_new_id_only
  (Nav : Type) (s : Script.t) (st : EventsState.State Nav) :
  (EventsState.lastScriptIdRef st = Some (Script.id s) →
   EventsState.on_script_change (Some s) st = st)
  ∧ EventsState.on_script_change None st = st
  ∧ (EventsState.lastScriptIdRef st ≠ Some (Script.id s) →
     let st' := EventsState.on_script_change (Some s) st in
     EventsState.isModifyMode st' = EventsState.is_draft (Some s)
     ∧ EventsState.hasUnsavedChanges st' = EventsState.is_draft (Some s)
     ∧ EventsState.showSavedMessage st' = false
     ∧ EventsState.currentScriptName st' = Script.name s
     ∧ EventsState.lastScriptIdRef st' = Some (Script.id s)
     ∧ EventsState.on_script_change (Some s) st' = st')
  ∧ EventsState.lastScriptIdRef (EventsState.mount (Nav := Nav) (Some s))
    = Some (Script.id s)
  ∧ EventsState.currentScriptName (EventsState.mount (Nav := Nav) (Some s))
    = Script.name s.
Proof.
  split; [apply same_id_effect_is_idle|]. split; [reflexivity|]. split; [|split].
  - intros Hn st'.
    assert (Heq : st' =
      {| EventsState.hasUnsavedChanges := EventsState.is_draft (Some s);
         EventsState.isSaveModalOpen := EventsState.isSaveModalOpen st;
         EventsState.showUnsavedChangesModal := EventsState.showUnsavedChangesModal st;
         EventsState.pendingNavigation := EventsState.pendingNavigation st;
         EventsState.isModifyMode := EventsState.is_draft (Some s);
         EventsState.showSavedMessage := false;
         EventsState.currentScriptName := Script.name s;
         EventsState.lastScriptIdRef := Some (Script.id s) |}).
    { subst st'. unfold EventsState.on_script_change.
      destruct (decide (Some (Script.id s) = EventsState.lastScriptIdRef st)) as [He|_];
        [congruence | reflexivity]. }
    rewrite Heq. cbn [EventsState.isModifyMode EventsState.hasUnsavedChanges
                      EventsState.showSavedMessage EventsState.currentScriptName
                      EventsState.lastScriptIdRef].
    repeat split. apply same_id_effect_is_idle. reflexivity.
  - reflexivity.
  - reflexivity.
Qed.

Lemma script_effect_acts_on_a_new_id_only_witness :
  let s := {| Script.id := "s1"; Script.name := "Q3 Swap (renamed)";
              Script.referenceDate := 0; Script.status := Some "SAVED" |} in
  let st := EventsState.markUnsavedChanges
              (EventsState.enterModifyMode
                 (EventsState.mount (Nav := unit) Fixtures.saved_script_open)) in
  EventsState.on_script_change (Some s) st = st.
Proof.
  intros s st.
  exact (proj1 (script_effect_acts_on_a_new_id_only unit s st) eq_refl).
Defined.

(** X12: a draft stays guarded until it is saved.  From the moment a
    draft is opened, whatever sequence of the hook's setters, markers and
    effect runs follows (anything but markSaved), the page is still in edit
    mode, still flagged as having unsaved changes, isDraftWithChanges
    answers true and leaving the page asks for confirmation. *)
Theorem draft_stays_guarded_until_saved
  (Nav : Type) (s : Script.t) (es : list (EventsState.Edit (Nav := Nav))) :
  Script.status s = Some "DRAFT" →
  let st := EventsState.apply_edits (Some s) es (EventsState.mount (Some s)) in
  EventsState.isModifyMode st = true
  ∧ EventsState.hasUnsavedChanges st = true
  ∧ EventsState.isDraftWithChanges (Some s) st = true
  ∧ EventsState.handleBeforeUnload (Some s) st = true.
Proof.
  intros Hdraft st.
  assert (Hd : EventsState.is_draft (Some s) = true)
    by (unfold EventsState.is_draft; rewrite Hdraft; reflexivity).
  assert (Hmount : EventsState.lastScriptIdRef (EventsState.mount (Nav := Nav) (Some s))
                   = Some (Script.id s)
                   ∧ EventsState.isModifyMode (EventsState.mount (Nav := Nav) (Some s))
                     = true
                   ∧ EventsState.hasUnsavedChanges
                       (EventsState.mount (Nav := Nav) (Some s)) = true).
  { unfold EventsState.mount, EventsState.on_script_change.
    cbn [EventsState.initial EventsState.lastScriptIdRef].
    destruct (decide (Some (Script.id s) = None)) as [He|_]; [discriminate|].
    cbn [EventsState.lastScriptIdRef EventsState.isModifyMode
         EventsState.hasUnsavedChanges].
    rewrite Hd. repeat split. }
  destruct Hmount as (Hid & Hm & Hu).
  destruct (edits_keep_flags s es _ Hid) as (_ & Hm' & Hu').
  fold st in Hm', Hu'.
  unfold EventsState.isDraftWithChanges, EventsState.handleBeforeUnload.
  rewrite Hd, (Hm' Hm), (Hu' Hu). repeat split.
Qed.

Lemma draft_stays_guarded_until_saved_witness :
  let s := {| Script.id := "s2"; Script.name := "New Script*";
              Script.referenceDate := 0; Script.status := Some "DRAFT" |} in
  let st := EventsState.apply_edits (Nav := unit) (Some s)
              [EventsState.UpdateCurrentScriptName "Q3 Swap";
               EventsState.SetIsSaveModalOpen true; EventsState.ScriptEffect]
              (EventsState.mount (Some s)) in
  EventsState.handleBeforeUnload (Some s) st = true.
Proof.
  intros s st.
  destruct (draft_stays_guarded_until_saved unit s
              [EventsState.UpdateCurrentScriptName "Q3 Swap";
               EventsState.SetIsSaveModalOpen true; EventsState.ScriptEffect] eq_refl)
    as (_ & _ & _ & H).
  exact H.
Defined.

(** ** Deferred navigation *)

(** X14: a navigation callback handed to the guard is never lost and
    never run twice.  Unless the open script has status SAVED and unsaved
    changes, the guard runs it at once and changes nothing; a draft is
    therefore never asked.  Otherwise the guard runs nothing, stores the
    callback and opens the dialog; confirming then runs exactly that
    callback and cancelling runs nothing, and either way the dialog is
    closed and no callback is left pending, so a second confirmation runs
    nothing. *)
Theorem guarded_navigation_runs_once
  (Nav : Type) (script : option Script.t) (callback : Nav)
  (st : EventsState.State Nav) :
  let asked := EventsState.hasUnsavedChanges st && EventsNavigation.is_saved script in
  let checked := EventsNavigation.checkUnsavedChanges script callback st in
  let confirmed := EventsNavigation.handleConfirmUnsavedChanges (fst checked) in
  let cancelled := EventsNavigation.handleCancelUnsavedChanges (fst checked) in
  (asked = false → checked = (st, [callback]))
  ∧ (EventsState.is_draft script = true → asked = false)
  ∧ (asked = true →
     snd checked = []
     ∧ EventsState.showUnsavedChangesModal (fst checked) = true
     ∧ snd confirmed = [callback]
     ∧ snd cancelled = []
     ∧ EventsState.showUnsavedChangesModal (fst confirmed) = false
     ∧ EventsState.pendingNavigation (fst confirmed) = None
     ∧ EventsState.showUnsavedChangesModal (fst cancelled) = false
     ∧ EventsState.pendingNavigation (fst cancelled) = None
     ∧ snd (EventsNavigation.handleConfirmUnsavedChanges (fst confirmed)) = []
     ∧ snd (EventsNavigation.handleConfirmUnsavedChanges (fst cancelled)) = []).
Proof.
  intros asked checked confirmed cancelled.
  subst confirmed cancelled checked. unfold EventsNavigation.checkUnsavedChanges.
  fold asked. split; [|split].
  - intros ->. reflexivity.
  - intros Hd. subst asked. unfold EventsState.is_draft in Hd.
    unfold EventsNavigation.is_saved.
    destruct script as [s|]; [|discriminate].
    destruct (Script.status s) as [x|]; [|discriminate].
    apply String.eqb_eq in Hd. subst x. cbn. apply andb_false_r.
  - intros ->. cbn. repeat split.
Qed.

Lemma guarded_navigation_runs_once_witness :
  let st := EventsState.markUnsavedChanges
              (EventsState.mount (Nav := string) Fixtures.saved_script_open) in
  let checked := EventsNavigation.checkUnsavedChanges Fixtures.saved_script_open
                   "/events" st in
  snd checked = []
  ∧ snd (EventsNavigation.handleConfirmUnsavedChanges (fst checked)) = ["/events"].
Proof.
  intros st checked.
  destruct (guarded_navigation_runs_once string Fixtures.saved_script_open "/events" st)
    as (_ & _ & Hasked).
  destruct (Hasked eq_refl) as (Hnone & _ & Hrun & _).
  split; [exact Hnone | exact Hrun].
Defined.

(** ** The dialog around draft deletion *)

(** X15: deleting a draft from the sidebar.  Unless the clicked script is
    the open one and has unsaved changes, the mutation is called at once with
    the clicked script's id.  Otherwise nothing is sent: the dialog opens and
    the server stays as it is until the user answers; cancelling closes the
    dialog, forgets the script and sends nothing; confirming closes the
    dialog and calls the mutation with the id of the clicked script.  Once a
    call has settled, successfully or not, no script is left selected, and
    the page goes to the landing page only after a successful deletion of the
    open script. *)
Theorem draft_deletion_waits_for_confirmation
  (currentScript : option Script.t) (user : option User)
  (hasUnsavedChanges : bool) (script : Script.t)
  (st : DraftDeletionDialog.State) (sv : Backend.Server) :
  let asked :=
    hasUnsavedChanges && DraftDeletionDialog.same_id (Some script) currentScript in
  let clicked :=
    DraftDeletionDialog.handleDeleteDraftScript currentScript hasUnsavedChanges
      script st in
  (asked = false → snd clicked = Some (Script.id script))
  ∧ (asked = true →
     snd clicked = None
     ∧ DraftDeletionDialog.showUnsavedChangesModal (fst clicked) = true
     ∧ DraftDeletionDialog.settle currentScript user (snd clicked) (fst clicked) sv
       = (fst clicked, sv, false)
     ∧ DraftDeletionDialog.cancelDeleteWithUnsavedChanges (fst clicked)
       = (DraftDeletionDialog.initial, None)
     ∧ snd (DraftDeletionDialog.confirmDeleteWithUnsavedChanges (fst clicked))
       = Some (Script.id script)
     ∧ DraftDeletionDialog.showUnsavedChangesModal
         (fst (DraftDeletionDialog.confirmDeleteWithUnsavedChanges (fst clicked)))
       = false)
  ∧ (∀ scriptId st0,
       let settled :=
         DraftDeletionDialog.settle currentScript user (Some scriptId) st0 sv in
       DraftDeletionDialog.scriptToDelete (fst (fst settled)) = None
       ∧ snd (fst settled) = snd (DraftDeletion.deleteDraftMutation user scriptId sv)
       ∧ (snd settled = true →
          fst (DraftDeletion.deleteDraftMutation user scriptId sv) = Ok tt
          ∧ DraftDeletionDialog.same_id
              (DraftDeletionDialog.scriptToDelete st0) currentScript = true)).
Proof.
  intros asked clicked. subst clicked.
  unfold DraftDeletionDialog.handleDeleteDraftScript,
    DraftDeletionDialog.handleDeleteDraft.
  fold asked. split; [|split].
  - intros ->. reflexivity.
  - intros Hasked.
    assert (Hsame : DraftDeletionDialog.same_id (Some script) currentScript = true).
    { subst asked. apply andb_true_iff in Hasked. apply Hasked. }
    rewrite Hasked, Hsame. cbn. repeat split.
  - intros scriptId st0. unfold DraftDeletionDialog.settle.
    destruct (DraftDeletion.deleteDraftMutation user scriptId sv) as [[[]|e] sv'];
      cbn; repeat split; try discriminate; auto.
Qed.

Lemma draft_deletion_waits_for_confirmation_witness :
  let open := Some {| Script.id := "s2"; Script.name := "New Script*";
                      Script.referenceDate := 0; Script.status := Some "DRAFT" |} in
  let script := {| Script.id := "s2"; Script.name := "New Script*";
                   Script.referenceDate := 0; Script.status := Some "DRAFT" |} in
  let sv := Fixtures.server Fixtures.sample_db in
  let clicked := DraftDeletionDialog.handleDeleteDraftScript open true script
                   DraftDeletionDialog.initial in
  DraftDeletionDialog.settle open Fixtures.alice (snd clicked) (fst clicked) sv
  = (fst clicked, sv, false)
  ∧ snd (DraftDeletionDialog.confirmDeleteWithUnsavedChanges (fst clicked)) = Some "s2".
Proof.
  intros open script sv clicked.
  destruct (draft_deletion_waits_for_confirmation open Fixtures.alice true script
              DraftDeletionDialog.initial sv) as (_ & Hasked & _).
  destruct (Hasked eq_refl) as (_ & _ & Hidle & _ & Hconfirm & _).
  split; [exact Hidle | exact Hconfirm].
Defined.

(** ** The name that gets saved *)

(** X16: the save button never saves an empty name.  The name it hands to
    the save mutation is the name being edited when that is not empty,
    otherwise the script's own name when that is not empty, otherwise
    Untitled; so it is never the empty string, and after a successful save
    the stored name of the script is not empty either. *)
Theorem handleSave_never_saves_an_empty_name
  (script : option Script.t) (currentScriptName : option string) :
  let vars := SaveHandlers.handleSave script currentScriptName in
  ScriptMutations.scriptName vars ≠ ""
  ∧ (∀ n, currentScriptName = Some n → n ≠ "" → ScriptMutations.scriptName vars = n)
  ∧ ((currentScriptName = None ∨ currentScriptName = Some "") →
     ∀ s, script = Some s → Script.name s ≠ "" →
          ScriptMutations.scriptName vars = Script.name s)
  ∧ ((currentScriptName = None ∨ currentScriptName = Some "") →
     (script = None ∨ ∃ s, script = Some s ∧ Script.name s = "") →
     ScriptMutations.scriptName vars = "Untitled")
  ∧ (∀ user sv row,
       truthy (user_id_of user) = true →
       truthy (script_id_of script) = true →
       (∀ req, Backend.refuses sv req = None) →
       filter (fun r => Backend.script_matches
                          [Backend.ScriptIdEq (script_id_of script);
                           Backend.ScriptUserIdEq (user_id_of user)] r)
         (Backend.scripts (Backend.db sv)) = [row] →
       ∀ r, r ∈ filter (fun r => Backend.script_matches
                                   [Backend.ScriptIdEq (script_id_of script);
                                    Backend.ScriptUserIdEq (user_id_of user)] r)
                  (Backend.scripts
                     (Backend.db (snd (ScriptMutations.saveScriptMutation
                                         script user vars sv)))) →
            Backend.script_name r ≠ "").
Proof.
  intros vars.
  assert (Hne : ScriptMutations.scriptName vars ≠ "").
  { subst vars. unfold SaveHandlers.handleSave, SaveHandlers.or_else. cbn.
    destruct currentScriptName as [n|].
    - destruct (truthy n) eqn:Hn; [apply truthy_nonempty; exact Hn|].
      destruct script as [s|]; cbn; [|discriminate].
      destruct (truthy (Script.name s)) eqn:Hs;
        [apply truthy_nonempty; exact Hs | discriminate].
    - destruct script as [s|]; cbn; [|discriminate].
      destruct (truthy (Script.name s)) eqn:Hs;
        [apply truthy_nonempty; exact Hs | discriminate]. }
  split; [exact Hne|]. split; [|split; [|split]].
  - intros n -> Hn. apply truthy_nonempty in Hn. subst vars.
    unfold SaveHandlers.handleSave, SaveHandlers.or_else. cbn. rewrite Hn. reflexivity.
  - intros Hc s -> Hs. apply truthy_nonempty in Hs. subst vars.
    unfold SaveHandlers.handleSave, SaveHandlers.or_else.
    destruct Hc as [->| ->]; cbn; rewrite Hs; reflexivity.
  - intros Hc Hsc. subst vars.
    unfold SaveHandlers.handleSave, SaveHandlers.or_else.
    destruct Hc as [->| ->], Hsc as [->|(s & -> & Hs)]; cbn; rewrite ?Hs; reflexivity.
  - intros user sv row Hu Hs Hq Hone r Hr.
    destruct (saveScript_served script user vars sv row Hu Hs Hq Hone)
      as (sv' & Hrun & _ & Hsel & _).
    rewrite Hrun in Hr. cbn [snd] in Hr. rewrite Hsel in Hr.
    apply list_elem_of_singleton in Hr. subst r. exact Hne.
Qed.

Lemma handleSave_never_saves_an_empty_name_witness :
  let script := Some {| Script.id := "s2"; Script.name := "";
                        Script.referenceDate := 0; Script.status := Some "DRAFT" |} in
  ScriptMutations.scriptName (SaveHandlers.handleSave script (Some "")) = "Untitled"
  ∧ ScriptMutations.scriptName (SaveHandlers.handleSave script (Some "Q3 Swap"))
    = "Q3 Swap".
Proof.
  intros script. split.
  - destruct (handleSave_never_saves_an_empty_name script (Some ""))
      as (_ & _ & _ & Hdefault & _).
    apply Hdefault; [right; reflexivity|]. right. eexists. split; reflexivity.
  - destruct (handleSave_never_saves_an_empty_name script (Some "Q3 Swap"))
      as (_ & Hname & _).
    apply Hname; [reflexivity | discriminate].
Defined.

(** ** The market-data client: fallbacks and curves *)

(** X17: the spot-rate call never returns null.  Whatever the response,
    a value it returns is not null: a null body, an empty array, a first row
    without a rate key and a first row whose rate is null all yield 0.  A
    rejected fetch and an unreadable body are passed on to the caller as
    they are. *)
Theorem fetchSpotRate_never_returns_null
  (fetch : string -> list (string * string) -> Result MarketData.HttpResponse)
  (baseUrl apiKey symbol date : string) :
  let url := baseUrl +:+ "/rest/v1/spot_rates?symbol=eq." +:+ symbol
             +:+ "&date=eq." +:+ date +:+ "&select=rate" in
  let headers := [("apikey", apiKey); ("Authorization", "Bearer " +:+ apiKey)] in
  let result := MarketData.fetchSpotRate fetch baseUrl apiKey symbol date in
  (∀ v, result = Ok v → v ≠ MarketData.JNull)
  ∧ (∀ e, fetch url headers = Throw e → result = Throw e)
  ∧ (∀ resp e, fetch url headers = Ok resp → MarketData.ok resp = true →
               MarketData.json_body resp = Throw e → result = Throw e)
  ∧ (∀ resp fields rest,
       fetch url headers = Ok resp → MarketData.ok resp = true →
       MarketData.json_body resp
       = Ok (MarketData.JArray (MarketData.JObject fields :: rest)) →
       (MarketData.property "rate" fields = None
        ∨ MarketData.property "rate" fields = Some MarketData.JNull) →
       result = Ok (MarketData.JNumber 0))
  ∧ (∀ resp, fetch url headers = Ok resp → MarketData.ok resp = true →
             (MarketData.json_body resp = Ok MarketData.JNull
              ∨ MarketData.json_body resp = Ok (MarketData.JArray [])) →
             result = Ok (MarketData.JNumber 0)).
Proof.
  intros url headers result. subst result. unfold MarketData.fetchSpotRate.
  fold url headers. split; [|split; [|split; [|split]]].
  - intros v. destruct (fetch url headers) as [resp|e]; [|discriminate].
    destruct (negb (MarketData.ok resp)); [discriminate|].
    destruct (MarketData.json_body resp) as [data|e]; [|discriminate].
    intros Hv. injection Hv as <-. unfold MarketData.nullish.
    destruct (MarketData.optional_rate _) as [[]|]; discriminate.
  - intros e ->. reflexivity.
  - intros resp e -> -> ->. reflexivity.
  - intros resp fields rest -> -> -> [Hr|Hr]; cbn; rewrite Hr; reflexivity.
  - intros resp -> -> [-> | ->]; reflexivity.
Qed.

Lemma fetchSpotRate_never_returns_null_witness :
  MarketData.fetchSpotRate
    (Fixtures.responding
       {| MarketData.status := 200;
          MarketData.json_body :=
            Ok (MarketData.JArray
                  [MarketData.JObject [("rate", MarketData.JNull)]]) |})
    "https://data.example" "key" "EURUSD" "2025-01-01"
  = Ok (MarketData.JNumber 0).
Proof.
  refine (proj1 (proj2 (proj2 (proj2
            (fetchSpotRate_never_returns_null
               (Fixtures.responding
                  {| MarketData.status := 200;
                     MarketData.json_body :=
                       Ok (MarketData.JArray
                             [MarketData.JObject [("rate", MarketData.JNull)]]) |})
               "https://data.example" "key" "EURUSD" "2025-01-01"))))
            _ [("rate", MarketData.JNull)] [] eq_refl eq_refl eq_refl _).
  right. reflexivity.
Defined.

(** X18: the curve call.  Given the response fetch resolves to: with a
    status outside 200..299 it throws the text failed to fetch curve:
    followed by the decimal status code and never looks at the body; with a
    status in 200..299 it hands back exactly what reading the body gives,
    value or error, whatever its shape.  A rejected fetch is passed on. *)
Theorem fetchCurve_outcomes
  (fetch : string -> list (string * string) -> Result MarketData.HttpResponse)
  (baseUrl apiKey name : string) :
  let url := baseUrl +:+ "/rest/v1/curves?name=eq." +:+ name in
  let headers := [("apikey", apiKey); ("Authorization", "Bearer " +:+ apiKey)] in
  let result := MarketCurve.fetchCurve fetch baseUrl apiKey name in
  (∀ e, fetch url headers = Throw e → result = Throw e)
  ∧ (∀ resp, fetch url headers = Ok resp →
       (¬ (200 <= MarketData.status resp <= 299)%N →
        result = Throw ("failed to fetch curve: "
                        +:+ JS.Number_toString (MarketData.status resp)))
       ∧ ((200 <= MarketData.status resp <= 299)%N →
          result = MarketData.json_body resp)).
Proof.
  intros url headers result. subst result. unfold MarketCurve.fetchCurve.
  fold url headers. split.
  - intros e ->. reflexivity.
  - intros resp ->. pose proof (ok_iff_2xx resp) as Hok.
    destruct (MarketData.ok resp); cbn [negb].
    + split; [intros Hn; exfalso; apply Hn, Hok; reflexivity | reflexivity].
    + split; [reflexivity|]. intros H2xx. apply Hok in H2xx. discriminate.
Qed.

Lemma fetchCurve_outcomes_witness :
  MarketCurve.fetchCurve
    (Fixtures.responding {| MarketData.status := 401;
                            MarketData.json_body := Ok MarketData.JNull |})
    "https://data.example" "key" "USD-SOFR"
  = Throw "failed to fetch curve: 401"
  ∧ MarketCurve.fetchCurve
      (Fixtures.responding {| MarketData.status := 200;
                              MarketData.json_body := Ok MarketData.JNull |})
      "https://data.example" "key" "USD-SOFR"
    = Ok MarketData.JNull.
Proof.
  split.
  - refine (proj1 (proj2 (fetchCurve_outcomes
                            (Fixtures.responding
                               {| MarketData.status := 401;
                                  MarketData.json_body := Ok MarketData.JNull |})
                            "https://data.example" "key" "USD-SOFR")
                     {| MarketData.status := 401;
                        MarketData.json_body := Ok MarketData.JNull |} eq_refl) _).
    cbn. lia.
  - refine (proj2 (proj2 (fetchCurve_outcomes
                            (Fixtures.responding
                               {| MarketData.status := 200;
                                  MarketData.json_body := Ok MarketData.JNull |})
                            "https://data.example" "key" "USD-SOFR")
                     {| MarketData.status := 200;
                        MarketData.json_body := Ok MarketData.JNull |} eq_refl) _).
    cbn. lia.
Defined.

(** ** The sign-in form *)

Section auth_form.
Import JS JSText.

Lemma validatePassword_message (p : jsstring) :
  fst (Auth.validatePassword p) = true ↔ snd (Auth.validatePassword p) = "".
Proof.
  unfold Auth.validatePassword.
  destruct (length p <? 8); [cbn; split; discriminate|].
  destruct (test Auth.upper p); [|cbn; split; discriminate].
  destruct (test Auth.lower p); [|cbn; split; discriminate].
  destruct (test Auth.digit p); [|cbn; split; discriminate].
  destruct (test Auth.special p); cbn; split; congruence.
Qed.

Lemma prefix_iff (sub s : string) :
  String.prefix sub s = true ↔ ∃ post, s = sub +:+ post.
Proof.
  revert s. induction sub as [|a sub IH]; intros s.
  - split; [intros _; exists s; reflexivity | intros _; destruct s; reflexivity].
  - destruct s as [|b s]; cbn.
    + split; [discriminate | intros [post H]; discriminate].
    + destruct (Ascii.ascii_dec a b) as [->|Hab].
      * rewrite IH. split; intros [post H]; exists post.
        -- rewrite H. reflexivity.
        -- change (String b s = String b (sub +:+ post)) in H. congruence.
      * split; [discriminate|]. intros [post H].
        change (String b s = String a (sub +:+ post)) in H. congruence.
Qed.

Lemma includes_iff (s sub : string) :
  includes s sub = true ↔ ∃ pre post, s = pre +:+ sub +:+ post.
Proof.
  induction s as [|a s IH].
  - cbn [includes]. rewrite orb_false_r, prefix_iff. split.
    + intros [post H]. exists "", post. exact H.
    + intros [pre [post H]]. destruct pre; [exists post; exact H | discriminate].
  - cbn [includes]. rewrite orb_true_iff, prefix_iff, IH. split.
    + intros [[post H]|[pre [post H]]].
      * exists "", post. exact H.
      * exists (String a pre), post. rewrite H. reflexivity.
    + intros [pre [post H]]. destruct pre as [|b pre].
      * left. exists post. exact H.
      * right. exists pre, post.
        change (String a s = String b (pre +:+ sub +:+ post)) in H. congruence.
Qed.

End auth_form.

(** X19: password feedback.  The message the password check sets is empty
    exactly when the check accepts, and otherwise names the first failed
    requirement in the order length, uppercase, lowercase, digit, special
    character.  Typing a password stores it and changes nothing else but the
    message, which is empty exactly when the form is in login mode, the
    field is empty, or the password is acceptable. *)
Theorem password_feedback (p : JS.jsstring) (st : AuthForm.State) :
  let msg := snd (Auth.validatePassword p) in
  let st' := AuthForm.handlePasswordChange p st in
  (fst (Auth.validatePassword p) = true ↔ msg = "")
  ∧ (length p < 8 → msg = "Password must be at least 8 characters long")
  ∧ (8 ≤ length p → JS.test Auth.upper p = false →
     msg = "Password must contain at least one uppercase letter")
  ∧ (8 ≤ length p → JS.test Auth.upper p = true → JS.test Auth.lower p = false →
     msg = "Password must contain at least one lowercase letter")
  ∧ (8 ≤ length p → JS.test Auth.upper p = true → JS.test Auth.lower p = true →
     JS.test Auth.digit p = false →
     msg = "Password must contain at least one number")
  ∧ (8 ≤ length p → JS.test Auth.upper p = true → JS.test Auth.lower p = true →
     JS.test Auth.digit p = true → JS.test Auth.special p = false →
     msg = "Password must contain at least one special character")
  ∧ AuthForm.password st' = p
  ∧ AuthForm.isLogin st' = AuthForm.isLogin st
  ∧ AuthForm.email st' = AuthForm.email st
  ∧ AuthForm.fullName st' = AuthForm.fullName st
  ∧ AuthForm.loading st' = AuthForm.loading st
  ∧ AuthForm.error st' = AuthForm.error st
  ∧ (AuthForm.passwordError st' = ""
     ↔ AuthForm.isLogin st = true ∨ p = []
       ∨ fst (Auth.validatePassword p) = true).
Proof.
  intros msg st'.
  assert (Hshort : length p < 8 → (length p <? 8) = true)
    by (intros; apply Nat.ltb_lt; assumption).
  assert (Hlong : 8 ≤ length p → (length p <? 8) = false)
    by (intros; apply Nat.ltb_ge; assumption).
  split; [apply validatePassword_message|].
  subst msg. unfold Auth.validatePassword.
  split; [intros H; rewrite (Hshort H); reflexivity|].
  split; [intros H H1; rewrite (Hlong H), H1; reflexivity|].
  split; [intros H H1 H2; rewrite (Hlong H), H1, H2; reflexivity|].
  split; [intros H H1 H2 H3; rewrite (Hlong H), H1, H2, H3; reflexivity|].
  split; [intros H H1 H2 H3 H4; rewrite (Hlong H), H1, H2, H3, H4; reflexivity|].
  fold (Auth.validatePassword p).
  subst st'. unfold AuthForm.handlePasswordChange.
  destruct (AuthForm.isLogin st) eqn:Hlogin; cbn [negb andb].
  - cbn. repeat split; auto.
  - case_bool_decide as Hp; cbn [negb].
    + cbn. repeat split; auto.
    + cbn. repeat split; try reflexivity.
      * intros H. right. right. apply validatePassword_message, H.
      * intros [H|[H|H]]; [discriminate | contradiction |].
        apply validatePassword_message, H.
Qed.

Lemma password_feedback_witness :
  snd (Auth.validatePassword (JS.lit "Abc1!"))
  = "Password must be at least 8 characters long"
  ∧ snd (Auth.validatePassword (JS.lit "abcdefg1!"))
    = "Password must contain at least one uppercase letter".
Proof.
  pose (st := {| AuthForm.isLogin := false; AuthForm.email := [];
                 AuthForm.password := []; AuthForm.fullName := [];
                 AuthForm.loading := false; AuthForm.error := "";
                 AuthForm.passwordError := "" |}).
  split.
  - refine (proj1 (proj2 (password_feedback (JS.lit "Abc1!") st)) _).
    vm_compute. lia.
  - refine (proj1 (proj2 (proj2 (password_feedback (JS.lit "abcdefg1!") st))) _ _).
    + vm_compute. lia.
    + reflexivity.
Defined.

Ltac sent_nothing :=
  cbn; split_and!; try done; try lia;
  [ intros r Hin; apply elem_of_nil in Hin; contradiction
  | intros _; left; discriminate ].

(** X20: a submission sends at most one request, and only checked input.
    A request goes out only with a non-empty email and password; it carries
    the trimmed email and the password as typed; a sign-up also carries the
    trimmed full name, which is then non-empty, and a password the policy
    accepts.  When nothing is sent the form shows an error or a password
    message.  The form navigates only after a request that came back with
    data (for a sign-up: with a session), and then shows no error.  The
    loading flag is off at the end in every case and the typed fields are
    kept. *)
Theorem handleAuth_sends_only_checked_input
  (auth : AuthForm.AuthRequest → AuthForm.AuthResponse) (st : AuthForm.State) :
  let out := AuthForm.handleAuth auth st in
  AuthForm.loading (fst out) = false
  ∧ AuthForm.isLogin (fst out) = AuthForm.isLogin st
  ∧ AuthForm.email (fst out) = AuthForm.email st
  ∧ AuthForm.password (fst out) = AuthForm.password st
  ∧ AuthForm.fullName (fst out) = AuthForm.fullName st
  ∧ length (AuthForm.requests (snd out)) ≤ 1
  ∧ (∀ req, req ∈ AuthForm.requests (snd out) →
       AuthForm.email st ≠ [] ∧ AuthForm.password st ≠ []
       ∧ match req with
         | AuthForm.SignInWithPassword e p =>
             AuthForm.isLogin st = true
             ∧ e = JSText.trim (AuthForm.email st) ∧ p = AuthForm.password st
         | AuthForm.SignUp e p n =>
             AuthForm.isLogin st = false
             ∧ e = JSText.trim (AuthForm.email st) ∧ p = AuthForm.password st
             ∧ n = JSText.trim (AuthForm.fullName st) ∧ n ≠ []
             ∧ fst (Auth.validatePassword p) = true
         end)
  ∧ (AuthForm.requests (snd out) = [] →
       AuthForm.error (fst out) ≠ "" ∨ AuthForm.passwordError (fst out) ≠ "")
  ∧ (AuthForm.navigated (snd out) = true →
       AuthForm.error (fst out) = ""
       ∧ ∃ req user session,
           AuthForm.requests (snd out) = [req]
           ∧ auth req = AuthForm.AuthData user session
           ∧ (AuthForm.isLogin st = false → session = true)).
Proof.
  intros out. subst out. unfold AuthForm.handleAuth. cbv zeta.
  case_bool_decide as He; cbn [orb]; [sent_nothing|].
  case_bool_decide as Hp; cbn [orb]; [sent_nothing|].
  destruct (AuthForm.isLogin st) eqn:Hlogin; cbn [negb andb].
  - destruct (auth _) as [message|user session] eqn:Hauth; cbn;
      split_and!; try done; try lia;
      try (intros r Hin; apply list_elem_of_singleton in Hin as ->; done).
    intros _. split; [done|]. eexists _, user, session. split_and!; done.
  - case_bool_decide as Hn; cbn [andb]; [sent_nothing|].
    destruct (fst (Auth.validatePassword (AuthForm.password st))) eqn:Hv;
      cbn [negb].
    2:{ cbn; split_and!; try done; try lia.
        - intros r Hin; apply elem_of_nil in Hin; contradiction.
        - intros _. right. intros Hm.
          apply validatePassword_message in Hm. congruence. }
    destruct (auth _) as [message|user session] eqn:Hauth.
    + cbn. split_and!; try done; try lia.
      intros r Hin. apply list_elem_of_singleton in Hin as ->. done.
    + destruct user, session; cbn; split_and!; try done; try lia;
        try (intros r Hin; apply list_elem_of_singleton in Hin as ->; done);
        try (intros _; split; [done|]; eexists _, _, _; split_and!; [done|exact Hauth|done]).
Qed.

Lemma handleAuth_sends_only_checked_input_witness :
  AuthForm.error
    (fst (AuthForm.handleAuth (fun _ => AuthForm.AuthData true true)
            {| AuthForm.isLogin := true; AuthForm.email := JS.lit " ada@example.org ";
               AuthForm.password := JS.lit "secret"; AuthForm.fullName := [];
               AuthForm.loading := false; AuthForm.error := "stale";
               AuthForm.passwordError := "" |})) = "".
Proof.
  destruct (handleAuth_sends_only_checked_input
              (fun _ => AuthForm.AuthData true true)
              {| AuthForm.isLogin := true;
                 AuthForm.email := JS.lit " ada@example.org ";
                 AuthForm.password := JS.lit "secret"; AuthForm.fullName := [];
                 AuthForm.loading := false; AuthForm.error := "stale";
                 AuthForm.passwordError := "" |})
    as (_ & _ & _ & _ & _ & _ & _ & _ & H).
  exact (proj1 (H eq_refl)).
Defined.

(** X21: the message shown for a failed request.  It is never empty.  An
    error without a message, or with an empty one, gives the general text.
    A message that contains Invalid login credentials gives the credentials
    text; otherwise one that contains User already registered gives the
    existing-account text; otherwise one that contains Email not confirmed
    gives the verification text; any other non-empty message is shown as it
    is. *)
Theorem auth_error_message_cases (message : option string) :
  let contains := fun m t : string => ∃ pre post, m = pre +:+ t +:+ post in
  let shown := AuthForm.auth_error_message message in
  shown ≠ ""
  ∧ (message = None ∨ message = Some "" →
     shown = "An error occurred during authentication")
  ∧ (∀ m, message = Some m → contains m "Invalid login credentials" →
       shown = "Invalid email or password. Please check your credentials and try again.")
  ∧ (∀ m, message = Some m → ¬ contains m "Invalid login credentials" →
       contains m "User already registered" →
       shown = "An account with this email already exists. Please try logging in instead.")
  ∧ (∀ m, message = Some m → ¬ contains m "Invalid login credentials" →
       ¬ contains m "User already registered" →
       contains m "Email not confirmed" →
       shown = "Please check your email and click the verification link before logging in.")
  ∧ (∀ m, message = Some m → m ≠ "" →
       ¬ contains m "Invalid login credentials" →
       ¬ contains m "User already registered" →
       ¬ contains m "Email not confirmed" →
       shown = m).
Proof.
  intros contains shown. subst shown.
  assert (Hyes : ∀ m t, contains m t → JSText.includes m t = true)
    by (intros m t; apply includes_iff).
  assert (Hno : ∀ m t, ¬ contains m t → JSText.includes m t = false).
  { intros m t H. apply not_true_is_false. intros Hi. apply H.
    apply includes_iff. exact Hi. }
  destruct message as [m|]; cbn [AuthForm.auth_error_message].
  2:{ split_and!; try done; intros m H; discriminate. }
  destruct (truthy m) eqn:Ht.
  - apply truthy_nonempty in Ht. split_and!.
    + destruct (JSText.includes m _); [discriminate|].
      destruct (JSText.includes m _); [discriminate|].
      destruct (JSText.includes m _); [discriminate|exact Ht].
    + intros [H|H]; congruence.
    + intros x [= <-] H1. rewrite (Hyes _ _ H1). reflexivity.
    + intros x [= <-] H1 H2. rewrite (Hno _ _ H1), (Hyes _ _ H2). reflexivity.
    + intros x [= <-] H1 H2 H3.
      rewrite (Hno _ _ H1), (Hno _ _ H2), (Hyes _ _ H3). reflexivity.
    + intros x [= <-] _ H1 H2 H3.
      rewrite (Hno _ _ H1), (Hno _ _ H2), (Hno _ _ H3). reflexivity.
  - apply not_true_iff_false in Ht. rewrite truthy_nonempty in Ht.
    assert (m = "") as -> by (destruct (decide (m = "")); [done|contradiction]).
    split_and!; try done.
    + intros x [= <-] H1. apply Hyes in H1. discriminate.
    + intros x [= <-] _ H1. apply Hyes in H1. discriminate.
    + intros x [= <-] _ _ H1. apply Hyes in H1. discriminate.
    + intros x [= <-] H. contradiction.
Qed.

Lemma auth_error_message_cases_witness :
  AuthForm.auth_error_message (Some "AuthApiError: Invalid login credentials")
  = "Invalid email or password. Please check your credentials and try again.".
Proof.
  destruct (auth_error_message_cases
              (Some "AuthApiError: Invalid login credentials"))
    as (_ & _ & H & _).
  apply (H _ eq_refl). exists "AuthApiError: ", "". reflexivity.
Defined.

(** ** The save dialog and the name editor *)

Section trimming.
Import JS JSText.

Lemma trimStart_split (s : jsstring) :
  ∃ pre, s = pre ++ trimStart s ∧ blank pre.
Proof.
  induction s as [|c s [pre [Hs Hpre]]]; [exists []; split; [done|constructor]|].
  cbn [trimStart]. destruct (is_white_space c) eqn:Hc.
  - exists (c :: pre). split; [cbn; congruence | constructor; assumption].
  - exists []. split; [done|constructor].
Qed.

Lemma trimStart_head (s : jsstring) (c : code_unit) :
  head (trimStart s) = Some c → is_white_space c = false.
Proof.
  induction s as [|d s IH]; [discriminate|].
  cbn [trimStart]. destruct (is_white_space d) eqn:Hd; [exact IH|].
  cbn. congruence.
Qed.

Lemma trimStart_snoc (s : jsstring) (c : code_unit) :
  is_white_space c = false → trimStart (s ++ [c]) = trimStart s ++ [c].
Proof.
  intros Hc. induction s as [|d s IH]; cbn [app trimStart].
  - rewrite Hc. reflexivity.
  - destruct (is_white_space d); [exact IH | reflexivity].
Qed.

Lemma trimStart_blank (s : jsstring) : blank s → trimStart s = [].
Proof.
  induction 1 as [|c s Hc _ IH]; [reflexivity|].
  cbn [trimStart]. rewrite Hc. exact IH.
Qed.

Lemma trim_split (s : jsstring) :
  ∃ pre post, s = pre ++ trim s ++ post ∧ blank pre ∧ blank post.
Proof.
  destruct (trimStart_split s) as [pre [Hs Hpre]].
  destruct (trimStart_split (reverse (trimStart s))) as [post [Hr Hpost]].
  exists pre, (reverse post). split_and!; [|assumption|apply Forall_reverse; assumption].
  unfold trim, trimEnd. rewrite <- reverse_app, <- Hr, reverse_involutive.
  exact Hs.
Qed.

Lemma trim_ends (s : jsstring) :
  (∀ c, head (trim s) = Some c → is_white_space c = false)
  ∧ (∀ c, head (reverse (trim s)) = Some c → is_white_space c = false).
Proof.
  unfold trim, trimEnd. split; intros c.
  - destruct (trimStart s) as [|d t] eqn:Ht; [discriminate|].
    assert (Hd : is_white_space d = false)
      by (apply (trimStart_head s); rewrite Ht; reflexivity).
    rewrite reverse_cons, (trimStart_snoc _ _ Hd), reverse_app. cbn. congruence.
  - rewrite reverse_involutive. apply trimStart_head.
Qed.

Lemma trim_blank (s : jsstring) : trim s = [] ↔ blank s.
Proof.
  split.
  - intros H. destruct (trim_split s) as [pre [post [Hs [Hpre Hpost]]]].
    rewrite H in Hs. rewrite Hs. apply Forall_app. split; assumption.
  - intros H. unfold trim. rewrite (trimStart_blank s H). reflexivity.
Qed.

End trimming.

(** X22: the save dialog.  Opening it on a name that ends in a star shows
    the name without that one star, and any other name as it is.  Saving
    calls back exactly when the name has a character that is not white
    space: the callback then gets the name and the counterparty text with
    the white space at both ends removed and nothing else changed, and the
    dialog closes; for a blank name it sets the alert, keeps the dialog open
    and calls nothing. *)
Theorem save_dialog_forwards_trimmed_names
  (initialName : JS.jsstring) (st : ScriptSaveModal.State) :
  let trimmed_of := fun full part : JS.jsstring =>
    (∃ pre post, full = pre ++ part ++ post ∧ JSText.blank pre ∧ JSText.blank post)
    ∧ (∀ c, head part = Some c ∨ head (reverse part) = Some c →
            JSText.is_white_space c = false) in
  let out := ScriptSaveModal.handleSave st in
  let st' := fst (fst out) in
  let saved := snd (fst out) in
  let closed := snd out in
  (∀ x, initialName = x ++ [42%N] →
        ScriptSaveModal.scriptName (ScriptSaveModal.on_open true initialName st) = x)
  ∧ (JSText.endsWith 42 initialName = false →
     ScriptSaveModal.scriptName (ScriptSaveModal.on_open true initialName st)
     = initialName)
  ∧ ScriptSaveModal.on_open false initialName st = st
  ∧ ScriptSaveModal.scriptName st' = ScriptSaveModal.scriptName st
  ∧ (saved = None ↔ JSText.blank (ScriptSaveModal.scriptName st))
  ∧ (saved = None →
     closed = false ∧ ScriptSaveModal.alert st' = Some "Script name is required.")
  ∧ (∀ n info, saved = Some (n, info) →
       closed = true ∧ ScriptSaveModal.alert st' = None
       ∧ n ≠ []
       ∧ trimmed_of (ScriptSaveModal.scriptName st) n
       ∧ trimmed_of (ScriptSaveModal.counterpartyInfo st) info).
Proof.
  intros trimmed_of out st' saved closed.
  assert (Htrim : ∀ s, trimmed_of s (JSText.trim s)).
  { intros s. split; [apply trim_split|].
    intros c [H|H]; [apply (proj1 (trim_ends s)) | apply (proj2 (trim_ends s))];
      exact H. }
  subst st' saved closed out. unfold ScriptSaveModal.handleSave.
  split_and!.
  - intros x ->. cbn. unfold JSText.endsWith, JSText.slice_but_last.
    rewrite reverse_app. cbn. rewrite length_app. cbn.
    replace (length x + 1 - 1) with (length x) by lia.
    rewrite take_app_length. reflexivity.
  - intros H. cbn. rewrite H. reflexivity.
  - reflexivity.
  - destruct (decide _); reflexivity.
  - rewrite <- trim_blank. destruct (decide _) as [H|H]; cbn; split; try done.
  - destruct (decide _); cbn; [done|discriminate].
  - intros n info. destruct (decide _) as [H|H]; cbn; [discriminate|].
    intros [= <- <-]. split_and!; try done; apply Htrim.
Qed.

Lemma save_dialog_forwards_trimmed_names_witness :
  ScriptSaveModal.scriptName
    (ScriptSaveModal.on_open true (JS.lit "New Script*") ScriptSaveModal.initial)
  = JS.lit "New Script".
Proof.
  destruct (save_dialog_forwards_trimmed_names
              (JS.lit "New Script*") ScriptSaveModal.initial) as (H & _).
  apply (H (JS.lit "New Script")). reflexivity.
Defined.

(** X23: the name editor after an edit.  A value of at most 60 units is
    kept as typed, and feeding the kept name back changes nothing.  The
    counter under the title is visible after an edit exactly when the typed
    value had at least 60 units and edit mode is on, and it then always
    reads 60/60 characters.  Without a change callback nothing is called. *)
Theorem name_editor_after_an_edit
  (p : EventsHeader.Props) (value : JS.jsstring) (st : EventsHeader.State) :
  let st' := fst (EventsHeader.handleScriptNameChange p value st) in
  (length value ≤ 60 → EventsHeader.scriptName st' = value)
  ∧ fst (EventsHeader.handleScriptNameChange p (EventsHeader.scriptName st') st')
    = st'
  ∧ (EventsHeader.counter p st' ≠ None
     ↔ 60 ≤ length value ∧ EventsHeader.isModifyMode p = true)
  ∧ (∀ c, EventsHeader.counter p st' = Some c →
          EventsHeader.text c = "60/60 characters")
  ∧ (EventsHeader.has_onScriptNameChange p = false →
     snd (EventsHeader.handleScriptNameChange p value st) = []).
Proof.
  intros st'. subst st'. unfold EventsHeader.handleScriptNameChange, JS.slice0.
  cbn [fst snd EventsHeader.scriptName EventsHeader.isEditingName].
  split_and!.
  - intros H. apply take_ge. exact H.
  - rewrite take_take. replace (60 `min` 60) with 60 by reflexivity. reflexivity.
  - unfold EventsHeader.counter. cbn [EventsHeader.scriptName].
    rewrite length_take.
    destruct (EventsHeader.isModifyMode p); rewrite ?andb_false_r, ?andb_true_r.
    + destruct (Nat.leb_spec 60 (60 `min` length value)); split.
      * intros _. split; [lia|reflexivity].
      * discriminate.
      * intros H0. contradiction.
      * intros [H0 _]. lia.
    + split; [intros H; contradiction | intros [_ H]; discriminate].
  - intros c. unfold EventsHeader.counter. cbn [EventsHeader.scriptName].
    rewrite length_take.
    destruct (le_lt_dec 60 (length value)) as [H|H].
    + rewrite (Nat.min_l 60 (length value) H).
      destruct (EventsHeader.isModifyMode p); [|discriminate].
      intros [= <-]. reflexivity.
    + rewrite (Nat.min_r 60 (length value)) by lia.
      destruct (Nat.leb_spec 60 (length value)); [lia|discriminate].
  - intros ->. reflexivity.
Qed.

Lemma name_editor_after_an_edit_witness :
  EventsHeader.scriptName
    (fst (EventsHeader.handleScriptNameChange
            {| EventsHeader.currentScriptName := [];
               EventsHeader.isModifyMode := true;
               EventsHeader.has_onScriptNameChange := true |}
            (JS.lit "Swap 5Y")
            {| EventsHeader.scriptName := []; EventsHeader.isEditingName := true |}))
  = JS.lit "Swap 5Y".
Proof.
  destruct (name_editor_after_an_edit
              {| EventsHeader.currentScriptName := [];
                 EventsHeader.isModifyMode := true;
                 EventsHeader.has_onScriptNameChange := true |}
              (JS.lit "Swap 5Y")
              {| EventsHeader.scriptName := []; EventsHeader.isEditingName := true |})
    as (H & _).
  apply H. vm_compute. lia.
Defined.

(** ** Fuzzy conditions *)

Section fuzzy_logic.
Import Fuzzy FuzzyEvaluator.
Local Open Scope R_scope.

(** The clamp inside the functional-if. *)
Lemma clamp_cases (eps y : R) :
  0 < eps →
  (y <= 0 ∧ Rmax 0 (Rmin eps y) = 0)
  ∨ (0 <= y <= eps ∧ Rmax 0 (Rmin eps y) = y)
  ∨ (eps <= y ∧ Rmax 0 (Rmin eps y) = eps).
Proof.
  intros He. destruct (Rle_lt_dec y 0) as [H0|H0].
  - left. split; [lra|]. apply ramp_below; lra.
  - destruct (Rle_lt_dec eps y) as [H1|H1].
    + right. right. split; [lra|]. apply ramp_above; lra.
    + right. left. split; [lra|]. apply ramp_inside; lra.
Qed.

Lemma dt_clamp (x eps : R) :
  0 < eps → dt x eps = Rmax 0 (Rmin eps (x + eps / 2)) * / eps.
Proof. intros He. unfold dt, fIf. field. lra. Qed.

Lemma fIf_blend (x a b eps : R) :
  0 < eps → fIf x a b eps = fuzzed (dt x eps) a b.
Proof. intros He. unfold fuzzed, dt, fIf. field. lra. Qed.

Lemma dt_range (x eps : R) : 0 < eps → 0 <= dt x eps <= 1.
Proof.
  intros He. rewrite dt_clamp by exact He.
  destruct (clamp_cases eps (x + eps / 2) He) as [[H ->]|[[H ->]|[H ->]]].
  - rewrite Rmult_0_l. lra.
  - split.
    + apply Rmult_le_pos; [lra|]. left. apply Rinv_0_lt_compat. exact He.
    + apply (Rmult_le_reg_r eps); [exact He|].
      rewrite Rmult_assoc, Rinv_l by lra. lra.
  - rewrite Rinv_r by lra. lra.
Qed.

Lemma clamp_monotone (eps y z : R) :
  0 < eps → y <= z → Rmax 0 (Rmin eps y) <= Rmax 0 (Rmin eps z).
Proof.
  intros He Hyz.
  destruct (clamp_cases eps y He) as [[H ->]|[[H ->]|[H ->]]];
    destruct (clamp_cases eps z He) as [[H' ->]|[[H' ->]|[H' ->]]]; lra.
Qed.

Lemma clamp_lipschitz (eps y z : R) :
  0 < eps → Rabs (Rmax 0 (Rmin eps y) - Rmax 0 (Rmin eps z)) <= Rabs (y - z).
Proof.
  intros He.
  destruct (clamp_cases eps y He) as [[H ->]|[[H ->]|[H ->]]];
    destruct (clamp_cases eps z He) as [[H' ->]|[[H' ->]|[H' ->]]];
    unfold Rabs; repeat destruct (Rcase_abs _); lra.
Qed.

(** X24: the truth degree of a condition, dt(x > 0) = fIf(x, 1, 0, eps),
    for a width eps > 0.  It lies in [0, 1]; it is 0 exactly for
    x <= -eps/2 and 1 exactly for x >= eps/2; it does not decrease in x; the
    degree of -x is the fuzzy negation of the degree of x.  The
    functional-if is the fuzzed variable dt * a + (1 - dt) * b, so it stays
    between a and b, and it changes by at most |a - b| / eps per unit of
    x. *)
Theorem truth_degree_properties (x y a b eps : R) :
  0 < eps →
  0 <= dt x eps <= 1
  ∧ (dt x eps = 0 ↔ x <= - eps / 2)
  ∧ (dt x eps = 1 ↔ eps / 2 <= x)
  ∧ (x <= y → dt x eps <= dt y eps)
  ∧ dt (- x) eps = dt_not (dt x eps)
  ∧ fIf x a b eps = fuzzed (dt x eps) a b
  ∧ Rmin a b <= fIf x a b eps <= Rmax a b
  ∧ Rabs (fIf x a b eps - fIf y a b eps) <= Rabs (a - b) / eps * Rabs (x - y).
Proof.
  intros He.
  set (k := / eps).
  assert (Hk : 0 < k) by (apply Rinv_0_lt_compat; exact He).
  assert (Hke : k * eps = 1) by (apply Rinv_l; lra).
  pose proof (dt_range x eps He) as Hrange.
  split_and!.
  - apply Hrange.
  - apply Hrange.
  - rewrite dt_clamp by exact He. fold k.
    destruct (clamp_cases eps (x + eps / 2) He) as [[H ->]|[[H ->]|[H ->]]];
      split; intros; try lra; try nra.
  - rewrite dt_clamp by exact He. fold k.
    destruct (clamp_cases eps (x + eps / 2) He) as [[H ->]|[[H ->]|[H ->]]];
      split; intros; try lra; try nra.
  - intros Hxy. rewrite !dt_clamp by exact He. fold k.
    apply Rmult_le_compat_r; [lra|]. apply clamp_monotone; lra.
  - unfold dt_not. rewrite !dt_clamp by exact He. fold k.
    destruct (clamp_cases eps (x + eps / 2) He) as [[H ->]|[[H ->]|[H ->]]];
      destruct (clamp_cases eps (- x + eps / 2) He) as [[H' ->]|[[H' ->]|[H' ->]]];
      try lra; try nra.
  - apply fIf_blend. exact He.
  - rewrite fIf_blend by exact He. unfold fuzzed, Rmin.
    revert Hrange. generalize (dt x eps). intros d [Hd0 Hd1].
    destruct (Rle_dec a b).
    + assert (0 <= (1 - d) * (b - a)) by (apply Rmult_le_pos; lra). clear k Hk Hke. nra.
    + assert (0 <= d * (a - b)) by (apply Rmult_le_pos; lra). clear k Hk Hke. nra.
  - rewrite fIf_blend by exact He. unfold fuzzed, Rmax.
    revert Hrange. generalize (dt x eps). intros d [Hd0 Hd1].
    destruct (Rle_dec a b).
    + assert (0 <= d * (b - a)) by (apply Rmult_le_pos; lra). clear k Hk Hke. nra.
    + assert (0 <= (1 - d) * (a - b)) by (apply Rmult_le_pos; lra). clear k Hk Hke. nra.
  - replace (fIf x a b eps - fIf y a b eps)
      with ((a - b) * k * (Rmax 0 (Rmin eps (x + eps / 2))
                           - Rmax 0 (Rmin eps (y + eps / 2))))
      by (unfold fIf, k, Rdiv; ring).
    replace (Rabs (a - b) / eps * Rabs (x - y))
      with (Rabs (a - b) * k * Rabs (x - y)) by (unfold k, Rdiv; ring).
    rewrite !Rabs_mult, (Rabs_pos_eq k) by lra.
    apply Rmult_le_compat_l.
    + apply Rmult_le_pos; [apply Rabs_pos | lra].
    + replace (x - y) with ((x + eps / 2) - (y + eps / 2)) by ring.
      apply clamp_lipschitz. exact He.
Qed.

Lemma truth_degree_properties_witness :
  0 <= dt 0 2 <= 1 ∧ dt 0 2 <= dt 3 2.
Proof.
  assert (He : 0 < 2) by lra.
  destruct (truth_degree_properties 0 3 1 0 2 He) as (Hr & _ & _ & Hm & _).
  split; [exact Hr | apply Hm; lra].
Defined.

(** X25: the fuzzy connectives and = p * q, or = p + q - p * q,
    not = 1 - p.  De Morgan's laws and double negation hold for all
    numbers.  On degrees in [0, 1] the results stay in [0, 1], and is at most
    the smaller degree and or at least the larger.  The connectives are not
    idempotent and a condition is not exclusive of its negation: p and p = p,
    p or p = p, p and not p = 0, p or not p = 1 each hold exactly when p is
    0 or 1. *)
Theorem fuzzy_connectives (p q : R) :
  dt_not (dt_and p q) = dt_or (dt_not p) (dt_not q)
  ∧ dt_not (dt_or p q) = dt_and (dt_not p) (dt_not q)
  ∧ dt_not (dt_not p) = p
  ∧ (0 <= p <= 1 → 0 <= q <= 1 →
     0 <= dt_and p q <= Rmin p q
     ∧ Rmax p q <= dt_or p q <= 1
     ∧ 0 <= dt_not p <= 1)
  ∧ (dt_and p p = p ↔ p = 0 ∨ p = 1)
  ∧ (dt_or p p = p ↔ p = 0 ∨ p = 1)
  ∧ (dt_and p (dt_not p) = 0 ↔ p = 0 ∨ p = 1)
  ∧ (dt_or p (dt_not p) = 1 ↔ p = 0 ∨ p = 1).
Proof.
  assert (Hsq : ∀ u : R, u * (1 - u) = 0 ↔ u = 0 ∨ u = 1).
  { intros u. split.
    - intros H. apply Rmult_integral in H. destruct H; [left | right]; lra.
    - intros [-> | ->]; ring. }
  unfold dt_and, dt_or, dt_not. split_and!.
  - ring.
  - ring.
  - ring.
  - intros Hp Hq. unfold Rmin, Rmax. destruct (Rle_dec p q); split_and!; nra.
  - rewrite <- Hsq. split; intros; lra.
  - rewrite <- Hsq. split; intros; lra.
  - apply Hsq.
  - rewrite <- Hsq. split; intros; lra.
Qed.

Lemma fuzzy_connectives_witness :
  0 <= dt_and (1 / 2) (1 / 4) <= Rmin (1 / 2) (1 / 4).
Proof.
  destruct (fuzzy_connectives (1 / 2) (1 / 4)) as (_ & _ & _ & H & _).
  apply H; lra.
Defined.

End fuzzy_logic.

(** ** The new-script dialog and the Google sign-in *)

(** X29: the new-script dialog.  The add callback is called exactly when
    the name has visible text and its trimmed form is not among the existing
    names; it gets the trimmed name, the dialog closes and goes back to its
    default name.  So a list of distinct names stays distinct when the added
    name is appended, and adding the same text again is refused as not
    unique.  A refusal keeps the typed name, keeps the dialog open and sets
    the alert. *)
Theorem new_script_names_stay_unique
  (existingScriptNames : list JS.jsstring) (st : NewScriptModal.State) :
  let out := NewScriptModal.handleAddScript existingScriptNames st in
  let st' := fst (fst out) in
  let added := snd (fst out) in
  let closed := snd out in
  (added = None
   ↔ JSText.blank (NewScriptModal.scriptName st)
     ∨ JSText.trim (NewScriptModal.scriptName st) ∈ existingScriptNames)
  ∧ (added = None →
     closed = false
     ∧ NewScriptModal.scriptName st' = NewScriptModal.scriptName st
     ∧ NewScriptModal.alert st'
       = Some (if decide (JSText.trim (NewScriptModal.scriptName st) = [])
               then "Script name is required."
               else "Script name must be unique."))
  ∧ (∀ n, added = Some n →
       n = JSText.trim (NewScriptModal.scriptName st)
       ∧ n ≠ [] ∧ (n ∉ existingScriptNames)
       ∧ closed = true ∧ st' = NewScriptModal.initial
       ∧ (NoDup existingScriptNames → NoDup (existingScriptNames ++ [n]))
       ∧ snd (fst (NewScriptModal.handleAddScript (existingScriptNames ++ [n]) st))
         = None).
Proof.
  intros out st' added closed. subst st' added closed out.
  unfold NewScriptModal.handleAddScript.
  destruct (decide (JSText.trim (NewScriptModal.scriptName st) = [])) as [Hb|Hb].
  - cbn. split_and!; try done.
    split; [intros _; left; apply trim_blank; exact Hb | reflexivity].
  - case_bool_decide as Hin; cbn.
    + split_and!; try done.
      split; [intros _; right; exact Hin | reflexivity].
    + split_and!; try done.
      * split; [discriminate|]. intros [H|H]; [|contradiction].
        apply trim_blank in H. contradiction.
      * intros n [= <-]. split_and!; try done.
        -- intros Hnd. apply list.NoDup_app.
           split_and!; [exact Hnd | | apply list.NoDup_singleton].
           intros x Hx Hx'. apply list_elem_of_singleton in Hx' as ->. contradiction.
        -- rewrite bool_decide_true; [reflexivity|].
           apply elem_of_app. right. apply list_elem_of_singleton. reflexivity.
Qed.

Lemma new_script_names_stay_unique_witness :
  snd (fst (NewScriptModal.handleAddScript [JS.lit "Untitled Script"]
              NewScriptModal.initial)) = None.
Proof.
  destruct (new_script_names_stay_unique [] NewScriptModal.initial)
    as (_ & _ & H).
  destruct (H (JS.lit "Untitled Script") eq_refl) as (_ & _ & _ & _ & _ & _ & H').
  exact H'.
Defined.

(** X30: signing in with Google.  With data back the handler shows no
    error and leaves the loading flag on, for the redirect.  With an error
    that has a message it turns the flag off and shows a non-empty text: the
    popup text when the message contains popup, else the message itself,
    else, for an empty message, the general text.  With an error that has no
    message, reading the message throws inside the handler: the flag stays
    on and no error is shown. *)
Theorem google_sign_in_outcomes
  (response : GoogleAuth.OAuthResponse) (st : GoogleAuth.State) :
  let contains := fun m t : string => ∃ pre post, m = pre +:+ t +:+ post in
  let out := GoogleAuth.handleGoogleAuth response st in
  (response = GoogleAuth.OAuthData →
   out = ({| GoogleAuth.googleLoading := true; GoogleAuth.error := "" |}, None))
  ∧ (response = GoogleAuth.OAuthError None →
     snd out ≠ None
     ∧ fst out = {| GoogleAuth.googleLoading := true; GoogleAuth.error := "" |})
  ∧ (∀ m, response = GoogleAuth.OAuthError (Some m) →
       snd out = None
       ∧ GoogleAuth.googleLoading (fst out) = false
       ∧ GoogleAuth.error (fst out) ≠ ""
       ∧ (contains m "popup" →
          GoogleAuth.error (fst out)
          = "Google login popup was blocked. Please allow popups and try again.")
       ∧ (¬ contains m "popup" → m ≠ "" → GoogleAuth.error (fst out) = m)
       ∧ (m = "" →
          GoogleAuth.error (fst out)
          = "An error occurred during Google authentication")).
Proof.
  intros contains out. subst out. split_and!.
  - intros ->. reflexivity.
  - intros ->. cbn. split; [discriminate | reflexivity].
  - intros m ->. cbn [GoogleAuth.handleGoogleAuth fst snd GoogleAuth.error
                      GoogleAuth.googleLoading].
    pose proof (includes_iff m "popup") as Hinc. fold (contains m "popup") in Hinc.
    pose proof (truthy_nonempty m) as Htr.
    destruct (JSText.includes m "popup") eqn:Hp.
    + split_and!; try done.
      * intros Hn. exfalso. apply Hn, Hinc. reflexivity.
      * intros ->. discriminate.
    + assert (Hnot : ¬ contains m "popup")
        by (intros Hc; apply Hinc in Hc; discriminate).
      destruct (truthy m) eqn:Ht.
      * assert (Hm : m ≠ "") by (apply Htr; reflexivity).
        split_and!; try done.
      * assert (Hm : m = "").
        { destruct (decide (m = "")) as [|Hne]; [assumption|].
          apply Htr in Hne. discriminate. }
        split_and!; try done.
Qed.

Lemma google_sign_in_outcomes_witness :
  GoogleAuth.error
    (fst (GoogleAuth.handleGoogleAuth
            (GoogleAuth.OAuthError (Some "popup closed"))
            {| GoogleAuth.googleLoading := false; GoogleAuth.error := "" |}))
  = "Google login popup was blocked. Please allow popups and try again.".
Proof.
  destruct (google_sign_in_outcomes
              (GoogleAuth.OAuthError (Some "popup closed"))
              {| GoogleAuth.googleLoading := false; GoogleAuth.error := "" |})
    as (_ & _ & H).
  destruct (H "popup closed" eq_refl) as (_ & _ & _ & H' & _).
  apply H'. exists "", " closed". reflexivity.
Defined.
